(** * UnityAudioPlayer (blophy-audio.cpp): a shallow embedding and its properties

    The player of [blophy-audio.cpp] is embedded as functions over a record
    that mirrors the data members of [class UnityAudioPlayer].

    - C++ [float] is IEEE-754 binary32.  It is modelled with the Standard
      Library's executable specification of floating-point arithmetic
      ([SpecFloat]) instantiated at precision 24 and maximal exponent 128,
      round-to-nearest-even.
    - C++ [int] values are modelled as [Z].  Signed overflow is undefined
      behaviour in C++ and is outside the model; the place where the
      source converts between integer types of different width
      ([samples.size() / m_channels]) is written out.
    - Undefined behaviour that the properties below talk about (reading
      [std::vector] out of range, [%] and [/] by zero, a float-to-int
      conversion whose value does not fit) makes the embedded function
      return [None].
    - The Oboe stream, the asset/file loaders and the decoder are external
      collaborators: their answers are inputs of the embedded functions and
      the calls made on them are recorded in a log. *)

From Stdlib Require Import ZArith List Bool Lia String Ascii.
From Stdlib Require Import Floats.SpecFloat.
Import ListNotations.
Local Open Scope Z_scope.

(** ** Binary32 arithmetic *)

Module Float32.

Definition float : Type := spec_float.

Definition prec : Z := 24.
Definition emax : Z := 128.

(** The literals [0.0f] and [1.0f]. *)
Definition zero : float := S754_zero false.
Definition one : float := S754_finite false 8388608 (-23).

Definition add : float -> float -> float := SFadd prec emax.
Definition mul : float -> float -> float := SFmul prec emax.
Definition div : float -> float -> float := SFdiv prec emax.

(** [a < b], [a <= b], [a >= b] and [a == b]; all false on NaN. *)
Definition lt (a b : float) : bool := SFltb a b.
Definition le (a b : float) : bool := SFleb a b.
Definition ge (a b : float) : bool := SFleb b a.
Definition eqb (a b : float) : bool := SFeqb a b.

Definition is_nan (a : float) : bool :=
  match a with S754_nan => true | _ => false end.

(** [static_cast<float>(n)] for an [int] [n], and the implicit conversion of
    an [int] operand in a mixed [int]/[float] expression. *)
Definition of_int (n : Z) : float := binary_normalize prec emax n 0 false.

Definition INT_MIN : Z := - 2 ^ 31.
Definition INT_MAX : Z := 2 ^ 31 - 1.

(** [static_cast<int>(x)]: truncation toward zero.  The conversion is
    undefined when [x] is a NaN or an infinity, or when the truncated value
    is not representable in [int]. *)
Definition to_int (x : float) : option Z :=
  match x with
  | S754_zero _ => Some 0
  | S754_finite s m e =>
      let a := Z.shiftl (Zpos m) e in
      let v := if s then - a else a in
      if (INT_MIN <=? v) && (v <=? INT_MAX) then Some v else None
  | S754_infinity _ | S754_nan => None
  end.

(** [std::min(a, b)] is [(b < a) ? b : a] and [std::max(a, b)] is
    [(a < b) ? b : a]. *)
Definition std_min (a b : float) : float := if lt b a then b else a.
Definition std_max (a b : float) : float := if lt a b then b else a.

(** [std::clamp(v, lo, hi)] is [(v < lo) ? lo : (hi < v) ? hi : v]. *)
Definition clamp (v lo hi : float) : float :=
  if lt v lo then lo else if lt hi v then hi else v.

End Float32.

Import Float32.

(** ** Data model *)

(** [enum AudioState] of blophy-audio.h. *)
Inductive AudioState : Type :=
| AUDIO_STATE_IDLE
| AUDIO_STATE_PLAYING
| AUDIO_STATE_PAUSED
| AUDIO_STATE_STOPPED.

Definition AudioState_eqb (a b : AudioState) : bool :=
  match a, b with
  | AUDIO_STATE_IDLE, AUDIO_STATE_IDLE
  | AUDIO_STATE_PLAYING, AUDIO_STATE_PLAYING
  | AUDIO_STATE_PAUSED, AUDIO_STATE_PAUSED
  | AUDIO_STATE_STOPPED, AUDIO_STATE_STOPPED => true
  | _, _ => false
  end.

(** [oboe::DataCallbackResult]. *)
Inductive DataCallbackResult : Type := Continue | Stop.

(** [oboe::Result]: [OK] or one of the error codes. *)
Inductive Result : Type := OK | Error (code : Z).

Definition Result_is_OK (r : Result) : bool :=
  match r with OK => true | Error _ => false end.

(** An Oboe stream object is identified by the order in which the device
    created it. *)
Definition StreamId : Type := nat.

(** The data members of [class UnityAudioPlayer] that the member functions
    read.  [m_audioStream] is the [std::shared_ptr<oboe::AudioStream>]: empty
    or pointing to one stream.  [m_audioData] is only a scratch holder inside
    [loadAudioData] (its samples are moved out) and the mutex and condition
    variable carry no data; the delay worker [m_delayThread] lives in the
    [Timeline] of the delay scheduler below. *)
Record UnityAudioPlayer : Type := mkPlayer {
  m_state : AudioState;
  m_currentTime : float;
  m_volume : float;
  m_loop : bool;
  m_clipPath : string;
  m_delayTime : float;
  m_audioStream : option StreamId;
  m_interleavedData : list float;
  m_sampleRate : Z;
  m_channels : Z;
  m_totalFrames : Z;
  m_delayCancelled : bool
}.

Definition set_state (s : AudioState) (p : UnityAudioPlayer) : UnityAudioPlayer :=
  mkPlayer s (m_currentTime p) (m_volume p) (m_loop p) (m_clipPath p)
    (m_delayTime p) (m_audioStream p) (m_interleavedData p) (m_sampleRate p)
    (m_channels p) (m_totalFrames p) (m_delayCancelled p).

Definition set_currentTime (t : float) (p : UnityAudioPlayer) : UnityAudioPlayer :=
  mkPlayer (m_state p) t (m_volume p) (m_loop p) (m_clipPath p)
    (m_delayTime p) (m_audioStream p) (m_interleavedData p) (m_sampleRate p)
    (m_channels p) (m_totalFrames p) (m_delayCancelled p).

Definition set_volume (v : float) (p : UnityAudioPlayer) : UnityAudioPlayer :=
  mkPlayer (m_state p) (m_currentTime p) v (m_loop p) (m_clipPath p)
    (m_delayTime p) (m_audioStream p) (m_interleavedData p) (m_sampleRate p)
    (m_channels p) (m_totalFrames p) (m_delayCancelled p).

Definition set_loop (l : bool) (p : UnityAudioPlayer) : UnityAudioPlayer :=
  mkPlayer (m_state p) (m_currentTime p) (m_volume p) l (m_clipPath p)
    (m_delayTime p) (m_audioStream p) (m_interleavedData p) (m_sampleRate p)
    (m_channels p) (m_totalFrames p) (m_delayCancelled p).

Definition set_clipPath (s : string) (p : UnityAudioPlayer) : UnityAudioPlayer :=
  mkPlayer (m_state p) (m_currentTime p) (m_volume p) (m_loop p) s
    (m_delayTime p) (m_audioStream p) (m_interleavedData p) (m_sampleRate p)
    (m_channels p) (m_totalFrames p) (m_delayCancelled p).

Definition set_delayTime (d : float) (p : UnityAudioPlayer) : UnityAudioPlayer :=
  mkPlayer (m_state p) (m_currentTime p) (m_volume p) (m_loop p) (m_clipPath p)
    d (m_audioStream p) (m_interleavedData p) (m_sampleRate p)
    (m_channels p) (m_totalFrames p) (m_delayCancelled p).

Definition set_audioStream (s : option StreamId) (p : UnityAudioPlayer)
  : UnityAudioPlayer :=
  mkPlayer (m_state p) (m_currentTime p) (m_volume p) (m_loop p) (m_clipPath p)
    (m_delayTime p) s (m_interleavedData p) (m_sampleRate p)
    (m_channels p) (m_totalFrames p) (m_delayCancelled p).

Definition set_delayCancelled (b : bool) (p : UnityAudioPlayer) : UnityAudioPlayer :=
  mkPlayer (m_state p) (m_currentTime p) (m_volume p) (m_loop p) (m_clipPath p)
    (m_delayTime p) (m_audioStream p) (m_interleavedData p) (m_sampleRate p)
    (m_channels p) (m_totalFrames p) b.

(** The four clip members are written together by [loadAudioData]. *)
Definition set_clip (rate channels frames : Z) (samples : list float)
  (p : UnityAudioPlayer) : UnityAudioPlayer :=
  mkPlayer (m_state p) (m_currentTime p) (m_volume p) (m_loop p) (m_clipPath p)
    (m_delayTime p) (m_audioStream p) samples rate channels frames
    (m_delayCancelled p).

(** [UnityAudioPlayer::UnityAudioPlayer()].  [m_clipPath] is the empty string,
    [m_audioStream] the empty pointer and [m_interleavedData] the empty
    vector by default construction. *)
Definition newPlayer : UnityAudioPlayer :=
  mkPlayer AUDIO_STATE_IDLE zero one false EmptyString zero None [] 48000 2 0 false.

(** ** Time, volume and loop accessors *)

Definition getMusicLength (p : UnityAudioPlayer) : float :=
  div (of_int (m_totalFrames p)) (of_int (m_sampleRate p)).

Definition getCurrentTime (p : UnityAudioPlayer) : float := m_currentTime p.

Definition setCurrentTime (time : float) (p : UnityAudioPlayer) : UnityAudioPlayer :=
  set_currentTime (std_max zero (std_min time (getMusicLength p))) p.

Definition offsetTime (offset : float) (p : UnityAudioPlayer) : UnityAudioPlayer :=
  setCurrentTime (add (m_currentTime p) offset) p.

Definition resetTime (p : UnityAudioPlayer) : UnityAudioPlayer :=
  set_currentTime zero p.

Definition setVolume (volume : float) (p : UnityAudioPlayer) : UnityAudioPlayer :=
  set_volume (std_max zero (std_min one volume)) p.

Definition getVolume (p : UnityAudioPlayer) : float := m_volume p.

Definition setLoop (loop : bool) (p : UnityAudioPlayer) : UnityAudioPlayer :=
  set_loop loop p.

Definition getLoop (p : UnityAudioPlayer) : bool := m_loop p.

Definition isPlaying (p : UnityAudioPlayer) : bool :=
  AudioState_eqb (m_state p) AUDIO_STATE_PLAYING.

Definition getState (p : UnityAudioPlayer) : AudioState := m_state p.

(** ** Stream lifecycle *)

(** What the player asks of the Oboe library, in program order.
    [CallRelease] records that the shared pointer let go of a stream without
    the player calling [close()] on it. *)
Inductive StreamCall : Type :=
| CallOpenStream (id : StreamId) (channels sampleRate : Z)
| CallOpenFailed (code : Z)
| CallRelease (id : StreamId)
| CallRequestStart (id : StreamId) (r : Result)
| CallStart (id : StreamId)
| CallPause (id : StreamId)
| CallStop (id : StreamId)
| CallClose (id : StreamId).

Record Device : Type := mkDevice {
  next_stream : StreamId;
  calls : list StreamCall
}.

Definition newDevice : Device := mkDevice O [].

Definition record_call (c : StreamCall) (d : Device) : Device :=
  mkDevice (next_stream d) (calls d ++ [c]).

(** [std::shared_ptr::reset()] on the pointer [held]. *)
Definition release (held : option StreamId) (d : Device) : Device :=
  match held with
  | Some id => record_call (CallRelease id) d
  | None => d
  end.

(** [oboe::AudioStreamBuilder::openStream(std::shared_ptr<AudioStream>&)] is
    Oboe library code: it resets the shared pointer it is given, asks the
    device for a stream and, only when that succeeds, makes the pointer own
    the new stream.  [r] is the device's answer. *)
Definition openStream (r : Result) (channels sampleRate : Z)
  (held : option StreamId) (d : Device) : Result * option StreamId * Device :=
  let d1 := release held d in
  match r with
  | OK =>
      let id := next_stream d1 in
      (OK, Some id,
       mkDevice (S id) (calls d1 ++ [CallOpenStream id channels sampleRate]))
  | Error code => (r, None, record_call (CallOpenFailed code) d1)
  end.

Record World : Type := mkWorld {
  player : UnityAudioPlayer;
  device : Device
}.

Definition newWorld : World := mkWorld newPlayer newDevice.

(** [UnityAudioPlayer::unpause]. *)
Definition unpause (w : World) : World :=
  let p := player w in
  match m_audioStream p with
  | Some id =>
      if AudioState_eqb (m_state p) AUDIO_STATE_PAUSED
      then mkWorld (set_state AUDIO_STATE_PLAYING p)
                   (record_call (CallStart id) (device w))
      else w
  | None => w
  end.

(** [UnityAudioPlayer::play].  [r_open] and [r_start] are the results that
    [openStream] and [requestStart] return when they are called. *)
Definition play (r_open r_start : Result) (w : World) : World :=
  let p := player w in
  if AudioState_eqb (m_state p) AUDIO_STATE_PAUSED then unpause w
  else
    let '(result, s, d1) :=
      openStream r_open (m_channels p) (m_sampleRate p) (m_audioStream p) (device w) in
    let p1 := set_audioStream s p in
    if negb (Result_is_OK result) then mkWorld p1 d1
    else
      match s with
      | Some id =>
          let d2 := record_call (CallRequestStart id r_start) d1 in
          if Result_is_OK r_start
          then mkWorld (set_state AUDIO_STATE_PLAYING p1) d2
          else mkWorld p1 d2
      | None => mkWorld p1 d1
      end.

(** [UnityAudioPlayer::pause]. *)
Definition pause (w : World) : World :=
  let p := player w in
  match m_audioStream p with
  | Some id =>
      if AudioState_eqb (m_state p) AUDIO_STATE_PLAYING
      then mkWorld (set_state AUDIO_STATE_PAUSED p)
                   (record_call (CallPause id) (device w))
      else w
  | None => w
  end.

(** [UnityAudioPlayer::stop]. *)
Definition stop (w : World) : World :=
  let p := player w in
  match m_audioStream p with
  | Some id =>
      mkWorld (set_currentTime zero (set_state AUDIO_STATE_STOPPED p))
              (record_call (CallStop id) (device w))
  | None => w
  end.

(** [UnityAudioPlayer::restartTime]. *)
Definition restartTime (r_open r_start : Result) (w : World) : World :=
  let w1 := mkWorld (set_currentTime zero (player w)) (device w) in
  if AudioState_eqb (m_state (player w1)) AUDIO_STATE_PLAYING
  then play r_open r_start (stop w1)
  else w1.

(** [UnityAudioPlayer::onErrorAfterClose]. *)
Definition onErrorAfterClose (p : UnityAudioPlayer) : UnityAudioPlayer :=
  set_state AUDIO_STATE_STOPPED p.

(** Streams the device created and on which [close()] was never called. *)
Definition is_open_of (id : StreamId) (c : StreamCall) : bool :=
  match c with CallOpenStream i _ _ => Nat.eqb i id | _ => false end.

Definition is_close_of (id : StreamId) (c : StreamCall) : bool :=
  match c with CallClose i => Nat.eqb i id | _ => false end.

Definition opened_streams (d : Device) : list StreamId :=
  flat_map (fun c => match c with CallOpenStream i _ _ => [i] | _ => [] end)
           (calls d).

Definition unclosed_streams (d : Device) : list StreamId :=
  filter (fun id => negb (existsb (is_close_of id) (calls d))) (opened_streams d).

(** ** Loading a clip *)

(** The members of [nqr::AudioData] that [loadAudioData] reads. *)
Record AudioData : Type := mkAudioData {
  sampleRate : Z;
  channelCount : Z;
  samples : list float
}.

(** The collaborators of [setClip].
    - [g_assetManager]: unset, or a function giving for an asset name the
      buffer of [AAsset_getLength] bytes and the count [AAsset_read] returned
      ([None] when [AAssetManager_open] fails);
    - [fileSystem]: for a path, the buffer and whether [file.read] succeeded
      ([None] when the file cannot be opened);
    - [decoder]: [nqr::NyquistIO::Load]; [None] when it throws. *)
Record Env : Type := mkEnv {
  g_assetManager : option (string -> option (list Byte.byte * Z));
  fileSystem : string -> option (list Byte.byte * bool);
  decoder : string -> list Byte.byte -> option AudioData
}.

Definition loadAssetData (env : Env) (filename : string) : list Byte.byte :=
  match g_assetManager env with
  | None => []
  | Some open =>
      match open filename with
      | None => []
      | Some (buffer, read) =>
          if negb (read =? Z.of_nat (List.length buffer)) then [] else buffer
      end
  end.

Definition loadFileData (env : Env) (filename : string) : list Byte.byte :=
  match fileSystem env filename with
  | None => []
  | Some (buffer, read_ok) => if negb read_ok then [] else buffer
  end.

Definition is_empty {A : Type} (l : list A) : bool :=
  match l with [] => true | _ => false end.

(** Conversion of a 64-bit [size_t] value to [int]. *)
Definition wrap_int (z : Z) : Z := (z + 2 ^ 31) mod 2 ^ 32 - 2 ^ 31.

(** [samples.size() / m_channels]: the [int] divisor is converted to the
    64-bit unsigned [size_t], the division is unsigned, and the quotient is
    converted back to [int].  Division by zero is undefined. *)
Definition frames_of (size channels : Z) : option Z :=
  if channels =? 0 then None
  else Some (wrap_int (size / (channels mod 2 ^ 64))).

(** [UnityAudioPlayer::loadAudioData]; the [bool] is its return value. *)
Definition loadAudioData (env : Env) (filePath : string) (p : UnityAudioPlayer)
  : option (UnityAudioPlayer * bool) :=
  let isAsset := String.prefix "assets/" filePath in
  let fileData :=
    if isAsset
    then loadAssetData env (String.substring 7 (String.length filePath - 7) filePath)
    else loadFileData env filePath in
  if is_empty fileData then Some (p, false)
  else
    match decoder env filePath fileData with
    | None => Some (p, false)
    | Some audio =>
        match frames_of (Z.of_nat (List.length (samples audio))) (channelCount audio) with
        | None => None
        | Some frames =>
            Some (set_clip (sampleRate audio) (channelCount audio) frames
                           (samples audio) p, true)
        end
    end.

(** [UnityAudioPlayer::setClip]. *)
Definition setClip (env : Env) (clipPath : string) (p : UnityAudioPlayer)
  : option (UnityAudioPlayer * bool) :=
  loadAudioData env clipPath (set_clipPath clipPath p).

(** ** Mixing engine *)

(** The properties of the [oboe::AudioStream] that the callback queries. *)
Record AudioStream : Type := mkStream {
  getChannelCount : Z;
  getSampleRate : Z
}.

Definition bind {A B : Type} (m : option A) (f : A -> option B) : option B :=
  match m with
  | Some a => f a
  | None => None
  end.

Notation "x <- m ;; k" := (bind m (fun x => k))
  (at level 61, m at next level, right associativity).

(** [data[i]] on a [std::vector]: undefined outside [0 .. size-1]. *)
Definition sample_at (data : list float) (i : Z) : option float :=
  if i <? 0 then None else nth_error data (Z.to_nat i).

(** [a % b] on [int]: truncated remainder, undefined for [b = 0]. *)
Definition c_rem (a b : Z) : option Z :=
  if b =? 0 then None else Some (Z.rem a b).

(** [for (auto i = 0; i < n; i++) body(i)], where each iteration appends what
    it writes through [*output++]. *)
Fixpoint for_loop (count : nat) (i : Z) (body : Z -> option (list float))
  : option (list float) :=
  match count with
  | O => Some []
  | S k =>
      out <- body i ;;
      rest <- for_loop k (i + 1) body ;;
      Some (out ++ rest)
  end.

Definition for_upto (n : Z) (body : Z -> option (list float)) : option (list float) :=
  for_loop (Z.to_nat n) 0 body.

(** [UnityAudioPlayer::generateSilence]: the values written from [buffer]. *)
Definition generateSilence (numFrames channels : Z) : list float :=
  repeat zero (Z.to_nat (numFrames * channels)).

(** The inner loop over the output channels, reading one source frame that
    starts at [srcIndex]. *)
Definition copyFrame (p : UnityAudioPlayer) (outputChannels srcIndex : Z)
  : option (list float) :=
  for_upto outputChannels (fun c =>
    srcChannel <- c_rem c (m_channels p) ;;
    s <- sample_at (m_interleavedData p) (srcIndex + srcChannel) ;;
    Some [mul s (m_volume p)]).

(** The first loop of [onAudioReady]. *)
Definition copyFrames (p : UnityAudioPlayer)
  (outputChannels currentFrame framesToCopy : Z) : option (list float) :=
  for_upto framesToCopy (fun i =>
    copyFrame p outputChannels ((currentFrame + i) * m_channels p)).

(** The loop of the [m_loop] branch. *)
Definition wrapFrames (p : UnityAudioPlayer) (outputChannels remainingFrames : Z)
  : option (list float) :=
  for_upto remainingFrames (fun i =>
    r <- c_rem i (m_totalFrames p) ;;
    copyFrame p outputChannels (r * m_channels p)).

(** [UnityAudioPlayer::onAudioReady].  The result is the player after the
    call, the values written to [audioData] in order, and the returned
    signal. *)
Definition onAudioReady (p : UnityAudioPlayer) (audioStream : AudioStream)
  (numFrames : Z) : option (UnityAudioPlayer * list float * DataCallbackResult) :=
  if negb (AudioState_eqb (m_state p) AUDIO_STATE_PLAYING)
     || is_empty (m_interleavedData p)
  then Some (p, generateSilence numFrames (getChannelCount audioStream), Continue)
  else
    let frameTime := div (of_int numFrames) (of_int (getSampleRate audioStream)) in
    let outputChannels := getChannelCount audioStream in
    currentFrame <- to_int (mul (m_currentTime p) (of_int (m_sampleRate p))) ;;
    let framesRemaining := m_totalFrames p - currentFrame in
    let framesToCopy := Z.min numFrames framesRemaining in
    copied <- copyFrames p outputChannels currentFrame framesToCopy ;;
    if framesToCopy <? numFrames then
      if m_loop p then
        let remainingFrames := numFrames - framesToCopy in
        wrapped <- wrapFrames p outputChannels remainingFrames ;;
        Some (set_currentTime
                (div (of_int remainingFrames) (of_int (m_sampleRate p))) p,
              copied ++ wrapped, Continue)
      else
        let out := copied ++ generateSilence (numFrames - framesToCopy) outputChannels in
        let p1 := set_currentTime (add (m_currentTime p) frameTime) p in
        if ge (m_currentTime p1) (getMusicLength p1)
        then Some (set_state AUDIO_STATE_STOPPED p1, out, Stop)
        else Some (p1, out, Continue)
    else
      Some (set_currentTime (add (m_currentTime p) frameTime) p, copied, Continue).

(** Repeated callbacks with the same stream and frame count, until one
    signals [Stop]; the results of the callbacks made, in order. *)
Fixpoint run_callbacks (n : nat) (p : UnityAudioPlayer) (audioStream : AudioStream)
  (numFrames : Z) : option (list (UnityAudioPlayer * list float * DataCallbackResult)) :=
  match n with
  | O => Some []
  | S k =>
      match onAudioReady p audioStream numFrames with
      | None => None
      | Some (p1, out, Stop) => Some [(p1, out, Stop)]
      | Some (p1, out, Continue) =>
          match run_callbacks k p1 audioStream numFrames with
          | None => None
          | Some rest => Some ((p1, out, Continue) :: rest)
          end
      end
  end.

(** *** The mixing rule in the words of the specification

    One output frame taken from source frame [srcFrame]: output channel [c]
    carries source channel [c mod channels], scaled by the volume. *)
Definition seqZ (n : Z) : list Z := map Z.of_nat (seq 0 (Z.to_nat n)).

Definition spec_frame (p : UnityAudioPlayer) (outputChannels srcFrame : Z)
  : list float :=
  map (fun c =>
         mul (nth (Z.to_nat (srcFrame * m_channels p + c mod m_channels p))
                  (m_interleavedData p) zero)
             (m_volume p))
      (seqZ outputChannels).

(** [count] consecutive source frames starting at frame [first]. *)
Definition spec_copy (p : UnityAudioPlayer) (outputChannels first count : Z)
  : list float :=
  flat_map (fun i => spec_frame p outputChannels (first + i)) (seqZ count).

(** [count] frames of the wrap: frame [i] comes from source frame
    [i mod totalFrames]. *)
Definition spec_wrap (p : UnityAudioPlayer) (outputChannels count : Z)
  : list float :=
  flat_map (fun i => spec_frame p outputChannels (i mod m_totalFrames p))
           (seqZ count).

(** ** Delay scheduler *)

(** The [std::thread] that runs [scheduleDelayedPlay]: blocked in [wait_for]
    until [deadline] (milliseconds), or finished and not yet joined. *)
Inductive Worker : Type :=
| Waiting (deadline : Z)
| Finished.

(** The player with its delay thread on a millisecond clock.
    [m_delayThread = None] is a thread object that is not joinable; [fired]
    lists the times at which a worker called [play()]. *)
Record Timeline : Type := mkTimeline {
  world : World;
  now : Z;
  m_delayThread : option Worker;
  fired : list Z
}.

Definition newTimeline : Timeline := mkTimeline newWorld 0 None [].

(** [scheduleDelayedPlay] from the moment [wait_for] returns, at time [at_].
    [wait_for] returns the value of its predicate, [m_delayCancelled]. *)
Definition scheduleDelayedPlay_wake (r_open r_start : Result) (at_ : Z)
  (t : Timeline) : Timeline :=
  let p := player (world t) in
  if m_delayCancelled p
  then mkTimeline (world t) (now t) (Some Finished) (fired t)
  else if negb (m_delayCancelled p)
  then mkTimeline (play r_open r_start (world t)) (now t) (Some Finished)
                  (fired t ++ [at_])
  else mkTimeline (world t) (now t) (Some Finished) (fired t).

(** Time passes up to [until]: a waiting worker whose deadline is reached
    times out, with the predicate evaluated at that moment. *)
Definition advance (r_open r_start : Result) (until : Z) (t : Timeline) : Timeline :=
  let t1 :=
    match m_delayThread t with
    | Some (Waiting deadline) =>
        if deadline <=? until
        then scheduleDelayedPlay_wake r_open r_start (Z.max (now t) deadline) t
        else t
    | _ => t
    end in
  mkTimeline (world t1) (Z.max (now t1) until) (m_delayThread t1) (fired t1).

(** [m_delayThread.join()]: the caller blocks until the worker has finished.
    Nothing notifies the worker here, so a waiting worker runs to its
    deadline. *)
Definition join (r_open r_start : Result) (t : Timeline) : Timeline :=
  match m_delayThread t with
  | Some (Waiting deadline) =>
      let t1 := advance r_open r_start (Z.max (now t) deadline) t in
      mkTimeline (world t1) (now t1) None (fired t1)
  | Some Finished => mkTimeline (world t) (now t) None (fired t)
  | None => t
  end.

Definition update_player (f : UnityAudioPlayer -> UnityAudioPlayer) (t : Timeline)
  : Timeline :=
  mkTimeline (mkWorld (f (player (world t))) (device (world t)))
             (now t) (m_delayThread t) (fired t).

(** [UnityAudioPlayer::playWithDelay].  The new worker reads [m_delayTime]
    and blocks for [static_cast<int>(m_delayTime * 1000)] milliseconds. *)
Definition playWithDelay (r_open r_start : Result) (delay : float) (t : Timeline)
  : option Timeline :=
  let t1 := update_player (fun p => set_delayCancelled false (set_delayTime delay p)) t in
  let t2 :=
    match m_delayThread t1 with
    | Some _ => join r_open r_start t1
    | None => t1
    end in
  ms <- to_int (mul (m_delayTime (player (world t2))) (of_int 1000)) ;;
  Some (mkTimeline (world t2) (now t2) (Some (Waiting (now t2 + ms))) (fired t2)).

(** [UnityAudioPlayer::~UnityAudioPlayer]: the flag is raised and the worker
    notified, so a waiting worker sees its predicate true and returns without
    calling [play()]; then the stream is closed and the pointer reset. *)
Definition destroy (t : Timeline) : Timeline :=
  let t1 := update_player (set_delayCancelled true) t in
  let t2 :=
    match m_delayThread t1 with
    | Some _ => mkTimeline (world t1) (now t1) None (fired t1)
    | None => t1
    end in
  match m_audioStream (player (world t2)) with
  | Some id =>
      mkTimeline
        (mkWorld (set_audioStream None (player (world t2)))
                 (record_call (CallClose id) (device (world t2))))
        (now t2) (m_delayThread t2) (fired t2)
  | None => t2
  end.

(** ** Notions used in the statements *)

(** [x] carries the sign bit [s], or is a NaN. *)
Definition has_sign (s : bool) (x : float) : Prop :=
  match x with
  | S754_zero s' | S754_infinity s' | S754_finite s' _ _ => s' = s
  | S754_nan => True
  end.




(** The clip members agree with each other: at least one channel, and the
    sample buffer holds [totalFrames * channels] values. *)
Definition clip_ok (p : UnityAudioPlayer) : Prop :=
  1 <= m_channels p /\
  Z.of_nat (List.length (m_interleavedData p)) = m_totalFrames p * m_channels p.

(** The buffer holds the [totalFrames] frames that the frame count
    announces, of at least one channel each; samples beyond them (a trailing
    partial frame) may follow. *)
Definition clip_fits (p : UnityAudioPlayer) : Prop :=
  1 <= m_channels p /\
  m_totalFrames p * m_channels p <= Z.of_nat (List.length (m_interleavedData p)).

(** The clip members as [loadAudioData] leaves them: [m_channels] is an
    [int], [m_totalFrames] is [m_interleavedData.size() / m_channels] as the
    code computes it, and the buffer has fewer than [2^31] samples, the range
    in which that quotient and the callback's [int] indices do not wrap.
    Nothing is said of [m_sampleRate], which is stored as the decoder gives
    it.  The members of a new player, before any load, are of this form as
    well. *)
Definition clip_loaded (p : UnityAudioPlayer) : Prop :=
  INT_MIN <= m_channels p <= INT_MAX /\
  Z.of_nat (List.length (m_interleavedData p)) < 2 ^ 31 /\
  frames_of (Z.of_nat (List.length (m_interleavedData p))) (m_channels p)
  = Some (m_totalFrames p).

(** The local [fileData] of [loadAudioData]: the bytes it hands to the
    decoder. *)
Definition fileData (env : Env) (filePath : string) : list Byte.byte :=
  if String.prefix "assets/" filePath
  then loadAssetData env (String.substring 7 (String.length filePath - 7) filePath)
  else loadFileData env filePath.

(** The locals [frameTime] and [framesToCopy] of [onAudioReady]. *)
Definition frameTime (audioStream : AudioStream) (numFrames : Z) : float :=
  div (of_int numFrames) (of_int (getSampleRate audioStream)).

Definition framesToCopy (p : UnityAudioPlayer) (numFrames cur : Z) : Z :=
  Z.min numFrames (m_totalFrames p - cur).

(** What a callback that runs off the end of the clip with the loop flag
    off is expected to return, [copied] being the frames taken from the
    clip: silence for the rest, the position advanced by the whole callback,
    then [Stop] and state Stopped when the advanced position has reached the
    clip length, [Continue] otherwise. *)
Definition end_of_clip_result (p : UnityAudioPlayer) (audioStream : AudioStream)
  (numFrames cur : Z) (copied : list float)
  : UnityAudioPlayer * list float * DataCallbackResult :=
  let advanced := add (m_currentTime p) (frameTime audioStream numFrames) in
  let out := copied ++ generateSilence (numFrames - framesToCopy p numFrames cur)
                                       (getChannelCount audioStream) in
  if ge advanced (getMusicLength p)
  then (set_state AUDIO_STATE_STOPPED (set_currentTime advanced p), out, Stop)
  else (set_currentTime advanced p, out, Continue).

(** The position after [k] callbacks that each advance it by [ft]. *)
Fixpoint advance_time (ft : float) (k : nat) (t : float) : float :=
  match k with
  | O => t
  | S k' => advance_time ft k' (add t ft)
  end.

(** A callback that starts at position [t] copies [numFrames] whole frames. *)
Definition full_ok (rate frames numFrames : Z) (t : float) : bool :=
  match to_int (mul t (of_int rate)) with
  | Some c => (0 <=? c) && (numFrames <=? frames - c)
  | None => false
  end.

Fixpoint all_full (rate frames : Z) (ft : float) (numFrames : Z)
  (k : nat) (t : float) : bool :=
  match k with
  | O => true
  | S k' => full_ok rate frames numFrames t
            && all_full rate frames ft numFrames k' (add t ft)
  end.

(** The results of [k] callbacks of which none reaches the end of the clip. *)
Fixpoint full_results (p : UnityAudioPlayer) (audioStream : AudioStream)
  (numFrames : Z) (k : nat)
  : list (UnityAudioPlayer * list float * DataCallbackResult) :=
  match k with
  | O => []
  | S k' =>
      let cur :=
        match to_int (mul (m_currentTime p) (of_int (m_sampleRate p))) with
        | Some c => c
        | None => 0
        end in
      let p1 := set_currentTime
                  (add (m_currentTime p) (frameTime audioStream numFrames)) p in
      (p1, spec_copy p (getChannelCount audioStream) cur numFrames, Continue)
        :: full_results p1 audioStream numFrames k'
  end.

(** The one-second scenario: 48000 Hz, mono, 48000 frames, volume 1, no loop,
    playing from position 0 into a mono 48000 Hz stream, 512 frames per
    callback. *)
Definition scenario_clip (data : list float) : UnityAudioPlayer :=
  mkPlayer AUDIO_STATE_PLAYING zero one false "clip.wav"%string zero (Some O)
           data 48000 1 48000 false.

Definition scenario_stream : AudioStream := mkStream 1 48000.

(** Ninety-three callbacks copy 512 frames each and continue; the 94th starts
    at frame 47616, copies the last 384 frames, writes 128 frames of silence,
    leaves the player Stopped and returns [Stop]. *)
Definition scenario_holds (data : list float) : Prop :=
  let p0 := scenario_clip data in
  let stopped :=
    set_state AUDIO_STATE_STOPPED
      (set_currentTime (advance_time (frameTime scenario_stream 512) 94 zero) p0) in
  run_callbacks 94 p0 scenario_stream 512 =
    Some (full_results p0 scenario_stream 512 93
          ++ [(stopped, spec_copy p0 1 47616 384 ++ generateSilence 128 1, Stop)])
  /\ List.length (full_results p0 scenario_stream 512 93) = 93%nat
  /\ Forall (fun r => snd r = Continue /\ List.length (snd (fst r)) = 512%nat)
            (full_results p0 scenario_stream 512 93)
  /\ to_int (mul (advance_time (frameTime scenario_stream 512) 93 zero) (of_int 48000))
     = Some 47616
  /\ List.length (spec_copy p0 1 47616 384) = 384%nat
  /\ generateSilence 128 1 = repeat zero 128
  /\ m_state stopped = AUDIO_STATE_STOPPED.

(** Sequences of calls that move the position. *)
Inductive TimeCall : Type :=
| CallSetCurrentTime (time : float)
| CallOffsetTime (offset : float).

Definition apply_call (p : UnityAudioPlayer) (c : TimeCall) : UnityAudioPlayer :=
  match c with
  | CallSetCurrentTime time => setCurrentTime time p
  | CallOffsetTime offset => offsetTime offset p
  end.

Definition apply_calls (cs : list TimeCall) (p : UnityAudioPlayer) : UnityAudioPlayer :=
  fold_left apply_call cs p.

Definition in_range (p : UnityAudioPlayer) : bool :=
  le zero (getCurrentTime p) && le (getCurrentTime p) (getMusicLength p).

(** *** Concrete inputs *)

(** The literals [0.5f] and [0.2f]. *)
Definition half : float := S754_finite false 8388608 (-24).
Definition f0_2 : float := S754_finite false 13421773 (-26).

(** A mono clip of three frames at 3 Hz, playing from position 0 at volume
    0.5 into a stereo stream. *)
Definition three_frame_clip (loop : bool) : UnityAudioPlayer :=
  mkPlayer AUDIO_STATE_PLAYING zero half loop "clip.wav"%string zero (Some O)
           [one; zero; one] 3 1 3 false.

Definition stereo_stream : AudioStream := mkStream 2 3.

(** An idle player that never opened a stream, positioned at 0.5 s. *)
Definition idle_midway : World :=
  mkWorld (mkPlayer AUDIO_STATE_IDLE half half true "clip.wav"%string zero None
                    [one; zero] 48000 1 2 false)
          newDevice.

(** A player holding a stereo clip of two frames loaded from "old.wav". *)
Definition loaded_player : UnityAudioPlayer :=
  mkPlayer AUDIO_STATE_IDLE zero one false "old.wav"%string zero None
           [one; zero; one; zero] 44100 2 2 false.

(** No asset manager, no readable file. *)
Definition no_files : Env :=
  mkEnv None (fun _ => None) (fun _ _ => None).

(** [playWithDelay(0.2f)] at time 0, [playWithDelay(0.5f)] 50 ms later, then
    two seconds pass. *)
Definition delay_scenario : option Timeline :=
  t1 <- playWithDelay OK OK f0_2 newTimeline ;;
  t2 <- playWithDelay OK OK half (advance OK OK 50 t1) ;;
  Some (advance OK OK 2000 t2).

(** [playWithDelay(0.2f)] at time 0, the player destroyed 50 ms later, then
    two seconds pass. *)
Definition delay_then_destroy : option Timeline :=
  t1 <- playWithDelay OK OK f0_2 newTimeline ;;
  Some (advance OK OK 2000 (destroy (advance OK OK 50 t1))).

(** ** Sequences of transport calls *)

(** The calls that act on the stream or on the state, with the answers of
    the device where the call asks it for something, and the asynchronous
    error notification. *)
Inductive TransportCall : Type :=
| DoPlay (r_open r_start : Result)
| DoPause
| DoStop
| DoUnpause
| DoRestartTime (r_open r_start : Result)
| DoErrorAfterClose.

Definition transport (w : World) (c : TransportCall) : World :=
  match c with
  | DoPlay r_open r_start => play r_open r_start w
  | DoPause => pause w
  | DoStop => stop w
  | DoUnpause => unpause w
  | DoRestartTime r_open r_start => restartTime r_open r_start w
  | DoErrorAfterClose => mkWorld (onErrorAfterClose (player w)) (device w)
  end.

Definition transports (cs : list TransportCall) (w : World) : World :=
  fold_left transport cs w.

(** Streams the shared pointer let go of, and streams closed. *)
Definition released_streams (d : Device) : list StreamId :=
  flat_map (fun c => match c with CallRelease i => [i] | _ => [] end) (calls d).

Definition closed_streams (d : Device) : list StreamId :=
  flat_map (fun c => match c with CallClose i => [i] | _ => [] end) (calls d).

(** The streams are numbered in the order they were opened, none was closed,
    the player holds the latest one or none, every other one was let go of
    exactly once in the order of opening, and a Paused player holds a
    stream. *)
Definition lifecycle_inv (w : World) : Prop :=
  opened_streams (device w) = seq 0 (next_stream (device w)) /\
  closed_streams (device w) = [] /\
  match m_audioStream (player w) with
  | Some id => next_stream (device w) = S id /\
               released_streams (device w) = seq 0 id
  | None => released_streams (device w) = seq 0 (next_stream (device w)) /\
            m_state (player w) <> AUDIO_STATE_PAUSED
  end.

Definition held_list (held : option StreamId) : list StreamId :=
  match held with Some id => [id] | None => [] end.

(** Number of frames a callback writes when it starts at frame [cur] of a
    clip of [frames] frames. *)
Definition frames_written (frames numFrames cur : Z) : Z :=
  numFrames + Z.max 0 (cur - frames).

(** The player the one-second scenario ends with (Stopped, position past
    the end), the device it has talked to, and the player after one more
    [play()]. *)
Definition scenario_end (data : list float) : UnityAudioPlayer :=
  set_state AUDIO_STATE_STOPPED
    (set_currentTime (advance_time (frameTime scenario_stream 512) 94 zero)
       (scenario_clip data)).

Definition scenario_device : Device :=
  mkDevice 1%nat [CallOpenStream O 1 48000; CallRequestStart O OK].

Definition scenario_replayed (data : list float) : UnityAudioPlayer :=
  player (play OK OK (mkWorld (scenario_end data) scenario_device)).

(** A file system in which every path holds one readable byte, and a
    decoder that produces [audio] from anything. *)
Definition decoding_env (audio : AudioData) : Env :=
  mkEnv None (fun _ => Some ([Byte.x00], true)) (fun _ _ => Some audio).

(** Five samples declared as stereo: two whole frames and one sample over. *)
Definition odd_stereo : AudioData :=
  mkAudioData 44100 2 [one; zero; one; zero; half].

(** One sample declared as stereo: less than one frame. *)
Definition lone_sample : AudioData := mkAudioData 44100 2 [one].

Definition no_channels : AudioData := mkAudioData 44100 0 [one].

(** Three stereo frames at 3 Hz. *)
Definition slow_stereo : AudioData :=
  mkAudioData 3 2 [one; one; zero; zero; one; one].

(** A new player on which [play()] is called before [setClip]: the stream is
    opened with the constructor's 48000 Hz and two channels, and the 3 Hz
    clip is loaded while it runs. *)
Definition started_before_load : option (UnityAudioPlayer * bool) :=
  setClip (decoding_env slow_stereo) "clip.wav"%string (player (play OK OK newWorld)).

(** Two stereo frames for which the decoder reports a sample rate of
    -44100. *)
Definition negative_rate : AudioData :=
  mkAudioData (-44100) 2 [one; zero; one; zero].

(** A player that is Playing with the loop flag on, before any clip. *)
Definition looping_player : UnityAudioPlayer :=
  mkPlayer AUDIO_STATE_PLAYING zero one true EmptyString zero (Some O)
           [] 48000 2 0 false.

(** The destructor on a player that has no delay worker. *)
Definition destructor (w : World) : World :=
  world (destroy (mkTimeline w 0 None [])).

(** ** C interface *)

(** The process-wide state of blophy-audio.cpp: [g_audioPlayers], keyed by
    the handle (the pointer value, an integer), [g_nextPlayerId], and the
    device the players of the process talk to.  The interface is modelled
    for players without a delay worker: [PlayWithDelay] is the one wrapper
    left out. *)
Record Registry : Type := mkRegistry {
  g_audioPlayers : list (Z * UnityAudioPlayer);
  g_nextPlayerId : Z;
  g_device : Device
}.

Definition newRegistry : Registry := mkRegistry [] 1 newDevice.

(** [g_audioPlayers.find(handle)]. *)
Fixpoint find (handle : Z) (m : list (Z * UnityAudioPlayer))
  : option UnityAudioPlayer :=
  match m with
  | [] => None
  | (k, v) :: rest => if k =? handle then Some v else find handle rest
  end.

(** [g_audioPlayers.erase(it)] for the entry of [handle]. *)
Fixpoint erase (handle : Z) (m : list (Z * UnityAudioPlayer))
  : list (Z * UnityAudioPlayer) :=
  match m with
  | [] => []
  | (k, v) :: rest =>
      if k =? handle then erase handle rest else (k, v) :: erase handle rest
  end.

(** [g_audioPlayers[handle] = player]. *)
Definition assign (handle : Z) (v : UnityAudioPlayer)
  (m : list (Z * UnityAudioPlayer)) : list (Z * UnityAudioPlayer) :=
  (handle, v) :: erase handle m.

Definition handles (r : Registry) : list Z := map fst (g_audioPlayers r).

(** A member function that acts on the player only. *)
Definition on_player (f : UnityAudioPlayer -> UnityAudioPlayer)
  (handle : Z) (r : Registry) : Registry :=
  match find handle (g_audioPlayers r) with
  | Some p => mkRegistry (assign handle (f p) (g_audioPlayers r))
                         (g_nextPlayerId r) (g_device r)
  | None => r
  end.

(** A member function that acts on the player and on the device. *)
Definition on_world (f : World -> World) (handle : Z) (r : Registry) : Registry :=
  match find handle (g_audioPlayers r) with
  | Some p =>
      let w := f (mkWorld p (g_device r)) in
      mkRegistry (assign handle (player w) (g_audioPlayers r))
                 (g_nextPlayerId r) (device w)
  | None => r
  end.

Module CInterface.

(** [Create].  The handle is the value of [g_nextPlayerId] before the
    post-increment.  [g_nextPlayerId] is an [int]: its increment at
    [INT_MAX] overflows, which the language leaves undefined and the 32-bit
    two's-complement [int] of the targets turns into [INT_MIN]; that
    wrap-around is written out here.  What is proved of sequences of calls
    states the number of [Create] calls below which no overflow occurs. *)
Definition Create (r : Registry) : Z * Registry :=
  let handle := g_nextPlayerId r in
  (handle,
   mkRegistry (assign handle newPlayer (g_audioPlayers r))
              (wrap_int (g_nextPlayerId r + 1)) (g_device r)).

Definition Destroy (handle : Z) (r : Registry) : Registry :=
  match find handle (g_audioPlayers r) with
  | Some p =>
      let w := destructor (mkWorld p (g_device r)) in
      mkRegistry (erase handle (g_audioPlayers r)) (g_nextPlayerId r) (device w)
  | None => r
  end.

Definition Play (r_open r_start : Result) (handle : Z) (r : Registry) : Registry :=
  on_world (play r_open r_start) handle r.

Definition Pause (handle : Z) (r : Registry) : Registry :=
  on_world pause handle r.

Definition Stop (handle : Z) (r : Registry) : Registry :=
  on_world stop handle r.

Definition UnPause (handle : Z) (r : Registry) : Registry :=
  on_world unpause handle r.

Definition GetCurrentTime (handle : Z) (r : Registry) : float :=
  match find handle (g_audioPlayers r) with
  | Some p => getCurrentTime p
  | None => zero
  end.

Definition SetCurrentTime (handle : Z) (time : float) (r : Registry) : Registry :=
  on_player (setCurrentTime time) handle r.

Definition OffsetTime (handle : Z) (offset : float) (r : Registry) : Registry :=
  on_player (offsetTime offset) handle r.

Definition ResetTime (handle : Z) (r : Registry) : Registry :=
  on_player resetTime handle r.

Definition RestartTime (r_open r_start : Result) (handle : Z) (r : Registry)
  : Registry :=
  on_world (restartTime r_open r_start) handle r.

(** The [bool] that [setClip] returns is dropped. *)
Definition SetClip (env : Env) (handle : Z) (clipPath : string) (r : Registry)
  : option Registry :=
  match find handle (g_audioPlayers r) with
  | Some p =>
      match setClip env clipPath p with
      | Some (p', _) =>
          Some (mkRegistry (assign handle p' (g_audioPlayers r))
                           (g_nextPlayerId r) (g_device r))
      | None => None
      end
  | None => Some r
  end.

Definition SetVolume (handle : Z) (volume : float) (r : Registry) : Registry :=
  on_player (setVolume volume) handle r.

Definition GetVolume (handle : Z) (r : Registry) : float :=
  match find handle (g_audioPlayers r) with
  | Some p => getVolume p
  | None => zero
  end.

Definition SetLoop (handle : Z) (loop : bool) (r : Registry) : Registry :=
  on_player (setLoop loop) handle r.

Definition GetLoop (handle : Z) (r : Registry) : bool :=
  match find handle (g_audioPlayers r) with
  | Some p => getLoop p
  | None => false
  end.

Definition IsPlaying (handle : Z) (r : Registry) : bool :=
  match find handle (g_audioPlayers r) with
  | Some p => isPlaying p
  | None => false
  end.

Definition GetState (handle : Z) (r : Registry) : AudioState :=
  match find handle (g_audioPlayers r) with
  | Some p => getState p
  | None => AUDIO_STATE_IDLE
  end.

End CInterface.

(** Calls through the interface that change the registry; [ICreate] records
    nothing but the call, the handle it returns is collected by
    [run_interface]. *)
Inductive InterfaceCall : Type :=
| ICreate
| IDestroy (handle : Z)
| IPlay (r_open r_start : Result) (handle : Z)
| IPause (handle : Z)
| IStop (handle : Z)
| IUnPause (handle : Z)
| ISetCurrentTime (handle : Z) (time : float)
| IOffsetTime (handle : Z) (offset : float)
| IResetTime (handle : Z)
| IRestartTime (r_open r_start : Result) (handle : Z)
| ISetVolume (handle : Z) (volume : float)
| ISetLoop (handle : Z) (loop : bool).

Definition interface_step (c : InterfaceCall) (r : Registry) : list Z * Registry :=
  match c with
  | ICreate => let '(h, r') := CInterface.Create r in ([h], r')
  | IDestroy h => ([], CInterface.Destroy h r)
  | IPlay r_open r_start h => ([], CInterface.Play r_open r_start h r)
  | IPause h => ([], CInterface.Pause h r)
  | IStop h => ([], CInterface.Stop h r)
  | IUnPause h => ([], CInterface.UnPause h r)
  | ISetCurrentTime h t => ([], CInterface.SetCurrentTime h t r)
  | IOffsetTime h o => ([], CInterface.OffsetTime h o r)
  | IResetTime h => ([], CInterface.ResetTime h r)
  | IRestartTime r_open r_start h => ([], CInterface.RestartTime r_open r_start h r)
  | ISetVolume h v => ([], CInterface.SetVolume h v r)
  | ISetLoop h l => ([], CInterface.SetLoop h l r)
  end.

(** The handles returned by the [Create] calls of a sequence, in order, and
    the registry after it. *)
Fixpoint run_interface (cs : list InterfaceCall) (r : Registry) : list Z * Registry :=
  match cs with
  | [] => ([], r)
  | c :: rest =>
      let '(hs, r1) := interface_step c r in
      let '(hs', r2) := run_interface rest r1 in
      (hs ++ hs', r2)
  end.

(** Every handle in the table was issued: it lies in [1 .. g_nextPlayerId - 1],
    and no handle occurs twice. *)
Definition registry_ok (r : Registry) : Prop :=
  1 <= g_nextPlayerId r /\
  NoDup (handles r) /\
  Forall (fun h => 1 <= h < g_nextPlayerId r) (handles r).

(** The handle a call acts on; for [Create], the handle it returns. *)
Definition target (c : InterfaceCall) (r : Registry) : Z :=
  match c with
  | ICreate => g_nextPlayerId r
  | IDestroy h | IPlay _ _ h | IPause h | IStop h | IUnPause h
  | ISetCurrentTime h _ | IOffsetTime h _ | IResetTime h
  | IRestartTime _ _ h | ISetVolume h _ | ISetLoop h _ => h
  end.

(** The handles [first], [first + 1], ... ([count] of them). *)
Definition handles_from (first : Z) (count : nat) : list Z :=
  map (fun i => first + Z.of_nat i) (seq 0 count).

(** Number of [Create] calls in a sequence. *)
Definition creates (cs : list InterfaceCall) : nat :=
  List.length (filter (fun c => match c with ICreate => true | _ => false end) cs).


(** ** The player of [native-lib.cpp]

    [native-lib.cpp] holds an earlier [UnityAudioPlayer] of its own, with no
    clip data: [setClip] only stores the path, [getMusicLength] returns
    [0.0f], the time and volume setters store their argument as it is, and
    [onAudioReady] writes nothing to the output buffer. *)
Module NativeLib.

Record UnityAudioPlayer : Type := mkPlayer {
  m_state : AudioState;
  m_currentTime : float;
  m_volume : float;
  m_loop : bool;
  m_clipPath : string;
  m_delayTime : float;
  m_audioStream : option StreamId
}.

Definition set_state (s : AudioState) (p : UnityAudioPlayer) : UnityAudioPlayer :=
  mkPlayer s (m_currentTime p) (m_volume p) (m_loop p) (m_clipPath p)
           (m_delayTime p) (m_audioStream p).

Definition set_currentTime (t : float) (p : UnityAudioPlayer) : UnityAudioPlayer :=
  mkPlayer (m_state p) t (m_volume p) (m_loop p) (m_clipPath p)
           (m_delayTime p) (m_audioStream p).

(** [UnityAudioPlayer::getMusicLength]. *)
Definition getMusicLength (p : UnityAudioPlayer) : float := zero.

(** [UnityAudioPlayer::setCurrentTime]. *)
Definition setCurrentTime (time : float) (p : UnityAudioPlayer) : UnityAudioPlayer :=
  set_currentTime time p.

(** [UnityAudioPlayer::offsetTime]. *)
Definition offsetTime (offset : float) (p : UnityAudioPlayer) : UnityAudioPlayer :=
  set_currentTime (add (m_currentTime p) offset) p.

(** [UnityAudioPlayer::resetTime]. *)
Definition resetTime (p : UnityAudioPlayer) : UnityAudioPlayer :=
  set_currentTime zero p.

(** [UnityAudioPlayer::onAudioReady]; [audioData] is not written. *)
Definition onAudioReady (p : UnityAudioPlayer) (audioStream : AudioStream)
  (numFrames : Z) : UnityAudioPlayer * DataCallbackResult :=
  if negb (AudioState_eqb (m_state p) AUDIO_STATE_PLAYING) then (p, Stop)
  else
    let frameTime := div (of_int numFrames) (of_int (getSampleRate audioStream)) in
    let p1 := set_currentTime (add (m_currentTime p) frameTime) p in
    if ge (m_currentTime p1) (getMusicLength p1) then
      if m_loop p1 then (set_currentTime zero p1, Continue)
      else (set_state AUDIO_STATE_STOPPED p1, Stop)
    else (p1, Continue).

(** Callbacks made one after the other with the same stream and frame
    count, until one signals [Stop] or [n] have been made; the player after
    the last one and the signals returned. *)
Fixpoint run_callbacks (n : nat) (p : UnityAudioPlayer) (audioStream : AudioStream)
  (numFrames : Z) : UnityAudioPlayer * list DataCallbackResult :=
  match n with
  | O => (p, [])
  | S k =>
      match onAudioReady p audioStream numFrames with
      | (p1, Stop) => (p1, [Stop])
      | (p1, Continue) =>
          let '(p2, rs) := run_callbacks k p1 audioStream numFrames in
          (p2, Continue :: rs)
      end
  end.

End NativeLib.

(** A player of [native-lib.cpp] that is Playing at position 0. *)
Definition nativelib_playing (loop : bool) : NativeLib.UnityAudioPlayer :=
  NativeLib.mkPlayer AUDIO_STATE_PLAYING zero one loop "a.wav"%string zero (Some 0%nat).
(** * Properties *)


(** *** Order facts on binary32 values *)

Lemma SFcompare_antisym (x y : float) :
  SFcompare y x = option_map CompOpp (SFcompare x y).
Proof.
  destruct x as [sx|sx| |sx mx ex], y as [sy|sy| |sy my ey]; simpl;
    try reflexivity;
    try (destruct sx; reflexivity); try (destruct sy; reflexivity);
    try (destruct sx, sy; reflexivity).
  destruct sx, sy; simpl; try reflexivity;
    rewrite (Z.compare_antisym ex ey); destruct (ex ?= ey); simpl;
    try reflexivity;
    rewrite (Pos.compare_cont_antisym mx my Eq); simpl;
    try rewrite CompOpp_involutive; reflexivity.
Qed.

Lemma SFcompare_refl (x : float) :
  is_nan x = false -> SFcompare x x = Some Eq.
Proof.
  destruct x as [s|s| |s m e]; simpl; intros H; try discriminate;
    try (destruct s; reflexivity).
  destruct s; rewrite Z.compare_refl, Pos.compare_cont_refl; reflexivity.
Qed.

Lemma lt_not_nan_l (a b : float) : lt a b = true -> is_nan a = false.
Proof. destruct a; simpl; intros; try reflexivity. discriminate. Qed.

Lemma lt_not_nan_r (a b : float) : lt a b = true -> is_nan b = false.
Proof.
  unfold lt, SFltb. destruct b; simpl; intros; try reflexivity.
  destruct a; discriminate.
Qed.

Lemma lt_le (a b : float) : lt a b = true -> le a b = true.
Proof. unfold lt, le, SFltb, SFleb. destruct (SFcompare a b) as [[]|]; auto. Qed.

Lemma le_refl (a : float) : is_nan a = false -> le a a = true.
Proof. intros H. unfold le, SFleb. rewrite (SFcompare_refl a H). reflexivity. Qed.

Lemma le_not_nan_l (a b : float) : le a b = true -> is_nan a = false.
Proof. destruct a; simpl; intros; try reflexivity. discriminate. Qed.

Lemma le_not_nan_r (a b : float) : le a b = true -> is_nan b = false.
Proof.
  unfold le, SFleb. destruct b; simpl; intros; try reflexivity.
  destruct a; discriminate.
Qed.

(** [!(b < a)] gives [a <= b] as soon as neither is a NaN. *)
Lemma not_lt_le (a b : float) :
  is_nan a = false -> is_nan b = false -> lt b a = false -> le a b = true.
Proof.
  unfold lt, le, SFltb, SFleb. intros Ha Hb.
  rewrite (SFcompare_antisym a b).
  destruct a, b; try discriminate;
  match goal with |- context [SFcompare ?x ?y] =>
    destruct (SFcompare x y) as [[]|] eqn:E end; simpl; auto; discriminate.
Qed.

Lemma lt_antisym (a b : float) : lt a b = true -> lt b a = false.
Proof.
  unfold lt, SFltb. rewrite (SFcompare_antisym a b).
  destruct (SFcompare a b) as [[]|]; simpl; auto; discriminate.
Qed.

(** *** Sign and class of rounded results *)

Lemma binary_round_aux_sign (s : bool) (m e : Z) (l : location) :
  has_sign s (binary_round_aux prec emax s m e l).
Proof.
  unfold binary_round_aux.
  destruct (shr_fexp prec emax m e l) as [mrs1 e1].
  destruct (shr_fexp prec emax _ e1 loc_Exact) as [mrs2 e2].
  destruct (shr_m mrs2); [reflexivity| |exact I].
  destruct (e2 <=? emax - prec); reflexivity.
Qed.

Lemma binary_round_sign (s : bool) (m : positive) (e : Z) :
  has_sign s (binary_round prec emax s m e).
Proof.
  unfold binary_round.
  destruct (shl_align m e _) as [mz ez]. apply binary_round_aux_sign.
Qed.

Lemma of_int_sign (n : Z) : has_sign (n <? 0) (of_int n).
Proof.
  unfold of_int, binary_normalize. destruct n; simpl.
  - reflexivity.
  - apply binary_round_sign.
  - apply binary_round_sign.
Qed.










(** *** Conversion of a positive [int] to binary32 *)

Lemma iter_pos_invariant {A : Type} (P : A -> Prop) (f : A -> A) :
  (forall x, P x -> P (f x)) ->
  forall (n : positive) (x : A), P x -> P (iter_pos f n x).
Proof.
  intros Hf. induction n as [n IH|n IH|]; simpl; intros x Hx; auto.
Qed.

Lemma shr_1_nonneg (mrs : shr_record) : 0 <= shr_m mrs -> 0 <= shr_m (shr_1 mrs).
Proof.
  destruct mrs as [m r s]. simpl.
  destruct m as [|p|p]; simpl; try lia.
  - destruct p; simpl; lia.
Qed.

Lemma shr_nonneg (mrs : shr_record) (e n : Z) :
  0 <= shr_m mrs -> 0 <= shr_m (fst (shr mrs e n)).
Proof.
  intros H. unfold shr. destruct n; simpl; auto.
  apply (iter_pos_invariant (fun x => 0 <= shr_m x)); auto using shr_1_nonneg.
Qed.

Lemma shr_record_of_loc_m (m : Z) (l : location) :
  shr_m (shr_record_of_loc m l) = m.
Proof. destruct l as [|[]]; reflexivity. Qed.

Lemma round_nearest_even_ge (m : Z) (l : location) :
  m <= round_nearest_even m l <= m + 1.
Proof. destruct l as [|[]]; simpl; try lia. destruct (Z.even m); lia. Qed.

(** Rounding a non-negative mantissa never produces a NaN. *)
Lemma binary_round_aux_not_nan (s : bool) (m e : Z) (l : location) :
  0 <= m -> is_nan (binary_round_aux prec emax s m e l) = false.
Proof.
  intros Hm. unfold binary_round_aux, shr_fexp.
  pose proof (shr_nonneg (shr_record_of_loc m l) e
                (fexp prec emax (Zdigits2 m + e) - e)) as H1.
  rewrite shr_record_of_loc_m in H1. specialize (H1 Hm).
  destruct (shr (shr_record_of_loc m l) e _) as [mrs1 e1]. simpl in H1.
  set (m2 := round_nearest_even (shr_m mrs1) (loc_of_shr_record mrs1)).
  assert (H2 : 0 <= m2)
    by (pose proof (round_nearest_even_ge (shr_m mrs1) (loc_of_shr_record mrs1)); unfold m2; lia).
  pose proof (shr_nonneg (shr_record_of_loc m2 loc_Exact) e1
                (fexp prec emax (Zdigits2 m2 + e1) - e1)) as H3.
  rewrite shr_record_of_loc_m in H3. specialize (H3 H2).
  destruct (shr (shr_record_of_loc m2 loc_Exact) e1 _) as [mrs2 e2]. simpl in H3.
  destruct (shr_m mrs2); try reflexivity; try lia.
  destruct (e2 <=? emax - prec); reflexivity.
Qed.

Lemma of_int_not_nan (n : Z) : is_nan (of_int n) = false.
Proof.
  unfold of_int, binary_normalize. destruct n; try reflexivity;
    unfold binary_round; destruct (shl_align _ _ _) as [mz ez];
    apply binary_round_aux_not_nan; lia.
Qed.

(** Number of binary digits. *)
Lemma digits2_pos_bounds (p : positive) :
  2 ^ (Zpos (digits2_pos p) - 1) <= Zpos p < 2 ^ Zpos (digits2_pos p).
Proof.
  induction p as [p IH|p IH|]; simpl digits2_pos.
  - rewrite Pos2Z.inj_succ.
    replace (Z.succ (Zpos (digits2_pos p)) - 1) with (Zpos (digits2_pos p)) by lia.
    rewrite Z.pow_succ_r by lia.
    replace (Zpos (digits2_pos p)) with (Z.succ (Zpos (digits2_pos p) - 1)) at 1 by lia.
    rewrite Z.pow_succ_r by lia. lia.
  - rewrite Pos2Z.inj_succ.
    replace (Z.succ (Zpos (digits2_pos p)) - 1) with (Zpos (digits2_pos p)) by lia.
    rewrite Z.pow_succ_r by lia.
    replace (Zpos (digits2_pos p)) with (Z.succ (Zpos (digits2_pos p) - 1)) at 1 by lia.
    rewrite Z.pow_succ_r by lia. lia.
  - simpl. lia.
Qed.

Lemma digits2_pos_le (p : positive) (k : Z) :
  0 <= k -> Zpos p < 2 ^ k -> Zpos (digits2_pos p) <= k.
Proof.
  intros Hk H. pose proof (digits2_pos_bounds p) as [Hl _].
  destruct (Z_le_gt_dec (Zpos (digits2_pos p)) k) as [|Hgt]; auto.
  assert (2 ^ k <= 2 ^ (Zpos (digits2_pos p) - 1)) by (apply Z.pow_le_mono_r; lia).
  lia.
Qed.

Lemma digits2_pos_iter_xO (k p : positive) :
  digits2_pos (Pos.iter xO p k) = (digits2_pos p + k)%positive.
Proof.
  revert p. induction k using Pos.peano_ind; intros p.
  - simpl. lia.
  - rewrite Pos.iter_succ. simpl. rewrite IHk. lia.
Qed.

Lemma digits2_pos_succ (p : positive) :
  digits2_pos (Pos.succ p) = digits2_pos p \/
  digits2_pos (Pos.succ p) = Pos.succ (digits2_pos p).
Proof.
  induction p as [p IH|p IH|]; simpl; auto.
  destruct IH as [IH|IH]; rewrite IH; auto.
Qed.

(** One right shift of a mantissa of at least two digits. *)
Lemma shr_1_digits (p : positive) (r s : bool) :
  (1 < digits2_pos p)%positive ->
  exists p' r' s',
    shr_1 (Build_shr_record (Zpos p) r s) = Build_shr_record (Zpos p') r' s' /\
    digits2_pos p = Pos.succ (digits2_pos p').
Proof.
  destruct p as [p|p|]; simpl; intros H.
  - exists p, true, (r || s)%bool. auto.
  - exists p, false, (r || s)%bool. auto.
  - lia.
Qed.

Lemma iter_shr_1_digits (k : positive) :
  forall (p : positive) (r s : bool),
    (k < digits2_pos p)%positive ->
    exists p' r' s',
      iter_pos shr_1 k (Build_shr_record (Zpos p) r s)
      = Build_shr_record (Zpos p') r' s' /\
      digits2_pos p = (digits2_pos p' + k)%positive.
Proof.
  induction k as [k IH|k IH|]; intros p r s Hk; cbn [iter_pos].
  - destruct (shr_1_digits p r s) as (p1 & r1 & s1 & E1 & D1); [lia|].
    rewrite E1.
    destruct (IH p1 r1 s1) as (p2 & r2 & s2 & E2 & D2); [lia|].
    rewrite E2.
    destruct (IH p2 r2 s2) as (p3 & r3 & s3 & E3 & D3); [lia|].
    rewrite E3. exists p3, r3, s3. split; [reflexivity|lia].
  - destruct (IH p r s) as (p2 & r2 & s2 & E2 & D2); [lia|].
    rewrite E2.
    destruct (IH p2 r2 s2) as (p3 & r3 & s3 & E3 & D3); [lia|].
    rewrite E3. exists p3, r3, s3. split; [reflexivity|lia].
  - destruct (shr_1_digits p r s) as (p1 & r1 & s1 & E1 & D1); [lia|].
    exists p1, r1, s1. split; [exact E1|lia].
Qed.

Lemma shr_fexp_pos (p : positive) (e : Z) :
  24 <= Zpos (digits2_pos p) ->
  -125 <= Zpos (digits2_pos p) + e ->
  exists p' r' s',
    shr_fexp prec emax (Zpos p) e loc_Exact
    = (Build_shr_record (Zpos p') r' s', e + Zpos (digits2_pos p) - 24) /\
    Zpos (digits2_pos p') = 24.
Proof.
  intros Hd He. unfold shr_fexp, shr.
  replace (fexp prec emax (Zdigits2 (Zpos p) + e) - e)
    with (Zpos (digits2_pos p) - 24)
    by (unfold fexp, emin, prec, emax; simpl Zdigits2; lia).
  destruct (Zpos (digits2_pos p) - 24) as [|k|k] eqn:Ek.
  - exists p, false, false. simpl. split; [f_equal; lia | lia].
  - destruct (iter_shr_1_digits k p false false) as (p' & r' & s' & E & D); [lia|].
    exists p', r', s'. simpl shr_record_of_loc. rewrite E.
    split; [f_equal; lia | lia].
  - lia.
Qed.

Lemma round_nearest_even_pos (p : positive) (l : location) :
  exists p', round_nearest_even (Zpos p) l = Zpos p' /\
             Zpos (digits2_pos p) <= Zpos (digits2_pos p') <= Zpos (digits2_pos p) + 1.
Proof.
  assert (Hs : exists p', Zpos p + 1 = Zpos p' /\
             Zpos (digits2_pos p) <= Zpos (digits2_pos p') <= Zpos (digits2_pos p) + 1).
  { exists (Pos.succ p). split; [lia|].
    destruct (digits2_pos_succ p) as [E|E]; rewrite E; lia. }
  assert (Hi : exists p', Zpos p = Zpos p' /\
             Zpos (digits2_pos p) <= Zpos (digits2_pos p') <= Zpos (digits2_pos p) + 1)
    by (exists p; split; [reflexivity|lia]).
  destruct l as [|[]]; unfold round_nearest_even;
    try exact Hi; try exact Hs.
  destruct (Z.even (Zpos p)); [exact Hi|exact Hs].
Qed.

(** Rounding a mantissa of at least 24 digits whose value is below [2^128]
    gives a finite, non-zero binary32 number. *)
Lemma binary_round_aux_finite (s : bool) (p : positive) (e : Z) :
  24 <= Zpos (digits2_pos p) ->
  -125 <= Zpos (digits2_pos p) + e <= 127 ->
  exists m e', binary_round_aux prec emax s (Zpos p) e loc_Exact = S754_finite s m e'.
Proof.
  intros Hd He. unfold binary_round_aux.
  destruct (shr_fexp_pos p e Hd) as (p1 & r1 & s1 & E1 & D1); [lia|].
  rewrite E1. cbn [shr_m].
  destruct (round_nearest_even_pos p1 (loc_of_shr_record (Build_shr_record (Zpos p1) r1 s1)))
    as (p2 & E2 & D2).
  rewrite E2.
  destruct (shr_fexp_pos p2 (e + Zpos (digits2_pos p) - 24)) as (p3 & r3 & s3 & E3 & D3);
    [lia|lia|].
  rewrite E3. cbn [shr_m].
  replace (_ <=? emax - prec) with true
    by (symmetry; apply Z.leb_le; unfold emax, prec; lia).
  eauto.
Qed.

Lemma of_int_pos_finite (n : Z) :
  0 < n < 2 ^ 31 -> exists m e, of_int n = S754_finite false m e.
Proof.
  intros Hn. destruct n as [|p|p]; try lia.
  unfold of_int, binary_normalize, binary_round.
  assert (Hd : Zpos (digits2_pos p) <= 31) by (apply digits2_pos_le; lia).
  assert (Hd1 : 1 <= Zpos (digits2_pos p)) by lia.
  replace (fexp prec emax (Zpos (digits2_pos p) + 0)) with (Zpos (digits2_pos p) - 24)
    by (unfold fexp, emin, prec, emax; lia).
  unfold shl_align.
  destruct (Zpos (digits2_pos p) - 24 - 0) as [|k|k] eqn:Ek.
  - apply binary_round_aux_finite; lia.
  - apply binary_round_aux_finite; lia.
  - apply binary_round_aux_finite; rewrite digits2_pos_iter_xO; lia.
Qed.

(** The length of a clip with a positive sample rate and a non-negative frame
    count is a non-negative number. *)
Lemma div_of_int_nonneg (frames rate : Z) :
  0 <= frames -> 0 < rate < 2 ^ 31 ->
  le zero (div (of_int frames) (of_int rate)) = true.
Proof.
  intros Hf Hr.
  destruct (of_int_pos_finite rate Hr) as (m2 & e2 & E2). rewrite E2.
  pose proof (of_int_sign frames) as Hs.
  replace (frames <? 0) with false in Hs by (symmetry; apply Z.ltb_ge; lia).
  pose proof (of_int_not_nan frames) as Hn.
  destruct (of_int frames) as [s1|s1| |s1 m1 e1]; simpl in Hs, Hn; subst;
    try discriminate; try reflexivity.
  unfold div, SFdiv.
  destruct (SFdiv_core_binary prec emax (Zpos m1) e1 (Zpos m2) e2) as [[mz ez] lz] eqn:Ed.
  assert (Hmz : 0 <= mz).
  { unfold SFdiv_core_binary in Ed.
    set (m' := match _ - _ - _ with Zpos _ => _ | Z0 => _ | Zneg _ => _ end) in Ed.
    assert (Hm' : 0 <= m').
    { unfold m'. destruct (_ - _ - _); try lia. apply Z.shiftl_nonneg. lia. }
    pose proof (Z_div_mod m' (Zpos m2) eq_refl) as Hdm.
    destruct (Z.div_eucl m' (Zpos m2)) as [q r]. inversion Ed; subst. nia. }
  change (xorb false false) with false.
  pose proof (binary_round_aux_sign false mz ez lz) as Hsg.
  pose proof (binary_round_aux_not_nan false mz ez lz Hmz) as Hnn.
  destruct (binary_round_aux prec emax false mz ez lz); simpl in Hsg, Hnn; subst;
    try discriminate; reflexivity.
Qed.

(** *** The loops of the callback *)

Lemma for_loop_spec (g : Z -> list float) (body : Z -> option (list float)) :
  forall (k s : nat),
    (forall j, (s <= j < s + k)%nat -> body (Z.of_nat j) = Some (g (Z.of_nat j))) ->
    for_loop k (Z.of_nat s) body = Some (flat_map g (map Z.of_nat (seq s k))).
Proof.
  induction k as [|k IH]; intros s H; simpl.
  - reflexivity.
  - rewrite (H s) by lia. simpl.
    replace (Z.of_nat s + 1) with (Z.of_nat (S s)) by lia.
    rewrite (IH (S s)) by (intros j Hj; apply H; lia).
    reflexivity.
Qed.

Lemma for_upto_spec (g : Z -> list float) (body : Z -> option (list float)) (n : Z) :
  (forall j, 0 <= j < n -> body j = Some (g j)) ->
  for_upto n body = Some (flat_map g (seqZ n)).
Proof.
  intros H. unfold for_upto, seqZ.
  apply (for_loop_spec g body (Z.to_nat n) 0).
  intros j Hj. apply H. lia.
Qed.

Lemma flat_map_singleton {A B : Type} (f : A -> B) (l : list A) :
  flat_map (fun x => [f x]) l = map f l.
Proof. induction l as [|a l IH]; simpl; [reflexivity | rewrite IH; reflexivity]. Qed.

Lemma sample_at_spec (data : list float) (i : Z) :
  0 <= i < Z.of_nat (List.length data) ->
  sample_at data i = Some (nth (Z.to_nat i) data zero).
Proof.
  intros H. unfold sample_at.
  replace (i <? 0) with false by (symmetry; apply Z.ltb_ge; lia).
  apply nth_error_nth'. lia.
Qed.

Lemma c_rem_spec (a b : Z) : 0 <= a -> 0 < b -> c_rem a b = Some (a mod b).
Proof.
  intros Ha Hb. unfold c_rem.
  replace (b =? 0) with false by (symmetry; apply Z.eqb_neq; lia).
  rewrite Z.rem_mod_nonneg by lia. reflexivity.
Qed.

Lemma copyFrame_spec (p : UnityAudioPlayer) (outputChannels srcFrame : Z) :
  clip_ok p -> 0 <= srcFrame < m_totalFrames p ->
  copyFrame p outputChannels (srcFrame * m_channels p)
  = Some (spec_frame p outputChannels srcFrame).
Proof.
  intros [Hc Hlen] Hf. unfold copyFrame, spec_frame.
  rewrite <- flat_map_singleton.
  apply for_upto_spec. intros c Hcr.
  rewrite c_rem_spec by lia. simpl.
  pose proof (Z.mod_pos_bound c (m_channels p)) as Hm.
  rewrite sample_at_spec by nia. reflexivity.
Qed.

Lemma copyFrames_spec (p : UnityAudioPlayer) (outputChannels cur count : Z) :
  clip_ok p -> 0 <= cur -> cur + count <= m_totalFrames p ->
  copyFrames p outputChannels cur count
  = Some (spec_copy p outputChannels cur count).
Proof.
  intros Hok Hcur Hcount. unfold copyFrames, spec_copy.
  apply for_upto_spec. intros i Hi.
  apply copyFrame_spec; [exact Hok | lia].
Qed.

Lemma wrapFrames_spec (p : UnityAudioPlayer) (outputChannels count : Z) :
  clip_ok p -> 1 <= m_totalFrames p ->
  wrapFrames p outputChannels count = Some (spec_wrap p outputChannels count).
Proof.
  intros Hok Ht. unfold wrapFrames, spec_wrap.
  apply for_upto_spec. intros i Hi.
  rewrite c_rem_spec by lia. simpl.
  apply copyFrame_spec; [exact Hok | apply Z.mod_pos_bound; lia].
Qed.

Lemma nonempty_clip_has_frames (p : UnityAudioPlayer) :
  clip_ok p -> is_empty (m_interleavedData p) = false -> 1 <= m_totalFrames p.
Proof.
  intros [Hc Hlen] Hne.
  destruct (m_interleavedData p) as [|x l]; [discriminate|].
  simpl List.length in Hlen. nia.
Qed.

(** *** Clips as the loader leaves them *)

Lemma copyFrame_fits (p : UnityAudioPlayer) (outputChannels srcFrame : Z) :
  clip_fits p -> 0 <= srcFrame < m_totalFrames p ->
  copyFrame p outputChannels (srcFrame * m_channels p)
  = Some (spec_frame p outputChannels srcFrame).
Proof.
  intros [Hc Hlen] Hf. unfold copyFrame, spec_frame.
  rewrite <- flat_map_singleton.
  apply for_upto_spec. intros c Hcr.
  rewrite c_rem_spec by lia. simpl.
  pose proof (Z.mod_pos_bound c (m_channels p)) as Hm.
  rewrite sample_at_spec by nia. reflexivity.
Qed.

Lemma copyFrames_fits (p : UnityAudioPlayer) (outputChannels cur count : Z) :
  clip_fits p -> 0 <= cur -> cur + count <= m_totalFrames p ->
  copyFrames p outputChannels cur count
  = Some (spec_copy p outputChannels cur count).
Proof.
  intros Hok Hcur Hcount. unfold copyFrames, spec_copy.
  apply for_upto_spec. intros i Hi.
  apply copyFrame_fits; [exact Hok | lia].
Qed.

Lemma wrapFrames_fits (p : UnityAudioPlayer) (outputChannels count : Z) :
  clip_fits p -> 1 <= m_totalFrames p ->
  wrapFrames p outputChannels count = Some (spec_wrap p outputChannels count).
Proof.
  intros Hok Ht. unfold wrapFrames, spec_wrap.
  apply for_upto_spec. intros i Hi.
  rewrite c_rem_spec by lia. simpl.
  apply copyFrame_fits; [exact Hok | apply Z.mod_pos_bound; lia].
Qed.

Lemma wrap_int_small (z : Z) : - 2 ^ 31 <= z < 2 ^ 31 -> wrap_int z = z.
Proof. intros H. unfold wrap_int. rewrite Z.mod_small by lia. lia. Qed.

(** The frame count of a buffer of fewer than [2^31] samples: the floor of
    [size / channels] for a positive channel count, 0 for a negative one
    (which the conversion to [size_t] makes larger than any size). *)
Lemma frames_of_cases (size channels frames : Z) :
  0 <= size < 2 ^ 31 -> INT_MIN <= channels <= INT_MAX ->
  frames_of size channels = Some frames ->
  (1 <= channels /\ frames = size / channels) \/ (channels < 0 /\ frames = 0).
Proof.
  unfold INT_MIN, INT_MAX, frames_of. intros Hs Hc.
  destruct (channels =? 0) eqn:E; [discriminate|]. apply Z.eqb_neq in E.
  intros H. injection H as Hf. rewrite <- Hf. clear Hf frames.
  change (Z.pow_pos 2 64) with (2 ^ 64).
  destruct (Z_lt_le_dec channels 0) as [Hneg|Hpos].
  - right. split; [exact Hneg|].
    replace (channels mod 2 ^ 64) with (channels + 2 ^ 64).
    + rewrite Z.div_small by lia. reflexivity.
    + rewrite <- (Z.mod_add channels 1 (2 ^ 64)) by lia.
      rewrite Z.mod_small by lia. lia.
  - left. split; [lia|].
    rewrite (Z.mod_small channels) by lia.
    assert (0 <= size / channels <= size).
    { split; [apply Z.div_pos; lia|].
      apply Z.div_le_upper_bound; [lia|nia]. }
    apply wrap_int_small. lia.
Qed.

Lemma clip_loaded_frames_nonneg (p : UnityAudioPlayer) :
  clip_loaded p -> 0 <= m_totalFrames p.
Proof.
  intros (Hc & Hs & Hf).
  assert (Hs' : 0 <= Z.of_nat (List.length (m_interleavedData p)) < 2 ^ 31) by lia.
  destruct (frames_of_cases _ _ _ Hs' Hc Hf) as [[H1 H2]|[H1 H2]];
    rewrite H2; [apply Z.div_pos; lia | lia].
Qed.

Lemma clip_loaded_fits (p : UnityAudioPlayer) :
  clip_loaded p -> 1 <= m_totalFrames p -> clip_fits p.
Proof.
  intros (Hc & Hs & Hf) Ht.
  assert (Hs' : 0 <= Z.of_nat (List.length (m_interleavedData p)) < 2 ^ 31) by lia.
  destruct (frames_of_cases _ _ _ Hs' Hc Hf) as [[H1 H2]|[H1 H2]]; [|lia].
  split; [exact H1|]. rewrite H2, Z.mul_comm. apply Z.mul_div_le. lia.
Qed.

(** A clip whose buffer is a whole number of frames is of the form the
    loader leaves. *)
Lemma clip_ok_loaded (p : UnityAudioPlayer) :
  clip_ok p -> m_channels p <= INT_MAX -> 0 <= m_totalFrames p ->
  Z.of_nat (List.length (m_interleavedData p)) < 2 ^ 31 ->
  clip_loaded p.
Proof.
  unfold INT_MIN, INT_MAX. intros [Hc Hlen] Hm Ht Hs.
  split; [unfold INT_MIN, INT_MAX; lia|]. split; [exact Hs|].
  unfold frames_of.
  replace (m_channels p =? 0) with false by (symmetry; apply Z.eqb_neq; lia).
  rewrite (Z.mod_small (m_channels p)) by (unfold INT_MAX in Hm; lia).
  rewrite Hlen, Z.div_mul by lia.
  rewrite wrap_int_small; [reflexivity|nia].
Qed.

(** *** The branches of [onAudioReady] *)

Section Callback.

Variable p : UnityAudioPlayer.
Variable audioStream : AudioStream.
Variable numFrames : Z.
Variable cur : Z.

Hypothesis Hplaying : m_state p = AUDIO_STATE_PLAYING.
Hypothesis Hloaded : is_empty (m_interleavedData p) = false.
Hypothesis Hcur : to_int (mul (m_currentTime p) (of_int (m_sampleRate p))) = Some cur.

Lemma onAudioReady_playing :
  onAudioReady p audioStream numFrames =
  (copied <- copyFrames p (getChannelCount audioStream) cur (framesToCopy p numFrames cur) ;;
   if framesToCopy p numFrames cur <? numFrames then
     if m_loop p then
       wrapped <- wrapFrames p (getChannelCount audioStream)
                    (numFrames - framesToCopy p numFrames cur) ;;
       Some (set_currentTime
               (div (of_int (numFrames - framesToCopy p numFrames cur))
                    (of_int (m_sampleRate p))) p,
             copied ++ wrapped, Continue)
     else
       let out := copied ++ generateSilence (numFrames - framesToCopy p numFrames cur)
                              (getChannelCount audioStream) in
       let p1 := set_currentTime (add (m_currentTime p) (frameTime audioStream numFrames)) p in
       if ge (m_currentTime p1) (getMusicLength p1)
       then Some (set_state AUDIO_STATE_STOPPED p1, out, Stop)
       else Some (p1, out, Continue)
   else
     Some (set_currentTime (add (m_currentTime p) (frameTime audioStream numFrames)) p,
           copied, Continue)).
Proof.
  unfold onAudioReady. rewrite Hplaying, Hloaded, Hcur. reflexivity.
Qed.

(** No overflow in this callback: [numFrames] source frames are copied. *)
Lemma onAudioReady_full :
  clip_ok p -> 0 <= cur -> numFrames <= m_totalFrames p - cur ->
  onAudioReady p audioStream numFrames =
  Some (set_currentTime (add (m_currentTime p) (frameTime audioStream numFrames)) p,
        spec_copy p (getChannelCount audioStream) cur numFrames, Continue).
Proof.
  intros Hok H0 Hn. rewrite onAudioReady_playing.
  unfold framesToCopy. rewrite Z.min_l by lia.
  rewrite copyFrames_spec by (auto; lia). simpl.
  rewrite Z.ltb_irrefl. reflexivity.
Qed.

End Callback.

(** *** Runs of callbacks *)

Lemma set_currentTime_same (p : UnityAudioPlayer) :
  set_currentTime (m_currentTime p) p = p.
Proof. destruct p; reflexivity. Qed.

Lemma spec_frame_length (p : UnityAudioPlayer) (outputChannels srcFrame : Z) :
  List.length (spec_frame p outputChannels srcFrame) = Z.to_nat outputChannels.
Proof. unfold spec_frame, seqZ. rewrite !length_map, length_seq. reflexivity. Qed.

Lemma flat_map_length_const {A B : Type} (f : A -> list B) (n : nat) (l : list A) :
  (forall x, List.length (f x) = n) ->
  List.length (flat_map f l) = (List.length l * n)%nat.
Proof.
  intros H. induction l as [|a l IH]; simpl; [reflexivity|].
  rewrite length_app, H, IH. reflexivity.
Qed.

Lemma seqZ_length (n : Z) : List.length (seqZ n) = Z.to_nat n.
Proof. unfold seqZ. rewrite length_map, length_seq. reflexivity. Qed.

Lemma spec_copy_length (p : UnityAudioPlayer) (outputChannels first count : Z) :
  List.length (spec_copy p outputChannels first count)
  = (Z.to_nat count * Z.to_nat outputChannels)%nat.
Proof.
  unfold spec_copy.
  rewrite (flat_map_length_const _ (Z.to_nat outputChannels))
    by (intros; apply spec_frame_length).
  rewrite seqZ_length. reflexivity.
Qed.

Lemma spec_wrap_length (p : UnityAudioPlayer) (outputChannels count : Z) :
  List.length (spec_wrap p outputChannels count)
  = (Z.to_nat count * Z.to_nat outputChannels)%nat.
Proof.
  unfold spec_wrap.
  rewrite (flat_map_length_const _ (Z.to_nat outputChannels))
    by (intros; apply spec_frame_length).
  rewrite seqZ_length. reflexivity.
Qed.

Lemma generateSilence_length (numFrames channels : Z) :
  List.length (generateSilence numFrames channels) = Z.to_nat (numFrames * channels).
Proof. apply repeat_length. Qed.

Lemma run_callbacks_full (audioStream : AudioStream) (numFrames : Z) (j : nat) :
  forall (k : nat) (p : UnityAudioPlayer),
    m_state p = AUDIO_STATE_PLAYING ->
    is_empty (m_interleavedData p) = false ->
    clip_ok p ->
    all_full (m_sampleRate p) (m_totalFrames p) (frameTime audioStream numFrames)
             numFrames k (m_currentTime p) = true ->
    run_callbacks (k + j) p audioStream numFrames =
    option_map (app (full_results p audioStream numFrames k))
      (run_callbacks j
         (set_currentTime
            (advance_time (frameTime audioStream numFrames) k (m_currentTime p)) p)
         audioStream numFrames).
Proof.
  induction k as [|k IH]; intros p Hs Hne Hok Hall.
  - cbn [Nat.add advance_time full_results]. rewrite set_currentTime_same.
    destruct (run_callbacks j p audioStream numFrames); reflexivity.
  - cbn [all_full] in Hall. apply andb_true_iff in Hall as [Hc Hrest].
    unfold full_ok in Hc.
    cbn [Nat.add run_callbacks full_results].
    destruct (to_int (mul (m_currentTime p) (of_int (m_sampleRate p)))) as [c|] eqn:Ec;
      [|discriminate].
    apply andb_true_iff in Hc as [Hc0 Hcn].
    apply Z.leb_le in Hc0. apply Z.leb_le in Hcn.
    rewrite (onAudioReady_full p audioStream numFrames c Hs Hne Ec Hok Hc0 Hcn).
    set (p1 := set_currentTime (add (m_currentTime p) (frameTime audioStream numFrames)) p).
    rewrite (IH p1 Hs Hne Hok Hrest).
    cbn [advance_time].
    change (set_currentTime ?t p1) with (set_currentTime t p).
    destruct (run_callbacks j _ audioStream numFrames); reflexivity.
Qed.

Lemma full_results_length (audioStream : AudioStream) (numFrames : Z) (k : nat) :
  forall p, List.length (full_results p audioStream numFrames k) = k.
Proof. induction k as [|k IH]; intros p; cbn [full_results List.length]; auto. Qed.

Lemma full_results_continue (audioStream : AudioStream) (numFrames : Z) (k : nat) :
  forall p, Forall (fun r => snd r = Continue
                             /\ List.length (snd (fst r))
                                = (Z.to_nat numFrames * Z.to_nat (getChannelCount audioStream))%nat)
                   (full_results p audioStream numFrames k).
Proof.
  induction k as [|k IH]; intros p; cbn [full_results]; constructor; auto.
  split; [reflexivity|]. cbn [fst snd]. apply spec_copy_length.
Qed.

(** *** Undefined reads and remainders *)

Lemma sample_at_defined_iff (data : list float) (i : Z) :
  (exists x, sample_at data i = Some x) <-> 0 <= i < Z.of_nat (List.length data).
Proof.
  unfold sample_at. split.
  - intros [x H]. destruct (i <? 0) eqn:E; [discriminate|].
    apply Z.ltb_ge in E.
    assert (Hn : (Z.to_nat i < List.length data)%nat)
      by (apply nth_error_Some; congruence).
    lia.
  - intros H. exists (nth (Z.to_nat i) data zero). apply sample_at_spec. exact H.
Qed.

Lemma c_rem_defined_iff (a b : Z) : (exists r, c_rem a b = Some r) <-> b <> 0.
Proof.
  unfold c_rem. split.
  - intros [r H]. destruct (b =? 0) eqn:E; [discriminate|].
    apply Z.eqb_neq. exact E.
  - intros H. apply Z.eqb_neq in H. rewrite H. eauto.
Qed.

(** *** Clamping of the position *)

Lemma setCurrentTime_in_range (time : float) (p : UnityAudioPlayer) :
  le zero (getMusicLength p) = true ->
  in_range (setCurrentTime time p) = true.
Proof.
  intros HL. unfold in_range, setCurrentTime, getCurrentTime.
  change (getMusicLength (set_currentTime ?t p)) with (getMusicLength p).
  change (m_currentTime (set_currentTime ?t p)) with t.
  set (L := getMusicLength p) in *.
  pose proof (le_not_nan_r _ _ HL) as HLn.
  apply andb_true_iff.
  unfold std_max, std_min.
  destruct (lt L time) eqn:E1.
  - destruct (lt zero L) eqn:E2.
    + split; [exact HL | apply le_refl; exact HLn].
    + split; [reflexivity | exact HL].
  - destruct (lt zero time) eqn:E2.
    + split; [apply lt_le; exact E2|].
      apply not_lt_le; [eapply lt_not_nan_r; exact E2 | exact HLn | exact E1].
    + split; [reflexivity | exact HL].
Qed.

Lemma apply_call_length (c : TimeCall) (p : UnityAudioPlayer) :
  getMusicLength (apply_call p c) = getMusicLength p.
Proof. destruct c; reflexivity. Qed.

Lemma apply_calls_length (cs : list TimeCall) :
  forall p, getMusicLength (apply_calls cs p) = getMusicLength p.
Proof.
  induction cs as [|c cs IH]; intros p; [reflexivity|].
  cbn [apply_calls fold_left]. unfold apply_calls in IH. rewrite IH.
  apply apply_call_length.
Qed.

Lemma apply_call_in_range (c : TimeCall) (p : UnityAudioPlayer) :
  le zero (getMusicLength p) = true -> in_range (apply_call p c) = true.
Proof. intros H. destruct c; apply setCurrentTime_in_range; exact H. Qed.

Lemma apply_calls_in_range (cs : list TimeCall) :
  forall p, le zero (getMusicLength p) = true ->
            cs <> [] \/ in_range p = true ->
            in_range (apply_calls cs p) = true.
Proof.
  induction cs as [|c cs IH]; intros p HL H.
  - destruct H as [H|H]; [congruence | exact H].
  - cbn [apply_calls fold_left]. apply IH.
    + rewrite apply_call_length. exact HL.
    + right. apply apply_call_in_range. exact HL.
Qed.

(** *** Comparison with [1.0f] *)

Lemma SFcompare_finite_Eq (s1 s2 : bool) (m1 m2 : positive) (e1 e2 : Z) :
  SFcompare (S754_finite s1 m1 e1) (S754_finite s2 m2 e2) = Some Eq ->
  S754_finite s1 m1 e1 = S754_finite s2 m2 e2.
Proof.
  cbn [SFcompare]. intros H.
  destruct s1, s2; try discriminate;
    destruct (e1 ?= e2) eqn:Ee; try discriminate;
    apply Z.compare_eq in Ee; subst e2;
    destruct (Pos.compare_cont Eq m1 m2) eqn:Em; try discriminate;
    apply (Pos.compare_eq m1 m2) in Em; subst m2; reflexivity.
Qed.

Lemma compare_one_eq (v : float) : SFcompare v one = Some Eq -> v = one.
Proof.
  unfold one. destruct v as [s|s| |s m e]; cbn [SFcompare];
    try discriminate; try (destruct s; discriminate).
  apply (SFcompare_finite_Eq s false m 8388608 e (-23)).
Qed.

(** *** Failure of [setClip] *)

Lemma setClip_failure_effect (env : Env) (clipPath : string)
  (p p' : UnityAudioPlayer) :
  setClip env clipPath p = Some (p', false) ->
  p' = set_clipPath clipPath p.
Proof.
  unfold setClip, loadAudioData. intros H.
  destruct (is_empty _); [congruence|].
  destruct (decoder env clipPath _); [|congruence].
  destruct (frames_of _ _); discriminate.
Qed.

(** * The claims *)

(** C1, in the form that holds of the code.  In every callback made in the
    Playing state with a loaded clip and the loop flag off, when
    [toCopy = min(numFrames, totalFrames - cur)] is less than [numFrames]
    (with [cur] the frame index of the position and [copied] the [toCopy]
    frames taken from the clip), [onAudioReady] writes the copied frames
    followed by [numFrames - toCopy] frames of silence, advances the
    position by [numFrames] divided by the sample rate of the output stream
    (not of the clip: the two differ when a clip of another rate is loaded
    while the stream is open), and then sets the state to Stopped and
    returns [Stop] if the advanced position is at least the clip length, and
    returns [Continue] otherwise.  In the scenario of a one-second mono clip
    at 48000 Hz played on a 48000 Hz stream from position 0 at volume 1 in
    callbacks of 512 frames, callbacks 1 to 93 copy 512 frames each and
    continue, and the 94th starts at frame 47616, copies 384 frames, writes
    128 frames of silence, leaves the player Stopped and returns [Stop]. *)
Theorem onAudioReady_end_of_clip_without_loop :
  (forall (p : UnityAudioPlayer) (audioStream : AudioStream)
          (numFrames cur : Z) (copied : list float),
      m_state p = AUDIO_STATE_PLAYING ->
      is_empty (m_interleavedData p) = false ->
      m_loop p = false ->
      to_int (mul (m_currentTime p) (of_int (m_sampleRate p))) = Some cur ->
      framesToCopy p numFrames cur < numFrames ->
      copyFrames p (getChannelCount audioStream) cur (framesToCopy p numFrames cur)
      = Some copied ->
      onAudioReady p audioStream numFrames
      = Some (end_of_clip_result p audioStream numFrames cur copied))
  /\
  (forall data : list float,
      Z.of_nat (List.length data) = 48000 -> scenario_holds data).
Proof.
  split.
  - intros p audioStream numFrames cur copied Hs Hne Hloop Hcur Hlt Hcopy.
    rewrite (onAudioReady_playing p audioStream numFrames cur Hs Hne Hcur).
    rewrite Hcopy. cbn [bind].
    apply Z.ltb_lt in Hlt. rewrite Hlt, Hloop.
    unfold end_of_clip_result. cbn zeta.
    set (advanced := add (m_currentTime p) (frameTime audioStream numFrames)).
    change (m_currentTime (set_currentTime advanced p)) with advanced.
    change (getMusicLength (set_currentTime advanced p)) with (getMusicLength p).
    destruct (ge advanced (getMusicLength p)); reflexivity.
  - intros data Hlen. unfold scenario_holds.
    set (p0 := scenario_clip data). cbn zeta.
    set (stopped := set_state AUDIO_STATE_STOPPED _).
    assert (Hne : is_empty (m_interleavedData p0) = false).
    { destruct data; [discriminate|reflexivity]. }
    assert (Hok : clip_ok p0).
    { split; cbn; [lia|]. rewrite Hlen. reflexivity. }
    split; [|split; [|split; [|split; [|split; [|split]]]]].
    + change 94%nat with (93 + 1)%nat.
      rewrite (run_callbacks_full scenario_stream 512 1 93 p0 eq_refl Hne Hok);
        [ | vm_compute; reflexivity ].
      set (p93 := set_currentTime _ p0).
      cbn [run_callbacks].
      assert (Hcur : to_int (mul (m_currentTime p93) (of_int (m_sampleRate p93)))
                     = Some 47616) by (vm_compute; reflexivity).
      assert (E : onAudioReady p93 scenario_stream 512 =
                  Some (stopped, spec_copy p0 1 47616 384 ++ generateSilence 128 1, Stop)).
      { rewrite (onAudioReady_playing p93 scenario_stream 512 47616 eq_refl Hne Hcur).
        replace (framesToCopy p93 512 47616) with 384
          by (unfold framesToCopy;
              cbn [m_totalFrames p93 set_currentTime p0 scenario_clip]; lia).
        rewrite (copyFrames_spec p93 _ 47616 384 Hok);
          [ | lia | cbn [m_totalFrames p93 set_currentTime p0 scenario_clip]; lia ].
        cbn [bind]. replace (384 <? 512) with true by reflexivity.
        replace (m_loop p93) with false by reflexivity. cbn zeta.
        replace (ge _ _) with true by (vm_compute; reflexivity).
        reflexivity. }
      rewrite E. reflexivity.
    + apply full_results_length.
    + apply (full_results_continue scenario_stream 512 93 p0).
    + vm_compute. reflexivity.
    + rewrite spec_copy_length. reflexivity.
    + reflexivity.
    + reflexivity.
Qed.

Lemma onAudioReady_end_of_clip_without_loop_witness :
  onAudioReady (three_frame_clip false) stereo_stream 5
  = Some (end_of_clip_result (three_frame_clip false) stereo_stream 5 0
            [half; half; zero; zero; half; half])
  /\ scenario_holds (repeat one (Z.to_nat 48000)).
Proof.
  split.
  - apply (proj1 onAudioReady_end_of_clip_without_loop
             (three_frame_clip false) stereo_stream 5 0
             [half; half; zero; zero; half; half]);
      vm_compute; reflexivity.
  - apply (proj2 onAudioReady_end_of_clip_without_loop
             (repeat one (Z.to_nat 48000))).
    vm_compute. reflexivity.
Defined.

(** C1 as stated, with the clip's sample rate in the advance, fails when the
    stream runs at another rate.  [play()] on a new player opens the stream
    at 48000 Hz; [setClip] then loads three stereo frames at 3 Hz.  In a
    callback of 5 frames [toCopy = 3 < 5]; the position advances to
    [5 / 48000], which is below the clip length of one second, and the
    callback returns [Continue] in state Playing, whereas the position
    advanced by [5 / 3] would have reached the clip length. *)
Lemma onAudioReady_advances_by_stream_rate :
  calls (device (play OK OK newWorld))
  = [CallOpenStream O 2 48000; CallRequestStart O OK] /\
  exists p : UnityAudioPlayer,
    started_before_load = Some (p, true) /\
    m_state p = AUDIO_STATE_PLAYING /\
    is_empty (m_interleavedData p) = false /\
    m_loop p = false /\
    m_sampleRate p = 3 /\
    to_int (mul (m_currentTime p) (of_int (m_sampleRate p))) = Some 0 /\
    framesToCopy p 5 0 = 3 /\
    onAudioReady p (mkStream 2 48000) 5
    = Some (set_currentTime (add (m_currentTime p) (div (of_int 5) (of_int 48000))) p,
            spec_copy p 2 0 3 ++ generateSilence 2 2, Continue) /\
    ge (add (m_currentTime p) (div (of_int 5) (of_int 48000))) (getMusicLength p)
    = false /\
    ge (add (m_currentTime p) (div (of_int 5) (of_int (m_sampleRate p))))
       (getMusicLength p) = true.
Proof.
  split; [reflexivity|].
  eexists. split; [vm_compute; reflexivity|].
  repeat split; vm_compute; reflexivity.
Qed.

(** The same scenario, fourth callback: binary32 rounding of the accumulated
    position makes it start at frame 1535, not 1536. *)
Example scenario_fourth_callback_start :
  to_int (mul (advance_time (frameTime scenario_stream 512) 3 zero) (of_int 48000))
  = Some 1535.
Proof. vm_compute. reflexivity. Qed.

(** C2, in the form that holds of the code.  In every callback made in the
    Playing state with a loaded clip of at least one frame and the loop flag
    on, when [toCopy < numFrames], [onAudioReady] writes the [toCopy] frames
    that remain and then [numFrames - toCopy] frames of the wrap, frame [i]
    of the wrap taken from source frame [i mod totalFrames], every output
    channel [c] reading source channel [c mod channels] scaled by the
    volume; it sets the position to [(numFrames - toCopy) / sampleRate] and
    returns [Continue].  The clip members are as [loadAudioData] leaves
    them; the buffer need not be a whole number of frames. *)
Theorem onAudioReady_loop_wrap (p : UnityAudioPlayer) (audioStream : AudioStream)
  (numFrames cur : Z) :
  m_state p = AUDIO_STATE_PLAYING ->
  is_empty (m_interleavedData p) = false ->
  m_loop p = true ->
  clip_loaded p ->
  1 <= m_totalFrames p ->
  to_int (mul (m_currentTime p) (of_int (m_sampleRate p))) = Some cur ->
  0 <= cur ->
  framesToCopy p numFrames cur < numFrames ->
  onAudioReady p audioStream numFrames =
  Some (set_currentTime
          (div (of_int (numFrames - framesToCopy p numFrames cur))
               (of_int (m_sampleRate p))) p,
        spec_copy p (getChannelCount audioStream) cur (framesToCopy p numFrames cur)
        ++ spec_wrap p (getChannelCount audioStream)
             (numFrames - framesToCopy p numFrames cur),
        Continue).
Proof.
  intros Hs Hne Hloop Hld Ht Hcur H0 Hlt.
  pose proof (clip_loaded_fits p Hld Ht) as Hfit.
  rewrite (onAudioReady_playing p audioStream numFrames cur Hs Hne Hcur).
  rewrite copyFrames_fits by (auto; unfold framesToCopy; lia).
  cbn [bind]. apply Z.ltb_lt in Hlt. rewrite Hlt, Hloop.
  rewrite wrapFrames_fits by assumption.
  reflexivity.
Qed.

Lemma onAudioReady_loop_wrap_witness :
  onAudioReady (three_frame_clip true) stereo_stream 5 =
  Some (set_currentTime
          (div (of_int (5 - framesToCopy (three_frame_clip true) 5 0))
               (of_int (m_sampleRate (three_frame_clip true))))
          (three_frame_clip true),
        spec_copy (three_frame_clip true) (getChannelCount stereo_stream) 0
          (framesToCopy (three_frame_clip true) 5 0)
        ++ spec_wrap (three_frame_clip true) (getChannelCount stereo_stream)
             (5 - framesToCopy (three_frame_clip true) 5 0),
        Continue).
Proof.
  apply (onAudioReady_loop_wrap (three_frame_clip true) stereo_stream 5 0);
    try (vm_compute; reflexivity).
  - split; [|split]; vm_compute; try reflexivity; split; discriminate.
  - vm_compute. discriminate.
  - lia.
Defined.

(** C2 as stated fails on a loaded clip without a whole frame.  [setClip]
    accepts one sample declared as stereo: the load succeeds, the buffer is
    not empty and the frame count is 0.  In a callback of one frame on that
    clip, Playing with the loop flag on, [toCopy = 0 < 1] and the wrap takes
    [0 % 0]: the callback has no defined result. *)
Lemma loop_wrap_undefined_without_frame :
  exists p : UnityAudioPlayer,
    setClip (decoding_env lone_sample) "clip.wav"%string looping_player
    = Some (p, true) /\
    m_state p = AUDIO_STATE_PLAYING /\
    is_empty (m_interleavedData p) = false /\
    m_loop p = true /\
    clip_loaded p /\
    m_totalFrames p = 0 /\
    to_int (mul (m_currentTime p) (of_int (m_sampleRate p))) = Some 0 /\
    framesToCopy p 1 0 < 1 /\
    onAudioReady p (mkStream 2 48000) 1 = None.
Proof.
  eexists. split; [vm_compute; reflexivity|].
  repeat split; vm_compute; try reflexivity; discriminate.
Qed.

(** C3, in the form that holds of the code.  Calling [play()] while the player is Playing is not a
    no-op: the shared pointer lets go of the stream it holds and a new stream
    is opened and started.  When the open and the start succeed the state
    stays Playing and the player holds exactly one stream, the new one; the
    player holds at most one stream at any time (its pointer is empty or owns
    one stream). *)
Theorem play_while_playing_reopens (w : World) (id : StreamId) :
  m_state (player w) = AUDIO_STATE_PLAYING ->
  m_audioStream (player w) = Some id ->
  let fresh := next_stream (device w) in
  play OK OK w =
  mkWorld (set_state AUDIO_STATE_PLAYING (set_audioStream (Some fresh) (player w)))
          (mkDevice (S fresh)
             (((calls (device w) ++ [CallRelease id])
               ++ [CallOpenStream fresh (m_channels (player w)) (m_sampleRate (player w))])
              ++ [CallRequestStart fresh OK]))
  /\ m_state (player (play OK OK w)) = AUDIO_STATE_PLAYING
  /\ m_audioStream (player (play OK OK w)) = Some fresh.
Proof.
  intros Hs Hid fresh.
  assert (E : play OK OK w =
    mkWorld (set_state AUDIO_STATE_PLAYING (set_audioStream (Some fresh) (player w)))
          (mkDevice (S fresh)
             (((calls (device w) ++ [CallRelease id])
               ++ [CallOpenStream fresh (m_channels (player w)) (m_sampleRate (player w))])
              ++ [CallRequestStart fresh OK]))).
  { unfold play. rewrite Hs, Hid. reflexivity. }
  rewrite E. auto.
Qed.

Lemma play_while_playing_reopens_witness :
  m_audioStream (player (play OK OK (play OK OK newWorld))) = Some 1%nat /\
  m_state (player (play OK OK (play OK OK newWorld))) = AUDIO_STATE_PLAYING.
Proof.
  destruct (play_while_playing_reopens (play OK OK newWorld) 0%nat eq_refl eq_refl)
    as (_ & Hs & Hid).
  split; [exact Hid | exact Hs].
Defined.

(** C3 as stated fails: from Idle, a second [play()] changes the world the
    first one left; two streams have been opened and [close()] was called on
    neither. *)
Lemma play_while_playing_not_noop :
  m_state (player (play OK OK newWorld)) = AUDIO_STATE_PLAYING /\
  play OK OK (play OK OK newWorld) <> play OK OK newWorld /\
  opened_streams (device (play OK OK (play OK OK newWorld))) = [0%nat; 1%nat] /\
  unclosed_streams (device (play OK OK (play OK OK newWorld))) = [0%nat; 1%nat].
Proof.
  split; [reflexivity|]. split; [discriminate|]. split; reflexivity.
Qed.

(** C4.  The scenario [playWithDelay(0.2f)], then 50 ms later
    [playWithDelay(0.5f)], evaluated on the code: the second call does not
    cancel the first timer but waits for it, so the first worker calls
    [play()] at 200 ms and the second at 700 ms. *)
Theorem playWithDelay_does_not_cancel_pending :
  option_map fired delay_scenario = Some [200; 700]
  /\ option_map (fun t => opened_streams (device (world t))) delay_scenario
     = Some [0%nat; 1%nat].
Proof. split; vm_compute; reflexivity. Qed.

(** The destructor does cancel a pending delay: no [play()] is fired. *)
Example destroy_cancels_pending_delay :
  option_map fired delay_then_destroy = Some [].
Proof. vm_compute. reflexivity. Qed.

(** C5, in the form that holds of the code.  When [play()] (called in a state other than Paused)
    fails to open the stream, the state is unchanged and the player holds no
    stream.  When it opens the stream but fails to start it, the state is
    unchanged and the player holds the stream it has just opened. *)
Theorem play_failure_keeps_state (w : World) (code : Z) (r_start : Result) :
  m_state (player w) <> AUDIO_STATE_PAUSED ->
  (m_state (player (play (Error code) r_start w)) = m_state (player w) /\
   m_audioStream (player (play (Error code) r_start w)) = None) /\
  (m_state (player (play OK (Error code) w)) = m_state (player w) /\
   m_audioStream (player (play OK (Error code) w)) = Some (next_stream (device w))).
Proof.
  intros Hs. unfold play.
  destruct (AudioState_eqb (m_state (player w)) AUDIO_STATE_PAUSED) eqn:E.
  - destruct (m_state (player w)); try discriminate. congruence.
  - unfold openStream, release.
    destruct (m_audioStream (player w)); simpl; auto.
Qed.

Lemma play_failure_keeps_state_witness :
  (m_state (player (play (Error 1) OK newWorld)) = m_state (player newWorld) /\
   m_audioStream (player (play (Error 1) OK newWorld)) = None) /\
  (m_state (player (play OK (Error 1) newWorld)) = m_state (player newWorld) /\
   m_audioStream (player (play OK (Error 1) newWorld))
   = Some (next_stream (device newWorld))).
Proof. apply (play_failure_keeps_state newWorld 1 OK). discriminate. Defined.

(** C5 as stated fails: after a start failure on a fresh player the state is
    still Idle but the player holds stream 0. *)
Lemma play_start_failure_retains_stream :
  m_state (player (play OK (Error 1) newWorld)) = AUDIO_STATE_IDLE /\
  m_audioStream (player (play OK (Error 1) newWorld)) = Some 0%nat /\
  m_audioStream (player (play OK (Error 1) newWorld)) <> None.
Proof. split; [reflexivity|]. split; [reflexivity | discriminate]. Qed.

(** C6.  A failed [setClip] evaluated on the code: with no readable source
    it returns [false] and leaves the samples, sample rate, channel count and
    frame count as they were, but the stored clip path has become the path
    of the failed request. *)
Theorem setClip_failure_overwrites_clipPath :
  setClip no_files "missing.wav" loaded_player
  = Some (set_clipPath "missing.wav" loaded_player, false)
  /\ m_clipPath loaded_player = "old.wav"%string
  /\ m_clipPath (set_clipPath "missing.wav" loaded_player) = "missing.wav"%string
  /\ m_clipPath (set_clipPath "missing.wav" loaded_player) <> m_clipPath loaded_player
  /\ m_interleavedData (set_clipPath "missing.wav" loaded_player)
     = m_interleavedData loaded_player
  /\ m_sampleRate (set_clipPath "missing.wav" loaded_player) = m_sampleRate loaded_player
  /\ m_channels (set_clipPath "missing.wav" loaded_player) = m_channels loaded_player
  /\ m_totalFrames (set_clipPath "missing.wav" loaded_player)
     = m_totalFrames loaded_player.
Proof.
  split; [reflexivity|]. split; [reflexivity|]. split; [reflexivity|].
  split; [discriminate|]. repeat split.
Qed.

(** C7, in the form that holds of the code.  For a player with a loaded
    clip whose sample rate is positive, after any non-empty sequence of
    [setCurrentTime] and [offsetTime] calls with arbitrary binary32
    arguments (or after none, if the position was in range to begin with),
    [getCurrentTime()] is in [[0, musicLength]].  The clip members are as
    [loadAudioData] leaves them, which makes the frame count non-negative;
    the sample rate is the decoder's, and is an [int]. *)
Theorem currentTime_stays_in_range (p : UnityAudioPlayer) (cs : list TimeCall) :
  clip_loaded p ->
  0 < m_sampleRate p <= INT_MAX ->
  cs <> [] \/ in_range p = true ->
  le zero (getCurrentTime (apply_calls cs p)) = true /\
  le (getCurrentTime (apply_calls cs p)) (getMusicLength p) = true.
Proof.
  intros Hld Hr H.
  pose proof (clip_loaded_frames_nonneg p Hld) as Hf.
  assert (HL : le zero (getMusicLength p) = true)
    by (apply div_of_int_nonneg; [assumption | unfold INT_MAX in Hr; lia]).
  pose proof (apply_calls_in_range cs p HL H) as Hin.
  unfold in_range in Hin. apply andb_true_iff in Hin as [H1 H2].
  split; [exact H1|].
  rewrite <- (apply_calls_length cs p). exact H2.
Qed.

Lemma currentTime_stays_in_range_witness :
  le zero (getCurrentTime
             (apply_calls [CallSetCurrentTime S754_nan;
                           CallOffsetTime (S754_infinity false);
                           CallOffsetTime (S754_finite true 8388608 (-20))]
                          loaded_player)) = true /\
  le (getCurrentTime
        (apply_calls [CallSetCurrentTime S754_nan;
                      CallOffsetTime (S754_infinity false);
                      CallOffsetTime (S754_finite true 8388608 (-20))]
                     loaded_player))
     (getMusicLength loaded_player) = true.
Proof.
  apply (currentTime_stays_in_range loaded_player).
  - split; [|split]; vm_compute; try reflexivity; split; discriminate.
  - vm_compute. split; [reflexivity | discriminate].
  - right. vm_compute. reflexivity.
Defined.

(** C7 as stated fails for a loaded clip whose sample rate is not positive:
    [loadAudioData] stores the decoder's sample rate without a check.  With
    two stereo frames at a reported rate of -44100 the load succeeds and the
    clip length is negative; [setCurrentTime(0.5f)] then stores [0.0], which
    is above the clip length. *)
Lemma currentTime_out_of_range_negative_rate :
  exists p : UnityAudioPlayer,
    setClip (decoding_env negative_rate) "clip.wav"%string newPlayer
    = Some (p, true) /\
    clip_loaded p /\
    is_empty (m_interleavedData p) = false /\
    m_totalFrames p = 2 /\
    m_sampleRate p = -44100 /\
    lt (getMusicLength p) zero = true /\
    getCurrentTime (apply_calls [CallSetCurrentTime half] p) = zero /\
    le (getCurrentTime (apply_calls [CallSetCurrentTime half] p))
       (getMusicLength p) = false.
Proof.
  eexists. split; [vm_compute; reflexivity|].
  repeat split; vm_compute; try reflexivity; discriminate.
Qed.

(** C8, in the form that holds of the code.  [setVolume(v)] then [getVolume()] returns
    [clamp(v, 0, 1)] for every [v] that is neither a NaN nor a zero, returns
    [+0.0] for both zeros and [1.0] for a NaN; [setVolume] changes no other
    member. *)
Theorem setVolume_getVolume (v : float) (p : UnityAudioPlayer) :
  getVolume (setVolume v p) =
    match v with
    | S754_nan => one
    | S754_zero _ => zero
    | _ => clamp v zero one
    end
  /\ setVolume v p = set_volume (getVolume (setVolume v p)) p.
Proof.
  split; [|reflexivity].
  unfold getVolume, setVolume. cbn [m_volume set_volume].
  unfold std_max, std_min, clamp.
  destruct v as [s|s| |s m e]; try reflexivity.
  - destruct s; reflexivity.
  - destruct (lt (S754_finite s m e) one) eqn:E1.
    + destruct s; [reflexivity|].
      rewrite (lt_antisym _ _ E1). reflexivity.
    + destruct s; [discriminate|].
      change (lt zero one) with true. cbn iota.
      change (lt (S754_finite false m e) zero) with false. cbn iota.
      destruct (lt one (S754_finite false m e)) eqn:E2; [reflexivity|].
      symmetry. apply compare_one_eq.
      unfold lt, SFltb in E1, E2.
      rewrite (SFcompare_antisym (S754_finite false m e) one) in E2.
      destruct (SFcompare (S754_finite false m e) one) as [[]|] eqn:E;
        try reflexivity; try discriminate.
Qed.

(** C8 as stated fails at a NaN: the stored volume is [1.0] while
    [clamp(NaN, 0, 1)] is the NaN. *)
Lemma setVolume_nan_not_clamp :
  getVolume (setVolume S754_nan newPlayer) = one /\
  clamp S754_nan zero one = S754_nan /\
  getVolume (setVolume S754_nan newPlayer) <> clamp S754_nan zero one.
Proof. split; [reflexivity|]. split; [reflexivity | discriminate]. Qed.

(** At [-0.0] the stored volume is [+0.0]; [clamp(-0.0, 0, 1)] is [-0.0]. *)
Example setVolume_negative_zero :
  getVolume (setVolume (S754_zero true) newPlayer) = S754_zero false /\
  clamp (S754_zero true) zero one = S754_zero true.
Proof. split; reflexivity. Qed.



(** C10.  [stop()] on a player in state Idle that holds no stream changes
    nothing: the world after the call is the world before it; in particular
    the state is still Idle and the position is not reset. *)
Theorem stop_without_stream_is_noop (w : World) :
  m_state (player w) = AUDIO_STATE_IDLE ->
  m_audioStream (player w) = None ->
  stop w = w /\
  m_state (player (stop w)) = AUDIO_STATE_IDLE /\
  m_currentTime (player (stop w)) = m_currentTime (player w).
Proof.
  intros Hs Hn. assert (E : stop w = w) by (unfold stop; rewrite Hn; reflexivity).
  rewrite E. auto.
Qed.

Lemma stop_without_stream_is_noop_witness :
  stop idle_midway = idle_midway /\
  m_state (player (stop idle_midway)) = AUDIO_STATE_IDLE /\
  m_currentTime (player (stop idle_midway)) = m_currentTime (player idle_midway).
Proof. apply (stop_without_stream_is_noop idle_midway); reflexivity. Defined.

(** * Further properties of the code *)

(** ** Stream lifecycle *)

Lemma opened_streams_record (c : StreamCall) (d : Device) :
  opened_streams (record_call c d)
  = opened_streams d ++ match c with CallOpenStream i _ _ => [i] | _ => [] end.
Proof.
  unfold opened_streams, record_call. cbn [calls].
  rewrite flat_map_app. cbn [flat_map]. rewrite app_nil_r. reflexivity.
Qed.

Lemma released_streams_record (c : StreamCall) (d : Device) :
  released_streams (record_call c d)
  = released_streams d ++ match c with CallRelease i => [i] | _ => [] end.
Proof.
  unfold released_streams, record_call. cbn [calls].
  rewrite flat_map_app. cbn [flat_map]. rewrite app_nil_r. reflexivity.
Qed.

Lemma closed_streams_record (c : StreamCall) (d : Device) :
  closed_streams (record_call c d)
  = closed_streams d ++ match c with CallClose i => [i] | _ => [] end.
Proof.
  unfold closed_streams, record_call. cbn [calls].
  rewrite flat_map_app. cbn [flat_map]. rewrite app_nil_r. reflexivity.
Qed.

Lemma next_stream_record (c : StreamCall) (d : Device) :
  next_stream (record_call c d) = next_stream d.
Proof. reflexivity. Qed.

Lemma mkDevice_open (d : Device) (id : StreamId) (ch rate : Z) :
  mkDevice (S id) (calls d ++ [CallOpenStream id ch rate])
  = mkDevice (S id) (calls (record_call (CallOpenStream id ch rate) d)).
Proof. reflexivity. Qed.

Ltac lifecycle_simpl :=
  repeat (rewrite ?opened_streams_record, ?released_streams_record,
            ?closed_streams_record, ?next_stream_record, ?app_nil_r in *;
          cbn [player device m_audioStream m_state set_state set_audioStream
               set_currentTime next_stream calls] in *).

Lemma lifecycle_inv_unpause (w : World) : lifecycle_inv w -> lifecycle_inv (unpause w).
Proof.
  unfold lifecycle_inv, unpause. intros (Ho & Hc & Hh).
  destruct (m_audioStream (player w)) as [id|] eqn:Es; [|rewrite Es; auto].
  destruct (AudioState_eqb (m_state (player w)) AUDIO_STATE_PAUSED);
    [|rewrite Es; auto].
  lifecycle_simpl. rewrite Es. auto.
Qed.

Lemma lifecycle_inv_pause (w : World) : lifecycle_inv w -> lifecycle_inv (pause w).
Proof.
  unfold lifecycle_inv, pause. intros (Ho & Hc & Hh).
  destruct (m_audioStream (player w)) as [id|] eqn:Es; [|rewrite Es; auto].
  destruct (AudioState_eqb (m_state (player w)) AUDIO_STATE_PLAYING);
    [|rewrite Es; auto].
  lifecycle_simpl. rewrite Es. auto.
Qed.

Lemma lifecycle_inv_stop (w : World) : lifecycle_inv w -> lifecycle_inv (stop w).
Proof.
  unfold lifecycle_inv, stop. intros (Ho & Hc & Hh).
  destruct (m_audioStream (player w)) as [id|] eqn:Es; [|rewrite Es; auto].
  lifecycle_simpl. rewrite Es. auto.
Qed.

Lemma lifecycle_inv_set_currentTime (t : float) (w : World) :
  lifecycle_inv w -> lifecycle_inv (mkWorld (set_currentTime t (player w)) (device w)).
Proof. unfold lifecycle_inv. cbn. auto. Qed.

Lemma lifecycle_inv_error (w : World) :
  lifecycle_inv w -> lifecycle_inv (mkWorld (onErrorAfterClose (player w)) (device w)).
Proof.
  unfold lifecycle_inv, onErrorAfterClose. cbn. intros (Ho & Hc & Hh).
  split; [exact Ho|]. split; [exact Hc|].
  destruct (m_audioStream (player w)); [exact Hh|].
  split; [apply Hh | discriminate].
Qed.

Lemma openStream_effect (r : Result) (ch rate : Z) (held : option StreamId)
  (d : Device) :
  let '(res, s, d') := openStream r ch rate held d in
  res = r /\
  s = (if Result_is_OK r then Some (next_stream d) else None) /\
  next_stream d' = (if Result_is_OK r then S (next_stream d) else next_stream d) /\
  opened_streams d'
  = opened_streams d ++ (if Result_is_OK r then [next_stream d] else []) /\
  released_streams d' = released_streams d ++ held_list held /\
  closed_streams d' = closed_streams d.
Proof.
  unfold openStream.
  assert (Hrel : next_stream (release held d) = next_stream d
                 /\ opened_streams (release held d) = opened_streams d
                 /\ released_streams (release held d)
                    = released_streams d ++ held_list held
                 /\ closed_streams (release held d) = closed_streams d).
  { destruct held; cbn [release held_list]; lifecycle_simpl; auto. }
  destruct Hrel as (Hn & Ho & Hr & Hc).
  destruct r as [|code]; cbn [Result_is_OK].
  - rewrite Hn.
    change (mkDevice (S (next_stream d))
              (calls (release held d) ++ [CallOpenStream (next_stream d) ch rate]))
      with (mkDevice (S (next_stream d))
              (calls (record_call (CallOpenStream (next_stream d) ch rate)
                        (release held d)))).
    set (d2 := record_call (CallOpenStream (next_stream d) ch rate) (release held d)).
    change (opened_streams (mkDevice (S (next_stream d)) (calls d2)))
      with (opened_streams d2).
    change (released_streams (mkDevice (S (next_stream d)) (calls d2)))
      with (released_streams d2).
    change (closed_streams (mkDevice (S (next_stream d)) (calls d2)))
      with (closed_streams d2).
    unfold d2. lifecycle_simpl. rewrite Ho, Hr, Hc. repeat split.
  - lifecycle_simpl. rewrite ?Hn, ?Ho, ?Hr, ?Hc, ?app_nil_r. repeat split.
Qed.

Lemma lifecycle_inv_play (r_open r_start : Result) (w : World) :
  lifecycle_inv w -> lifecycle_inv (play r_open r_start w).
Proof.
  intros H. unfold play. cbv zeta.
  destruct (AudioState_eqb (m_state (player w)) AUDIO_STATE_PAUSED) eqn:Ep;
    [apply lifecycle_inv_unpause; exact H|].
  assert (Hnp : m_state (player w) <> AUDIO_STATE_PAUSED).
  { intros Heq. rewrite Heq in Ep. discriminate. }
  destruct H as (Ho & Hc & Hh).
  pose proof (openStream_effect r_open (m_channels (player w))
                (m_sampleRate (player w)) (m_audioStream (player w)) (device w)) as He.
  destruct (openStream r_open _ _ _ _) as [[res s] d1].
  destruct He as (Eres & Es & En & Eo & Er & Ec). subst res s.
  assert (Hrel : released_streams d1 = seq 0 (next_stream (device w))).
  { rewrite Er. destruct (m_audioStream (player w)) as [id|];
      cbn [held_list]; destruct Hh as [Hn Hr].
    - rewrite Hr, Hn. symmetry. apply seq_S.
    - rewrite Hn. apply app_nil_r. }
  unfold lifecycle_inv.
  destruct r_open as [|code]; cbn [Result_is_OK negb] in *.
  - assert (Hop : opened_streams d1 = seq 0 (S (next_stream (device w))))
      by (rewrite Eo, Ho; symmetry; apply seq_S).
    destruct (Result_is_OK r_start); lifecycle_simpl;
      rewrite En, Hop, Ec, Hc, Hrel; auto.
  - lifecycle_simpl. rewrite ?En, ?Eo, ?Ho, ?Ec, ?Hc, ?Hrel, ?app_nil_r. auto.
Qed.

Lemma lifecycle_inv_transport (c : TransportCall) (w : World) :
  lifecycle_inv w -> lifecycle_inv (transport w c).
Proof.
  intros H. destruct c; cbn [transport].
  - apply lifecycle_inv_play; exact H.
  - apply lifecycle_inv_pause; exact H.
  - apply lifecycle_inv_stop; exact H.
  - apply lifecycle_inv_unpause; exact H.
  - unfold restartTime.
    pose proof (lifecycle_inv_set_currentTime zero w H) as H1.
    destruct (AudioState_eqb _ _); [|exact H1].
    apply lifecycle_inv_play, lifecycle_inv_stop. exact H1.
  - apply lifecycle_inv_error; exact H.
Qed.

Lemma lifecycle_inv_new : lifecycle_inv newWorld.
Proof. unfold lifecycle_inv. cbn. repeat split. discriminate. Qed.

Lemma no_close_existsb (l : list StreamCall) (id : StreamId) :
  flat_map (fun c => match c with CallClose i => [i] | _ => [] end) l = [] ->
  existsb (is_close_of id) l = false.
Proof.
  induction l as [|c l IH]; intros H; [reflexivity|].
  cbn [flat_map existsb] in *.
  destruct c; cbn [is_close_of orb] in *; try (apply IH; exact H).
  discriminate.
Qed.

Lemma filter_all {A : Type} (f : A -> bool) (l : list A) :
  (forall x, f x = true) -> filter f l = l.
Proof.
  intros H. induction l as [|a l IH]; [reflexivity|].
  cbn [filter]. rewrite H, IH. reflexivity.
Qed.

Lemma unclosed_when_none_closed (d : Device) :
  closed_streams d = [] -> unclosed_streams d = opened_streams d.
Proof.
  intros H. unfold unclosed_streams. apply filter_all.
  intros id. rewrite (no_close_existsb (calls d) id H). reflexivity.
Qed.

Lemma transports_inv (cs : list TransportCall) :
  forall w, lifecycle_inv w -> lifecycle_inv (transports cs w).
Proof.
  unfold transports. induction cs as [|c cs IH]; intros w Hw; [exact Hw|].
  cbn [fold_left]. apply IH. apply lifecycle_inv_transport. exact Hw.
Qed.

(** X1.  Whatever transport calls are made on a new player and whatever the
    device answers, the streams are numbered in the order of opening, the
    player holds the most recently opened stream or none, every earlier
    stream was dropped by the shared pointer, and [close()] was called on no
    stream; a Paused player always holds a stream. *)
Theorem transport_never_closes (cs : list TransportCall) :
  lifecycle_inv (transports cs newWorld)
  /\ unclosed_streams (device (transports cs newWorld))
     = seq 0 (next_stream (device (transports cs newWorld))).
Proof.
  pose proof (transports_inv cs newWorld lifecycle_inv_new) as H.
  split; [exact H|].
  destruct H as (Ho & Hc & _).
  rewrite (unclosed_when_none_closed _ Hc). exact Ho.
Qed.

Lemma set_state_restore (p : UnityAudioPlayer) (s : AudioState) :
  set_state (m_state p) (set_state s p) = p.
Proof. destruct p; reflexivity. Qed.

(** X2.  From Playing with a stream held, [pause()] followed by [unpause()]
    gives back exactly the player there was (position, volume, clip and
    stream included); [play()] after the pause does the same as [unpause()]
    whatever the device would answer to an open or a start, and the only
    calls made on the device are one pause and one start of the held stream:
    no stream is opened. *)
Theorem pause_then_resume_restores (w : World) (id : StreamId)
  (r_open r_start : Result) :
  m_state (player w) = AUDIO_STATE_PLAYING ->
  m_audioStream (player w) = Some id ->
  m_state (player (pause w)) = AUDIO_STATE_PAUSED /\
  player (unpause (pause w)) = player w /\
  play r_open r_start (pause w) = unpause (pause w) /\
  device (unpause (pause w))
  = mkDevice (next_stream (device w))
             ((calls (device w) ++ [CallPause id]) ++ [CallStart id]).
Proof.
  intros Hs Hid. destruct w as [p d]. destruct p.
  cbn [player m_state m_audioStream] in Hs, Hid. subst.
  repeat split.
Qed.

Lemma pause_then_resume_restores_witness :
  m_state (player (pause (play OK OK newWorld))) = AUDIO_STATE_PAUSED /\
  player (unpause (pause (play OK OK newWorld))) = player (play OK OK newWorld) /\
  play (Error 7) (Error 7) (pause (play OK OK newWorld))
  = unpause (pause (play OK OK newWorld)) /\
  device (unpause (pause (play OK OK newWorld)))
  = mkDevice (next_stream (device (play OK OK newWorld)))
             ((calls (device (play OK OK newWorld)) ++ [CallPause 0%nat])
              ++ [CallStart 0%nat]).
Proof.
  apply (pause_then_resume_restores (play OK OK newWorld) 0%nat (Error 7) (Error 7));
    reflexivity.
Defined.

(** X3.  [restartTime()] on a player that is Playing with a stream held
    stops that stream, drops it and opens a new one: when the device accepts,
    the player is Playing again at position 0 on the new stream and nothing
    else has changed; when the open fails the player is left Stopped at
    position 0 holding no stream.  In any other state [restartTime()] only
    sets the position to 0 and makes no call on the device. *)
Theorem restartTime_rebuilds_stream (w : World) :
  (forall id, m_state (player w) = AUDIO_STATE_PLAYING ->
              m_audioStream (player w) = Some id ->
     restartTime OK OK w
     = mkWorld (set_audioStream (Some (next_stream (device w)))
                  (set_currentTime zero (player w)))
               (mkDevice (S (next_stream (device w)))
                  ((((calls (device w) ++ [CallStop id]) ++ [CallRelease id])
                    ++ [CallOpenStream (next_stream (device w))
                          (m_channels (player w)) (m_sampleRate (player w))])
                   ++ [CallRequestStart (next_stream (device w)) OK]))
     /\ forall code r_start,
         player (restartTime (Error code) r_start w)
         = set_audioStream None
             (set_currentTime zero (set_state AUDIO_STATE_STOPPED (player w))))
  /\ (m_state (player w) <> AUDIO_STATE_PLAYING ->
      forall r_open r_start,
        restartTime r_open r_start w = mkWorld (resetTime (player w)) (device w)).
Proof.
  split.
  - intros id Hs Hid. destruct w as [p d]. destruct p.
    cbn [player m_state m_audioStream] in Hs, Hid. subst.
    split; [reflexivity|]. intros code r_start. reflexivity.
  - intros Hs r_open r_start. unfold restartTime.
    cbn [player device m_state set_currentTime].
    destruct (m_state (player w)); try reflexivity. congruence.
Qed.

Lemma restartTime_rebuilds_stream_witness :
  m_state (player (restartTime OK OK (play OK OK newWorld))) = AUDIO_STATE_PLAYING /\
  m_audioStream (player (restartTime OK OK (play OK OK newWorld))) = Some 1%nat /\
  m_state (player (restartTime (Error 1) OK (play OK OK newWorld)))
  = AUDIO_STATE_STOPPED /\
  restartTime OK OK newWorld = mkWorld (resetTime (player newWorld)) (device newWorld).
Proof.
  destruct (restartTime_rebuilds_stream (play OK OK newWorld)) as [H1 _].
  destruct (H1 0%nat eq_refl eq_refl) as [E1 E2].
  destruct (restartTime_rebuilds_stream newWorld) as [_ H2].
  rewrite E1, (E2 1 OK).
  split; [reflexivity|]. split; [reflexivity|]. split; [reflexivity|].
  apply H2. discriminate.
Defined.

(** ** The callback *)

Lemma set_fields_same (p : UnityAudioPlayer) :
  set_state (m_state p) (set_currentTime (m_currentTime p) p) = p.
Proof. destruct p; reflexivity. Qed.

(** X4.  Whatever a callback returns, it has changed nothing of the player
    but the position and the state (volume, loop flag, clip, path and stream
    are the same); it returns [Stop] only when the player was Playing with
    the loop flag off and is now Stopped, and when it returns [Continue] the
    state is unchanged.  In particular a callback on a looping player never
    returns [Stop]. *)
Theorem onAudioReady_frame (p p' : UnityAudioPlayer) (audioStream : AudioStream)
  (numFrames : Z) (out : list float) (r : DataCallbackResult) :
  onAudioReady p audioStream numFrames = Some (p', out, r) ->
  p' = set_state (m_state p') (set_currentTime (m_currentTime p') p) /\
  (r = Stop -> m_state p = AUDIO_STATE_PLAYING /\ m_loop p = false
               /\ m_state p' = AUDIO_STATE_STOPPED) /\
  (r = Continue -> m_state p' = m_state p) /\
  (m_loop p = true -> r = Continue).
Proof.
  unfold onAudioReady.
  destruct (negb (AudioState_eqb (m_state p) AUDIO_STATE_PLAYING)
            || is_empty (m_interleavedData p)) eqn:E.
  - intros H. inversion H; subst.
    rewrite set_fields_same. repeat split; try discriminate; reflexivity.
  - apply orb_false_iff in E as [Es _]. apply negb_false_iff in Es.
    assert (Hs : m_state p = AUDIO_STATE_PLAYING)
      by (destruct (m_state p); try discriminate; reflexivity).
    destruct (to_int _) as [cur|]; cbn [bind]; [|discriminate].
    destruct (copyFrames _ _ _ _) as [copied|]; cbn [bind]; [|discriminate].
    destruct (_ <? numFrames).
    + destruct (m_loop p) eqn:El.
      * destruct (wrapFrames _ _ _) as [wrapped|]; cbn [bind]; [|discriminate].
        intros H. inversion H; subst.
        repeat split; try discriminate; reflexivity.
      * cbv zeta. destruct (ge _ _); intros H; inversion H; subst;
          repeat split; try discriminate; try reflexivity; exact Hs.
    + intros H. inversion H; subst.
      repeat split; try discriminate; reflexivity.
Qed.

Lemma onAudioReady_frame_witness :
  set_state AUDIO_STATE_STOPPED
    (set_currentTime (div (of_int 5) (of_int 3)) (three_frame_clip false))
  = set_state
      (m_state (set_state AUDIO_STATE_STOPPED
                  (set_currentTime (div (of_int 5) (of_int 3)) (three_frame_clip false))))
      (set_currentTime
         (m_currentTime
            (set_state AUDIO_STATE_STOPPED
               (set_currentTime (div (of_int 5) (of_int 3)) (three_frame_clip false))))
         (three_frame_clip false)) /\
  (Stop = Stop ->
   m_state (three_frame_clip false) = AUDIO_STATE_PLAYING /\
   m_loop (three_frame_clip false) = false /\
   m_state (set_state AUDIO_STATE_STOPPED
              (set_currentTime (div (of_int 5) (of_int 3)) (three_frame_clip false)))
   = AUDIO_STATE_STOPPED) /\
  (Stop = Continue ->
   m_state (set_state AUDIO_STATE_STOPPED
              (set_currentTime (div (of_int 5) (of_int 3)) (three_frame_clip false)))
   = m_state (three_frame_clip false)) /\
  (m_loop (three_frame_clip false) = true -> Stop = Continue).
Proof.
  apply (onAudioReady_frame (three_frame_clip false) _ stereo_stream 5
           ([half; half; zero; zero; half; half] ++ generateSilence 2 2)).
  vm_compute. reflexivity.
Defined.

Lemma to_nat_mul_nonneg (a b : Z) :
  0 <= a -> Z.to_nat (a * b) = (Z.to_nat a * Z.to_nat b)%nat.
Proof.
  intros Ha. destruct (Z_le_gt_dec 0 b) as [Hb|Hb].
  - apply Z2Nat.inj_mul; assumption.
  - replace (Z.to_nat b) with 0%nat by lia.
    replace (Z.to_nat (a * b)) with 0%nat by nia. lia.
Qed.

Lemma onAudioReady_frames_written (p : UnityAudioPlayer) (audioStream : AudioStream)
  (numFrames cur : Z) :
  m_state p = AUDIO_STATE_PLAYING ->
  is_empty (m_interleavedData p) = false ->
  clip_ok p ->
  to_int (mul (m_currentTime p) (of_int (m_sampleRate p))) = Some cur ->
  0 <= cur -> 0 <= numFrames ->
  exists p' out r,
    onAudioReady p audioStream numFrames = Some (p', out, r) /\
    List.length out
    = (Z.to_nat (frames_written (m_totalFrames p) numFrames cur)
       * Z.to_nat (getChannelCount audioStream))%nat.
Proof.
  intros Hs Hne Hok Hcur H0 Hn.
  pose proof (nonempty_clip_has_frames p Hok Hne) as Ht.
  rewrite (onAudioReady_playing p audioStream numFrames cur Hs Hne Hcur).
  rewrite copyFrames_spec by (auto; unfold framesToCopy; lia).
  cbn [bind]. unfold frames_written, framesToCopy.
  destruct (Z.min numFrames (m_totalFrames p - cur) <? numFrames) eqn:E.
  - apply Z.ltb_lt in E.
    assert (Hm : Z.min numFrames (m_totalFrames p - cur) = m_totalFrames p - cur) by lia.
    rewrite Hm.
    assert (Hsum : (Z.to_nat (m_totalFrames p - cur)
                    + Z.to_nat (numFrames - (m_totalFrames p - cur)))%nat
                   = Z.to_nat (numFrames + Z.max 0 (cur - m_totalFrames p))) by lia.
    destruct (m_loop p).
    + rewrite wrapFrames_spec by assumption. cbn [bind].
      eexists _, _, _. split; [reflexivity|].
      rewrite length_app, spec_copy_length, spec_wrap_length.
      rewrite <- Hsum. lia.
    + cbv zeta.
      assert (Hlen : List.length
                (spec_copy p (getChannelCount audioStream) cur (m_totalFrames p - cur)
                 ++ generateSilence (numFrames - (m_totalFrames p - cur))
                      (getChannelCount audioStream))
              = (Z.to_nat (numFrames + Z.max 0 (cur - m_totalFrames p))
                 * Z.to_nat (getChannelCount audioStream))%nat).
      { rewrite length_app, spec_copy_length, generateSilence_length.
        rewrite to_nat_mul_nonneg by lia. rewrite <- Hsum. lia. }
      destruct (ge _ _); eexists _, _, _; (split; [reflexivity | exact Hlen]).
  - apply Z.ltb_ge in E.
    assert (Hm : Z.min numFrames (m_totalFrames p - cur) = numFrames) by lia.
    rewrite Hm. eexists _, _, _. split; [reflexivity|].
    rewrite spec_copy_length. f_equal. lia.
Qed.

(** X5.  A callback on a well-formed clip whose position lies within the
    clip ([0 <= cur <= totalFrames]) returns a result and writes exactly
    [numFrames * outputChannels] samples, in every branch (plain copy, end
    of clip with silence, wrap). *)
Theorem onAudioReady_fills_buffer_exactly (p : UnityAudioPlayer)
  (audioStream : AudioStream) (numFrames cur : Z) :
  m_state p = AUDIO_STATE_PLAYING ->
  is_empty (m_interleavedData p) = false ->
  clip_ok p ->
  to_int (mul (m_currentTime p) (of_int (m_sampleRate p))) = Some cur ->
  0 <= cur <= m_totalFrames p -> 0 <= numFrames ->
  exists p' out r,
    onAudioReady p audioStream numFrames = Some (p', out, r) /\
    List.length out
    = (Z.to_nat numFrames * Z.to_nat (getChannelCount audioStream))%nat.
Proof.
  intros Hs Hne Hok Hcur Hc Hn.
  destruct (onAudioReady_frames_written p audioStream numFrames cur)
    as (p' & out & r & E & L); auto; try lia.
  exists p', out, r. split; [exact E|]. rewrite L.
  unfold frames_written. f_equal. lia.
Qed.

Lemma onAudioReady_fills_buffer_exactly_witness :
  exists p' out r,
    onAudioReady (three_frame_clip true) stereo_stream 5 = Some (p', out, r) /\
    List.length out = (Z.to_nat 5 * Z.to_nat (getChannelCount stereo_stream))%nat.
Proof.
  apply (onAudioReady_fills_buffer_exactly (three_frame_clip true) stereo_stream 5 0);
    try (vm_compute; reflexivity).
  - split; vm_compute; [discriminate | reflexivity].
  - split; vm_compute; discriminate.
  - vm_compute; discriminate.
Defined.

(** X6.  A callback on a well-formed clip whose position lies beyond the end
    of the clip ([cur > totalFrames], which is where a clip that ended by
    itself leaves the position, and where [play()] resumes) writes
    [numFrames + (cur - totalFrames)] frames: more than the [numFrames] the
    device asked for. *)
Theorem onAudioReady_overruns_past_end (p : UnityAudioPlayer)
  (audioStream : AudioStream) (numFrames cur : Z) :
  m_state p = AUDIO_STATE_PLAYING ->
  is_empty (m_interleavedData p) = false ->
  clip_ok p ->
  to_int (mul (m_currentTime p) (of_int (m_sampleRate p))) = Some cur ->
  m_totalFrames p < cur -> 0 <= numFrames ->
  1 <= getChannelCount audioStream ->
  exists p' out r,
    onAudioReady p audioStream numFrames = Some (p', out, r) /\
    Z.of_nat (List.length out)
    = (numFrames + (cur - m_totalFrames p)) * getChannelCount audioStream /\
    numFrames * getChannelCount audioStream < Z.of_nat (List.length out).
Proof.
  intros Hs Hne Hok Hcur Hc Hn Hch.
  pose proof (nonempty_clip_has_frames p Hok Hne) as Ht.
  destruct (onAudioReady_frames_written p audioStream numFrames cur)
    as (p' & out & r & E & L); auto; try lia.
  exists p', out, r. split; [exact E|].
  assert (HL : Z.of_nat (List.length out)
               = (numFrames + (cur - m_totalFrames p)) * getChannelCount audioStream).
  { rewrite L. unfold frames_written. rewrite Nat2Z.inj_mul, !Z2Nat.id by lia.
    f_equal. lia. }
  split; [exact HL|]. rewrite HL. nia.
Qed.

Lemma onAudioReady_overruns_past_end_witness :
  exists p' out r,
    onAudioReady (scenario_replayed (repeat one (Z.to_nat 48000))) scenario_stream 512
    = Some (p', out, r) /\
    Z.of_nat (List.length out)
    = (512 + (48128 - m_totalFrames (scenario_replayed (repeat one (Z.to_nat 48000)))))
      * getChannelCount scenario_stream /\
    512 * getChannelCount scenario_stream < Z.of_nat (List.length out).
Proof.
  apply (onAudioReady_overruns_past_end
           (scenario_replayed (repeat one (Z.to_nat 48000))) scenario_stream 512 48128);
    try (vm_compute; reflexivity).
  - split; vm_compute; [discriminate | reflexivity].
  - vm_compute; discriminate.
  - vm_compute; discriminate.
Defined.

(** X7.  No transport call touches the clip (samples, sample rate, channel
    count, frame count), the volume, the loop flag or the clip path; the
    position is changed by [stop()] and [restartTime()] only, and then to
    [0.0].  In particular [play()] opens its stream without resetting the
    position. *)
Theorem transport_frame (c : TransportCall) (w : World) :
  m_interleavedData (player (transport w c)) = m_interleavedData (player w) /\
  m_sampleRate (player (transport w c)) = m_sampleRate (player w) /\
  m_channels (player (transport w c)) = m_channels (player w) /\
  m_totalFrames (player (transport w c)) = m_totalFrames (player w) /\
  m_volume (player (transport w c)) = m_volume (player w) /\
  m_loop (player (transport w c)) = m_loop (player w) /\
  m_clipPath (player (transport w c)) = m_clipPath (player w) /\
  (m_currentTime (player (transport w c)) = m_currentTime (player w)
   \/ m_currentTime (player (transport w c)) = zero) /\
  match c with
  | DoStop | DoRestartTime _ _ => True
  | _ => m_currentTime (player (transport w c)) = m_currentTime (player w)
  end.
Proof.
  destruct w as [p d]. destruct p.
  destruct c as [r_open r_start| | | |r_open r_start|];
    cbn [transport]; unfold restartTime;
    unfold play, pause, stop, unpause, onErrorAfterClose, openStream, release;
    cbn [player device m_state m_audioStream set_currentTime set_state];
    repeat match goal with
           | |- context [match ?x with _ => _ end] => destruct x; cbn
           end;
    cbn; repeat split; try reflexivity;
    try (left; reflexivity); try (right; reflexivity).
Qed.

(** ** Layout of the output *)

Lemma nth_error_flat_map_const {A B : Type} (f : A -> list B) (m : nat) :
  (forall x, List.length (f x) = m) ->
  forall (l : list A) (i c : nat) (a : A),
    nth_error l i = Some a -> (c < m)%nat ->
    nth_error (flat_map f l) (i * m + c) = nth_error (f a) c.
Proof.
  intros Hm. induction l as [|x l IH]; intros i c a Hi Hc.
  - destruct i; discriminate.
  - destruct i as [|i]; cbn [flat_map].
    + inversion Hi; subst. cbn [Nat.mul Nat.add].
      apply nth_error_app1. rewrite Hm. exact Hc.
    + cbn [nth_error] in Hi.
      rewrite nth_error_app2 by (rewrite Hm; cbn; lia).
      rewrite Hm. replace (S i * m + c - m)%nat with (i * m + c)%nat by (cbn; lia).
      apply IH; assumption.
Qed.

Lemma nth_error_seqZ (n : Z) (i : nat) :
  (i < Z.to_nat n)%nat -> nth_error (seqZ n) i = Some (Z.of_nat i).
Proof.
  intros H. unfold seqZ. rewrite nth_error_map.
  rewrite (nth_error_nth' _ 0%nat) by (rewrite length_seq; exact H).
  rewrite seq_nth by exact H. reflexivity.
Qed.

Lemma spec_frame_nth (p : UnityAudioPlayer) (outputChannels srcFrame c : Z) :
  0 <= c < outputChannels ->
  nth_error (spec_frame p outputChannels srcFrame) (Z.to_nat c)
  = Some (mul (nth (Z.to_nat (srcFrame * m_channels p + c mod m_channels p))
                   (m_interleavedData p) zero)
              (m_volume p)).
Proof.
  intros Hc. unfold spec_frame.
  rewrite nth_error_map, nth_error_seqZ by lia.
  cbn [option_map]. rewrite Z2Nat.id by lia. reflexivity.
Qed.

Lemma spec_copy_nth (p : UnityAudioPlayer) (outputChannels first count i c : Z) :
  0 <= i < count -> 0 <= c < outputChannels ->
  nth_error (spec_copy p outputChannels first count)
            (Z.to_nat (i * outputChannels + c))
  = Some (mul (nth (Z.to_nat ((first + i) * m_channels p + c mod m_channels p))
                   (m_interleavedData p) zero)
              (m_volume p)).
Proof.
  intros Hi Hc. unfold spec_copy.
  replace (Z.to_nat (i * outputChannels + c))
    with (Z.to_nat i * Z.to_nat outputChannels + Z.to_nat c)%nat by nia.
  rewrite (nth_error_flat_map_const
             (fun i0 => spec_frame p outputChannels (first + i0))
             (Z.to_nat outputChannels)
             (fun x => spec_frame_length p outputChannels (first + x))
             (seqZ count) (Z.to_nat i) (Z.to_nat c) (Z.of_nat (Z.to_nat i)))
    by (try apply nth_error_seqZ; lia).
  rewrite Z2Nat.id by lia. apply spec_frame_nth. exact Hc.
Qed.

(** X8.  In a callback that does not reach the end of a well-formed clip,
    the sample written for output frame [i] and output channel [c] (at
    offset [i * outputChannels + c] of the buffer) is the source sample of
    frame [cur + i] and channel [c mod channels] multiplied by the volume,
    and that source index lies inside the sample buffer; the callback
    returns [Continue] and advances the position by [numFrames /
    sampleRate] of the stream. *)
Theorem onAudioReady_sample_layout (p : UnityAudioPlayer)
  (audioStream : AudioStream) (numFrames cur : Z) :
  m_state p = AUDIO_STATE_PLAYING ->
  is_empty (m_interleavedData p) = false ->
  clip_ok p ->
  to_int (mul (m_currentTime p) (of_int (m_sampleRate p))) = Some cur ->
  0 <= cur -> numFrames <= m_totalFrames p - cur ->
  exists out,
    onAudioReady p audioStream numFrames
    = Some (set_currentTime (add (m_currentTime p) (frameTime audioStream numFrames)) p,
            out, Continue) /\
    forall i c,
      0 <= i < numFrames -> 0 <= c < getChannelCount audioStream ->
      nth_error out (Z.to_nat (i * getChannelCount audioStream + c))
      = Some (mul (nth (Z.to_nat ((cur + i) * m_channels p + c mod m_channels p))
                       (m_interleavedData p) zero)
                  (m_volume p))
      /\ 0 <= (cur + i) * m_channels p + c mod m_channels p
         < Z.of_nat (List.length (m_interleavedData p)).
Proof.
  intros Hs Hne Hok Hcur H0 Hn.
  exists (spec_copy p (getChannelCount audioStream) cur numFrames).
  split; [apply onAudioReady_full; assumption|].
  intros i c Hi Hc. split; [apply spec_copy_nth; assumption|].
  destruct Hok as [Hch Hlen]. rewrite Hlen.
  pose proof (Z.mod_pos_bound c (m_channels p)). nia.
Qed.

Lemma onAudioReady_sample_layout_witness :
  exists out,
    onAudioReady (three_frame_clip true) stereo_stream 2
    = Some (set_currentTime
              (add (m_currentTime (three_frame_clip true)) (frameTime stereo_stream 2))
              (three_frame_clip true),
            out, Continue) /\
    forall i c,
      0 <= i < 2 -> 0 <= c < getChannelCount stereo_stream ->
      nth_error out (Z.to_nat (i * getChannelCount stereo_stream + c))
      = Some (mul (nth (Z.to_nat ((0 + i) * m_channels (three_frame_clip true)
                                  + c mod m_channels (three_frame_clip true)))
                       (m_interleavedData (three_frame_clip true)) zero)
                  (m_volume (three_frame_clip true)))
      /\ 0 <= (0 + i) * m_channels (three_frame_clip true)
              + c mod m_channels (three_frame_clip true)
         < Z.of_nat (List.length (m_interleavedData (three_frame_clip true))).
Proof.
  apply (onAudioReady_sample_layout (three_frame_clip true) stereo_stream 2 0);
    try (vm_compute; reflexivity).
  - split; vm_compute; [discriminate | reflexivity].
  - vm_compute; discriminate.
  - vm_compute; discriminate.
Defined.

(** X9.  In such a callback on a mono clip, every output channel of output
    frame [i] carries the same value, source sample [cur + i] multiplied by
    the volume, whatever the number of output channels. *)
Theorem onAudioReady_mono_duplicates (p : UnityAudioPlayer)
  (audioStream : AudioStream) (numFrames cur : Z) :
  m_state p = AUDIO_STATE_PLAYING ->
  is_empty (m_interleavedData p) = false ->
  clip_ok p ->
  m_channels p = 1 ->
  to_int (mul (m_currentTime p) (of_int (m_sampleRate p))) = Some cur ->
  0 <= cur -> numFrames <= m_totalFrames p - cur ->
  exists p' out,
    onAudioReady p audioStream numFrames = Some (p', out, Continue) /\
    forall i c,
      0 <= i < numFrames -> 0 <= c < getChannelCount audioStream ->
      nth_error out (Z.to_nat (i * getChannelCount audioStream + c))
      = Some (mul (nth (Z.to_nat (cur + i)) (m_interleavedData p) zero) (m_volume p)).
Proof.
  intros Hs Hne Hok Hmono Hcur H0 Hn.
  destruct (onAudioReady_sample_layout p audioStream numFrames cur)
    as (out & E & L); auto.
  eexists _, out. split; [exact E|].
  intros i c Hi Hc. destruct (L i c Hi Hc) as [Hnth _]. rewrite Hnth.
  rewrite Hmono, Z.mod_1_r. do 3 f_equal. lia.
Qed.

Lemma onAudioReady_mono_duplicates_witness :
  exists p' out,
    onAudioReady (three_frame_clip true) stereo_stream 2 = Some (p', out, Continue) /\
    forall i c,
      0 <= i < 2 -> 0 <= c < getChannelCount stereo_stream ->
      nth_error out (Z.to_nat (i * getChannelCount stereo_stream + c))
      = Some (mul (nth (Z.to_nat (0 + i)) (m_interleavedData (three_frame_clip true)) zero)
                  (m_volume (three_frame_clip true))).
Proof.
  apply (onAudioReady_mono_duplicates (three_frame_clip true) stereo_stream 2 0);
    try (vm_compute; reflexivity).
  - split; vm_compute; [discriminate | reflexivity].
  - vm_compute; discriminate.
  - vm_compute; discriminate.
Defined.

(** ** Clamping of position and volume *)

Lemma lt_irrefl (a : float) : lt a a = false.
Proof.
  unfold lt, SFltb. destruct (is_nan a) eqn:E.
  - destruct a; try discriminate. reflexivity.
  - rewrite (SFcompare_refl a E). reflexivity.
Qed.

Lemma le_not_lt (a b : float) : le a b = true -> lt b a = false.
Proof.
  unfold le, lt, SFleb, SFltb. rewrite (SFcompare_antisym a b).
  destruct (SFcompare a b) as [[]|]; cbn; auto; discriminate.
Qed.

Lemma lt_zero_trans (l t : float) :
  lt zero l = true -> lt l t = true -> lt zero t = true.
Proof.
  destruct l as [sl|sl| |sl ml el], t as [st|st| |st mt et];
    try discriminate; try (destruct sl; discriminate);
    try (destruct st; discriminate);
    destruct sl, st; try discriminate; reflexivity.
Qed.

Lemma le_zero_not_lt_eqb (l : float) :
  le zero l = true -> lt zero l = false -> eqb zero l = true.
Proof.
  unfold le, lt, eqb, SFleb, SFltb, SFeqb.
  destruct (SFcompare zero l) as [[]|]; auto; discriminate.
Qed.

(** X10.  After [setVolume(v)] the volume lies in [[0, 1]] for every binary32
    argument [v], NaN, infinities and negative zero included. *)
Theorem setVolume_in_unit_interval (v : float) (p : UnityAudioPlayer) :
  le zero (getVolume (setVolume v p)) = true /\
  le (getVolume (setVolume v p)) one = true.
Proof.
  unfold getVolume, setVolume. cbn [m_volume set_volume].
  unfold std_max, std_min.
  assert (H01 : le zero one = true) by (vm_compute; reflexivity).
  assert (H11 : le one one = true) by (vm_compute; reflexivity).
  assert (H00 : le zero zero = true) by reflexivity.
  assert (L01 : lt zero one = true) by (vm_compute; reflexivity).
  destruct (lt v one) eqn:E1.
  - destruct (lt zero v) eqn:E2.
    + split; apply lt_le; assumption.
    + split; assumption.
  - rewrite L01. split; assumption.
Qed.

(** X11.  Clamping is idempotent: setting the volume to the volume just
    stored, or seeking to the position just stored, leaves the player as it
    is, for every argument of the first call and every clip. *)
Theorem clamp_setters_idempotent (x : float) (p : UnityAudioPlayer) :
  setVolume (getVolume (setVolume x p)) (setVolume x p) = setVolume x p /\
  setCurrentTime (getCurrentTime (setCurrentTime x p)) (setCurrentTime x p)
  = setCurrentTime x p.
Proof.
  assert (L01 : lt zero one = true) by (vm_compute; reflexivity).
  split.
  - unfold getVolume, setVolume. cbn [m_volume set_volume].
    change (set_volume ?a (set_volume ?b p)) with (set_volume a p).
    f_equal. unfold std_max, std_min.
    destruct (lt x one) eqn:E1.
    + destruct (lt zero x) eqn:E2.
      * rewrite E1, E2. reflexivity.
      * rewrite L01. reflexivity.
    + rewrite L01, lt_irrefl, L01. reflexivity.
  - unfold getCurrentTime, setCurrentTime.
    change (getMusicLength (set_currentTime ?t p)) with (getMusicLength p).
    cbn [m_currentTime set_currentTime].
    change (set_currentTime ?a (set_currentTime ?b p)) with (set_currentTime a p).
    f_equal. set (L := getMusicLength p). unfold std_max, std_min.
    destruct (lt L x) eqn:E1.
    + destruct (lt zero L) eqn:E2.
      * rewrite lt_irrefl, E2. reflexivity.
      * destruct (lt L zero) eqn:E3; [rewrite E2|]; reflexivity.
    + destruct (lt zero x) eqn:E2.
      * rewrite E1, E2. reflexivity.
      * destruct (lt L zero) eqn:E3; [|reflexivity].
        rewrite (lt_antisym _ _ E3). reflexivity.
Qed.

(** X12.  For a clip whose length is a non-negative number,
    [setCurrentTime(t)] stores [t] itself when [0 < t <= musicLength],
    stores a value equal to [musicLength] when [t > musicLength], and stores
    [+0.0] when [t] is not greater than 0 (negative, a zero of either sign,
    or a NaN). *)
Theorem setCurrentTime_cases (t : float) (p : UnityAudioPlayer) :
  le zero (getMusicLength p) = true ->
  (lt zero t = true -> le t (getMusicLength p) = true ->
   getCurrentTime (setCurrentTime t p) = t) /\
  (lt (getMusicLength p) t = true ->
   eqb (getCurrentTime (setCurrentTime t p)) (getMusicLength p) = true) /\
  (lt zero t = false -> getCurrentTime (setCurrentTime t p) = zero).
Proof.
  intros HL. unfold getCurrentTime, setCurrentTime.
  cbn [m_currentTime set_currentTime].
  set (L := getMusicLength p) in *. unfold std_max, std_min.
  pose proof (le_not_nan_r _ _ HL) as HLn.
  split; [|split].
  - intros H0 Hle. rewrite (le_not_lt _ _ Hle), H0. reflexivity.
  - intros Hlt. rewrite Hlt. destruct (lt zero L) eqn:E.
    + unfold eqb, SFeqb. rewrite (SFcompare_refl L HLn). reflexivity.
    + apply le_zero_not_lt_eqb; assumption.
  - intros H0. destruct (lt L t) eqn:E1.
    + destruct (lt zero L) eqn:E2; [|reflexivity].
      rewrite (lt_zero_trans L t E2 E1) in H0. discriminate.
    + rewrite H0. reflexivity.
Qed.

Lemma setCurrentTime_cases_witness :
  getCurrentTime (setCurrentTime half (scenario_clip [])) = half.
Proof.
  apply (proj1 (setCurrentTime_cases half (scenario_clip [])
                  ltac:(vm_compute; reflexivity)));
    vm_compute; reflexivity.
Defined.

(** ** Loading *)

Lemma setClip_success_effect (env : Env) (clipPath : string)
  (p p' : UnityAudioPlayer) :
  setClip env clipPath p = Some (p', true) ->
  exists audio frames,
    frames_of (Z.of_nat (List.length (samples audio))) (channelCount audio)
    = Some frames /\
    p' = set_clip (sampleRate audio) (channelCount audio) frames (samples audio)
           (set_clipPath clipPath p).
Proof.
  unfold setClip, loadAudioData. intros H.
  destruct (is_empty _); [discriminate|].
  destruct (decoder env clipPath _) as [audio|]; [|discriminate].
  destruct (frames_of _ _) as [frames|] eqn:Ef; [|discriminate].
  inversion H; subst. exists audio, frames. auto.
Qed.

Lemma frames_of_positive (size channels frames : Z) :
  0 <= size < 2 ^ 31 -> 1 <= channels < 2 ^ 31 ->
  frames_of size channels = Some frames ->
  frames = size / channels.
Proof.
  intros Hs Hc. unfold frames_of.
  replace (channels =? 0) with false by (symmetry; apply Z.eqb_neq; lia).
  intros H. inversion H. clear H.
  rewrite (Z.mod_small channels) by lia.
  assert (0 <= size / channels <= size).
  { split; [apply Z.div_pos; lia|].
    apply Z.div_le_upper_bound; [lia|nia]. }
  unfold wrap_int. rewrite Z.mod_small by lia. lia.
Qed.

(** X13.  When [setClip] succeeds, the decoder has produced audio from the
    bytes read for that path, and the player holds exactly that audio: its
    samples, its sample rate and its channel count, together with the
    requested path; the clip members are of the form [clip_loaded] when the
    channel count is an [int] and there are fewer than [2^31] samples; with
    at least one channel the frame count is the whole number of frames in
    the buffer ([totalFrames * channels <= size < (totalFrames + 1) *
    channels]); and the state, position, volume, loop flag and stream are
    those from before the call: loading does not rewind or stop the
    player. *)
Theorem setClip_success (env : Env) (clipPath : string) (p p' : UnityAudioPlayer) :
  setClip env clipPath p = Some (p', true) ->
  INT_MIN <= m_channels p' <= INT_MAX ->
  Z.of_nat (List.length (m_interleavedData p')) < 2 ^ 31 ->
  (exists audio : AudioData,
      is_empty (fileData env clipPath) = false /\
      decoder env clipPath (fileData env clipPath) = Some audio /\
      m_interleavedData p' = samples audio /\
      m_sampleRate p' = sampleRate audio /\
      m_channels p' = channelCount audio) /\
  clip_loaded p' /\
  (1 <= m_channels p' ->
   0 <= m_totalFrames p' /\
   m_totalFrames p' * m_channels p' <= Z.of_nat (List.length (m_interleavedData p'))
   < (m_totalFrames p' + 1) * m_channels p') /\
  m_clipPath p' = clipPath /\
  m_state p' = m_state p /\
  m_currentTime p' = m_currentTime p /\
  m_volume p' = m_volume p /\
  m_loop p' = m_loop p /\
  m_audioStream p' = m_audioStream p.
Proof.
  intros H Hc Hl.
  assert (Hd : exists audio frames,
             is_empty (fileData env clipPath) = false /\
             decoder env clipPath (fileData env clipPath) = Some audio /\
             frames_of (Z.of_nat (List.length (samples audio))) (channelCount audio)
             = Some frames /\
             p' = set_clip (sampleRate audio) (channelCount audio) frames
                    (samples audio) (set_clipPath clipPath p)).
  { revert H. unfold setClip, loadAudioData. cbv zeta.
    change (if String.prefix "assets/" clipPath
            then loadAssetData env
                   (String.substring 7 (String.length clipPath - 7) clipPath)
            else loadFileData env clipPath) with (fileData env clipPath).
    destruct (is_empty (fileData env clipPath)); [discriminate|].
    destruct (decoder env clipPath (fileData env clipPath)) as [audio|];
      [|discriminate].
    destruct (frames_of _ _) as [frames|] eqn:Ef; [|discriminate].
    intros H. inversion H; subst. exists audio, frames. auto. }
  destruct Hd as (audio & frames & Hne & Hdec & Ef & Ep). subst p'.
  cbn [set_clip set_clipPath m_interleavedData m_sampleRate m_channels m_totalFrames
       m_clipPath m_state m_currentTime m_volume m_loop m_audioStream] in *.
  split; [exists audio; auto|].
  split; [split; [exact Hc | split; [exact Hl | exact Ef]]|].
  split; [|repeat split].
  intros H1.
  assert (Hs' : 0 <= Z.of_nat (List.length (samples audio)) < 2 ^ 31) by lia.
  destruct (frames_of_cases _ _ _ Hs' Hc Ef) as [[_ H2]|[H3 _]]; [|lia].
  subst frames. split; [apply Z.div_pos; lia|]. split.
  - rewrite Z.mul_comm. apply Z.mul_div_le. lia.
  - pose proof (Z.mul_succ_div_gt (Z.of_nat (List.length (samples audio)))
                  (channelCount audio)). lia.
Qed.

Lemma setClip_success_witness :
  (exists audio : AudioData,
      is_empty (fileData (decoding_env odd_stereo) "clip.wav"%string) = false /\
      decoder (decoding_env odd_stereo) "clip.wav"%string
        (fileData (decoding_env odd_stereo) "clip.wav"%string) = Some audio /\
      [one; zero; one; zero; half] = samples audio /\
      44100 = sampleRate audio /\
      2 = channelCount audio) /\
  m_totalFrames (set_clip 44100 2 2 (samples odd_stereo)
                   (set_clipPath "clip.wav"%string (scenario_end []))) = 2 /\
  m_state (set_clip 44100 2 2 (samples odd_stereo)
             (set_clipPath "clip.wav"%string (scenario_end [])))
  = AUDIO_STATE_STOPPED.
Proof.
  destruct (setClip_success (decoding_env odd_stereo) "clip.wav"%string (scenario_end [])
              (set_clip 44100 2 2 (samples odd_stereo)
                 (set_clipPath "clip.wav"%string (scenario_end []))))
    as (Ha & _ & _ & _ & Hs & _).
  - vm_compute. reflexivity.
  - vm_compute. split; discriminate.
  - vm_compute. reflexivity.
  - split; [exact Ha|]. split; [reflexivity | exact Hs].
Defined.

(** X14.  A clip with fewer samples than channels loads successfully with a
    frame count of 0 and a non-empty buffer; on such a clip a callback of at
    least one frame made while Playing with the loop flag on computes a
    remainder by zero frames: its behaviour is undefined. *)
Theorem onAudioReady_loop_on_frameless_clip :
  (forall (env : Env) (clipPath : string) (p p' : UnityAudioPlayer),
      setClip env clipPath p = Some (p', true) ->
      0 < Z.of_nat (List.length (m_interleavedData p')) < m_channels p' ->
      m_channels p' < 2 ^ 31 ->
      m_totalFrames p' = 0 /\ is_empty (m_interleavedData p') = false) /\
  (forall (p : UnityAudioPlayer) (audioStream : AudioStream) (numFrames cur : Z),
      m_state p = AUDIO_STATE_PLAYING ->
      is_empty (m_interleavedData p) = false ->
      m_totalFrames p = 0 ->
      m_loop p = true ->
      to_int (mul (m_currentTime p) (of_int (m_sampleRate p))) = Some cur ->
      0 <= cur -> 1 <= numFrames ->
      onAudioReady p audioStream numFrames = None).
Proof.
  split.
  - intros env clipPath p p' H Hlen Hc.
    destruct (setClip_success_effect env clipPath p p' H) as (audio & frames & Ef & Ep).
    subst p'. cbn in *.
    apply frames_of_positive in Ef; [|lia|lia]. subst frames.
    split; [apply Z.div_small; lia|].
    destruct (samples audio); [cbn in Hlen; lia | reflexivity].
  - intros p audioStream numFrames cur Hs Hne Ht Hloop Hcur H0 Hn.
    rewrite (onAudioReady_playing p audioStream numFrames cur Hs Hne Hcur).
    unfold framesToCopy. rewrite Ht.
    assert (Hm : Z.min numFrames (0 - cur) = - cur) by lia. rewrite Hm.
    unfold copyFrames, for_upto.
    replace (Z.to_nat (- cur)) with 0%nat by lia. cbn [for_loop bind].
    replace (- cur <? numFrames) with true by (symmetry; apply Z.ltb_lt; lia).
    rewrite Hloop. unfold wrapFrames, for_upto.
    destruct (Z.to_nat (numFrames - - cur)) as [|k] eqn:Ek; [lia|].
    cbn [for_loop]. unfold c_rem at 1. rewrite Ht. reflexivity.
Qed.

Lemma onAudioReady_loop_on_frameless_clip_witness :
  (m_totalFrames (set_clip 44100 2 0 [one] (set_clipPath "clip.wav"%string looping_player)) = 0
   /\ is_empty (m_interleavedData
                  (set_clip 44100 2 0 [one] (set_clipPath "clip.wav"%string looping_player)))
      = false)
  /\ onAudioReady (set_clip 44100 2 0 [one] (set_clipPath "clip.wav"%string looping_player))
                  stereo_stream 4 = None.
Proof.
  split.
  - apply (proj1 onAudioReady_loop_on_frameless_clip (decoding_env lone_sample)
             "clip.wav"%string looping_player);
      vm_compute; try reflexivity; split; reflexivity.
  - apply (proj2 onAudioReady_loop_on_frameless_clip
             (set_clip 44100 2 0 [one] (set_clipPath "clip.wav"%string looping_player))
             stereo_stream 4 0);
      vm_compute; try reflexivity; discriminate.
Defined.

(** X15.  When the source is readable, not empty, and the decoder reports
    zero channels, [loadAudioData] divides the sample count by zero: the
    behaviour of [setClip] is undefined (it does not return [false]). *)
Theorem setClip_zero_channels (env : Env) (clipPath : string) (p : UnityAudioPlayer)
  (bytes : list Byte.byte) (audio : AudioData) :
  String.prefix "assets/" clipPath = false ->
  fileSystem env clipPath = Some (bytes, true) ->
  is_empty bytes = false ->
  decoder env clipPath bytes = Some audio ->
  channelCount audio = 0 ->
  setClip env clipPath p = None.
Proof.
  intros Hp Hf Hb Hd Hc. unfold setClip, loadAudioData, loadFileData.
  rewrite Hp, Hf. cbn [negb]. rewrite Hb, Hd.
  unfold frames_of. rewrite Hc. reflexivity.
Qed.

Lemma setClip_zero_channels_witness :
  setClip (decoding_env no_channels) "clip.wav"%string newPlayer = None.
Proof.
  apply (setClip_zero_channels (decoding_env no_channels) "clip.wav"%string newPlayer
           [Byte.x00] no_channels); reflexivity.
Defined.

(** X16.  A path that starts with "assets/" is looked up in the asset
    manager only, under the name that follows the prefix.  When no asset
    manager has been set, when the asset cannot be opened, or when
    [AAsset_read] returns a count other than the asset's length, [setClip]
    returns [false] and changes nothing but the stored path, whatever the
    file system holds. *)
Theorem setClip_asset_failures (env : Env) (clipPath : string) (p : UnityAudioPlayer) :
  String.prefix "assets/" clipPath = true ->
  (g_assetManager env = None \/
   exists open,
     g_assetManager env = Some open /\
     (open (String.substring 7 (String.length clipPath - 7) clipPath) = None \/
      exists buffer read,
        open (String.substring 7 (String.length clipPath - 7) clipPath)
        = Some (buffer, read) /\
        read <> Z.of_nat (List.length buffer))) ->
  setClip env clipPath p = Some (set_clipPath clipPath p, false).
Proof.
  intros Hp H. unfold setClip, loadAudioData. rewrite Hp.
  assert (E : loadAssetData env
                (String.substring 7 (String.length clipPath - 7) clipPath) = []).
  { unfold loadAssetData.
    destruct H as [H|(open & Ho & [H|(buffer & read & H & Hr)])].
    - rewrite H. reflexivity.
    - rewrite Ho, H. reflexivity.
    - rewrite Ho, H. apply Z.eqb_neq in Hr. rewrite Hr. reflexivity. }
  rewrite E. reflexivity.
Qed.

Lemma setClip_asset_failures_witness :
  setClip (decoding_env odd_stereo) "assets/clip.wav"%string newPlayer
  = Some (set_clipPath "assets/clip.wav"%string newPlayer, false).
Proof.
  apply (setClip_asset_failures (decoding_env odd_stereo) "assets/clip.wav"%string newPlayer).
  - reflexivity.
  - left. reflexivity.
Defined.

(** ** Delayed play *)

Lemma play_keeps_delay (r_open r_start : Result) (w : World) :
  m_delayTime (player (play r_open r_start w)) = m_delayTime (player w) /\
  m_delayCancelled (player (play r_open r_start w)) = m_delayCancelled (player w).
Proof.
  destruct w as [p d]. destruct p. unfold play, unpause, openStream, release.
  cbn [player device m_state m_audioStream].
  repeat match goal with
         | |- context [match ?x with _ => _ end] => destruct x; cbn
         end; split; reflexivity.
Qed.

(** X17.  [playWithDelay] called while an earlier delayed play is still
    waiting for its deadline [d] does not return before that deadline: the
    earlier worker runs to [d], calls [play()] there, and only then is the
    new worker started, with its own delay counted from [d]. *)
Theorem playWithDelay_waits_for_pending (r_open r_start : Result) (delay : float)
  (t : Timeline) (d ms : Z) :
  m_delayThread t = Some (Waiting d) ->
  now t < d ->
  to_int (mul delay (of_int 1000)) = Some ms ->
  exists t',
    playWithDelay r_open r_start delay t = Some t' /\
    now t' = d /\
    fired t' = fired t ++ [d] /\
    m_delayThread t' = Some (Waiting (d + ms)) /\
    world t'
    = play r_open r_start
        (mkWorld (set_delayCancelled false (set_delayTime delay (player (world t))))
                 (device (world t))).
Proof.
  intros Ht Hd Hms. unfold playWithDelay, update_player.
  cbn [m_delayThread]. rewrite Ht. unfold join. cbn [m_delayThread now].
  unfold advance. cbn [m_delayThread now].
  replace (Z.max (now t) d) with d by lia.
  rewrite Z.leb_refl. unfold scheduleDelayedPlay_wake.
  cbn [world player m_delayCancelled set_delayCancelled negb now fired m_delayThread].
  destruct (play_keeps_delay r_open r_start
              (mkWorld (set_delayCancelled false (set_delayTime delay (player (world t))))
                       (device (world t)))) as [Hdt _].
  cbn [player] in Hdt. rewrite Hdt.
  cbn [m_delayTime set_delayCancelled set_delayTime]. rewrite Hms. cbn [bind].
  eexists. split; [reflexivity|].
  cbn [now fired m_delayThread world].
  replace (Z.max (now t) d) with d by lia.
  repeat split; reflexivity.
Qed.

Lemma playWithDelay_waits_for_pending_witness :
  exists t',
    playWithDelay OK OK half
      (mkTimeline (mkWorld (set_delayTime f0_2 newPlayer) newDevice) 50
                  (Some (Waiting 200)) [])
    = Some t' /\
    now t' = 200 /\
    fired t' = [] ++ [200] /\
    m_delayThread t' = Some (Waiting (200 + 500)) /\
    world t'
    = play OK OK
        (mkWorld (set_delayCancelled false
                    (set_delayTime half (set_delayTime f0_2 newPlayer)))
                 newDevice).
Proof.
  apply (playWithDelay_waits_for_pending OK OK half
           (mkTimeline (mkWorld (set_delayTime f0_2 newPlayer) newDevice) 50
                       (Some (Waiting 200)) [])
           200 500);
    vm_compute; reflexivity.
Defined.

Lemma advance_fires (r_open r_start : Result) (t : Timeline) (d u : Z) :
  m_delayThread t = Some (Waiting d) -> d <= u ->
  m_delayCancelled (player (world t)) = false ->
  advance r_open r_start u t
  = mkTimeline (play r_open r_start (world t)) (Z.max (now t) u) (Some Finished)
               (fired t ++ [Z.max (now t) d]).
Proof.
  intros Ht Hd Hc. unfold advance. rewrite Ht.
  replace (d <=? u) with true by (symmetry; apply Z.leb_le; exact Hd).
  unfold scheduleDelayedPlay_wake. rewrite Hc. reflexivity.
Qed.

Lemma advance_waits (r_open r_start : Result) (t : Timeline) (d u : Z) :
  m_delayThread t = Some (Waiting d) -> u < d ->
  advance r_open r_start u t
  = mkTimeline (world t) (Z.max (now t) u) (Some (Waiting d)) (fired t).
Proof.
  intros Ht Hd. unfold advance. rewrite Ht.
  replace (d <=? u) with false by (symmetry; apply Z.leb_gt; exact Hd).
  rewrite Ht. reflexivity.
Qed.

Lemma advance_finished (r_open r_start : Result) (t : Timeline) (u : Z) :
  m_delayThread t = Some Finished \/ m_delayThread t = None ->
  fired (advance r_open r_start u t) = fired t.
Proof. intros [H|H]; unfold advance; rewrite H; reflexivity. Qed.

(** X18.  [playWithDelay] on a player with no delay thread returns at once
    without calling [play()]; the worker then calls [play()] exactly once,
    when [static_cast<int>(delay * 1000)] milliseconds have passed: not
    before, and not again afterwards. *)
Theorem playWithDelay_fires_once (r_open r_start : Result) (delay : float)
  (t : Timeline) (ms : Z) :
  m_delayThread t = None ->
  0 <= ms ->
  to_int (mul delay (of_int 1000)) = Some ms ->
  exists t',
    playWithDelay r_open r_start delay t = Some t' /\
    now t' = now t /\ fired t' = fired t /\
    (forall u, u < now t + ms -> fired (advance r_open r_start u t') = fired t) /\
    (forall u v, now t + ms <= u -> u <= v ->
       fired (advance r_open r_start u t') = fired t ++ [now t + ms] /\
       fired (advance r_open r_start v (advance r_open r_start u t'))
       = fired t ++ [now t + ms]).
Proof.
  intros Ht H0 Hms.
  set (t1 := mkTimeline
               (mkWorld (set_delayCancelled false (set_delayTime delay (player (world t))))
                        (device (world t)))
               (now t) (Some (Waiting (now t + ms))) (fired t)).
  exists t1.
  split.
  { unfold playWithDelay, update_player. cbn [m_delayThread]. rewrite Ht.
    cbn [world player m_delayTime set_delayCancelled set_delayTime now fired].
    rewrite Hms. reflexivity. }
  split; [reflexivity|]. split; [reflexivity|].
  split.
  - intros u Hu.
    rewrite (advance_waits r_open r_start t1 (now t + ms) u eq_refl Hu). reflexivity.
  - intros u v Hu Hv.
    rewrite (advance_fires r_open r_start t1 (now t + ms) u eq_refl Hu eq_refl).
    cbn [now fired t1]. replace (Z.max (now t) (now t + ms)) with (now t + ms) by lia.
    split; [reflexivity|].
    apply advance_finished. left. reflexivity.
Qed.

Lemma playWithDelay_fires_once_witness :
  exists t',
    playWithDelay OK OK f0_2 newTimeline = Some t' /\
    now t' = now newTimeline /\ fired t' = fired newTimeline /\
    (forall u, u < now newTimeline + 200 ->
       fired (advance OK OK u t') = fired newTimeline) /\
    (forall u v, now newTimeline + 200 <= u -> u <= v ->
       fired (advance OK OK u t') = fired newTimeline ++ [now newTimeline + 200] /\
       fired (advance OK OK v (advance OK OK u t'))
       = fired newTimeline ++ [now newTimeline + 200]).
Proof.
  apply (playWithDelay_fires_once OK OK f0_2 newTimeline 200);
    vm_compute; try reflexivity; discriminate.
Defined.

(** X19.  The destructor, run while the delay worker (if any) has not
    reached its deadline, never lets [play()] fire: nothing is fired by it
    or at any later time, the thread is joined, the cancellation flag is
    raised, and a held stream is closed and the pointer emptied. *)
Theorem destroy_cancels_and_closes (r_open r_start : Result) (t : Timeline) :
  (forall d, m_delayThread t = Some (Waiting d) -> now t < d) ->
  fired (destroy t) = fired t /\
  (forall u, fired (advance r_open r_start u (destroy t)) = fired t) /\
  m_delayThread (destroy t) = None /\
  m_delayCancelled (player (world (destroy t))) = true /\
  m_audioStream (player (world (destroy t))) = None /\
  closed_streams (device (world (destroy t)))
  = closed_streams (device (world t))
    ++ held_list (m_audioStream (player (world t))).
Proof.
  intros _. destruct t as [w n th f]. destruct w as [p d]. destruct p.
  unfold destroy, update_player, advance.
  destruct th as [wk|]; destruct m_audioStream0 as [id|];
    cbn [world player device now fired m_delayThread m_audioStream m_delayCancelled
         set_delayCancelled set_audioStream held_list];
    rewrite ?closed_streams_record, ?app_nil_r;
    repeat split; reflexivity.
Qed.

Lemma destroy_cancels_and_closes_witness :
  fired (destroy (mkTimeline (play OK OK newWorld) 50 (Some (Waiting 200)) [])) = [] /\
  (forall u,
     fired (advance OK OK u
              (destroy (mkTimeline (play OK OK newWorld) 50 (Some (Waiting 200)) [])))
     = []) /\
  m_delayThread (destroy (mkTimeline (play OK OK newWorld) 50 (Some (Waiting 200)) []))
  = None /\
  m_delayCancelled
    (player (world (destroy (mkTimeline (play OK OK newWorld) 50
                               (Some (Waiting 200)) [])))) = true /\
  m_audioStream
    (player (world (destroy (mkTimeline (play OK OK newWorld) 50
                               (Some (Waiting 200)) [])))) = None /\
  closed_streams
    (device (world (destroy (mkTimeline (play OK OK newWorld) 50
                               (Some (Waiting 200)) []))))
  = closed_streams (device (play OK OK newWorld))
    ++ held_list (m_audioStream (player (play OK OK newWorld))).
Proof.
  apply (destroy_cancels_and_closes OK OK
           (mkTimeline (play OK OK newWorld) 50 (Some (Waiting 200)) [])).
  intros d H. inversion H. reflexivity.
Defined.

(** ** The handle table *)

Lemma find_erase_same (h : Z) (m : list (Z * UnityAudioPlayer)) :
  find h (erase h m) = None.
Proof.
  induction m as [|[k v] m IH]; [reflexivity|].
  cbn [erase]. destruct (k =? h) eqn:E; [exact IH|].
  cbn [find]. rewrite E. exact IH.
Qed.

Lemma find_erase_other (h h' : Z) (m : list (Z * UnityAudioPlayer)) :
  h <> h' -> find h' (erase h m) = find h' m.
Proof.
  intros Hn. induction m as [|[k v] m IH]; [reflexivity|].
  cbn [erase find]. destruct (k =? h) eqn:E.
  - apply Z.eqb_eq in E. subst k.
    replace (h =? h') with false by (symmetry; apply Z.eqb_neq; exact Hn).
    exact IH.
  - cbn [find]. rewrite IH. reflexivity.
Qed.

Lemma find_assign_same (h : Z) (v : UnityAudioPlayer) (m : list (Z * UnityAudioPlayer)) :
  find h (assign h v m) = Some v.
Proof. unfold assign. cbn [find]. rewrite Z.eqb_refl. reflexivity. Qed.

Lemma find_assign_other (h h' : Z) (v : UnityAudioPlayer)
  (m : list (Z * UnityAudioPlayer)) :
  h <> h' -> find h' (assign h v m) = find h' m.
Proof.
  intros Hn. unfold assign. cbn [find].
  replace (h =? h') with false by (symmetry; apply Z.eqb_neq; exact Hn).
  apply find_erase_other. exact Hn.
Qed.

Lemma find_none_not_in (h : Z) (m : list (Z * UnityAudioPlayer)) :
  find h m = None <-> ~ In h (map fst m).
Proof.
  induction m as [|[k v] m IH]; cbn [find map fst In].
  - tauto.
  - destruct (k =? h) eqn:E.
    + apply Z.eqb_eq in E. split; [discriminate|]. intros H. exfalso. auto.
    + apply Z.eqb_neq in E. rewrite IH. tauto.
Qed.

Lemma erase_keys_subset (h x : Z) (m : list (Z * UnityAudioPlayer)) :
  In x (map fst (erase h m)) -> In x (map fst m) /\ x <> h.
Proof.
  induction m as [|[k v] m IH]; cbn [erase map fst In]; [tauto|].
  destruct (k =? h) eqn:E.
  - intros H. destruct (IH H). auto.
  - apply Z.eqb_neq in E. cbn [map fst In]. intros [H|H].
    + subst. auto.
    + destruct (IH H). auto.
Qed.

Lemma erase_NoDup (h : Z) (m : list (Z * UnityAudioPlayer)) :
  NoDup (map fst m) -> NoDup (map fst (erase h m)).
Proof.
  induction m as [|[k v] m IH]; cbn [erase map fst]; intros H; [constructor|].
  inversion H as [|? ? Hk Hm]; subst.
  destruct (k =? h); [apply IH; exact Hm|].
  cbn [map fst]. constructor; [|apply IH; exact Hm].
  intros Hin. apply erase_keys_subset in Hin. tauto.
Qed.

Lemma assign_NoDup (h : Z) (v : UnityAudioPlayer) (m : list (Z * UnityAudioPlayer)) :
  NoDup (map fst m) -> NoDup (map fst (assign h v m)).
Proof.
  intros H. unfold assign. cbn [map fst]. constructor; [|apply erase_NoDup; exact H].
  intros Hin. apply erase_keys_subset in Hin. tauto.
Qed.

Lemma assign_keys (h x : Z) (v : UnityAudioPlayer) (m : list (Z * UnityAudioPlayer)) :
  In x (map fst (assign h v m)) -> x = h \/ In x (map fst m).
Proof.
  unfold assign. cbn [map fst In]. intros [H|H]; [auto|].
  apply erase_keys_subset in H. tauto.
Qed.

(** X20.  On a handle that is not in the table (never issued, or destroyed)
    every call of the interface leaves the whole process state as it is, and
    the queries answer with their defaults: position [0.0], volume [0.0]
    (not the [1.0] of a new player), loop off, not playing, state Idle. *)
Theorem unknown_handle_is_ignored (r : Registry) (handle : Z) (env : Env)
  (r_open r_start : Result) (x : float) (b : bool) (clipPath : string) :
  find handle (g_audioPlayers r) = None ->
  CInterface.Destroy handle r = r /\
  CInterface.Play r_open r_start handle r = r /\
  CInterface.Pause handle r = r /\
  CInterface.Stop handle r = r /\
  CInterface.UnPause handle r = r /\
  CInterface.SetCurrentTime handle x r = r /\
  CInterface.OffsetTime handle x r = r /\
  CInterface.ResetTime handle r = r /\
  CInterface.RestartTime r_open r_start handle r = r /\
  CInterface.SetClip env handle clipPath r = Some r /\
  CInterface.SetVolume handle x r = r /\
  CInterface.SetLoop handle b r = r /\
  CInterface.GetCurrentTime handle r = zero /\
  CInterface.GetVolume handle r = zero /\
  CInterface.GetLoop handle r = false /\
  CInterface.IsPlaying handle r = false /\
  CInterface.GetState handle r = AUDIO_STATE_IDLE.
Proof.
  intros H.
  unfold CInterface.Destroy, CInterface.Play, CInterface.Pause, CInterface.Stop,
    CInterface.UnPause, CInterface.SetCurrentTime, CInterface.OffsetTime,
    CInterface.ResetTime, CInterface.RestartTime, CInterface.SetClip,
    CInterface.SetVolume, CInterface.SetLoop, CInterface.GetCurrentTime,
    CInterface.GetVolume, CInterface.GetLoop, CInterface.IsPlaying,
    CInterface.GetState, on_world, on_player.
  rewrite H. repeat split.
Qed.

Lemma unknown_handle_is_ignored_witness :
  CInterface.Destroy 42 newRegistry = newRegistry /\
  CInterface.Play OK OK 42 newRegistry = newRegistry /\
  CInterface.Pause 42 newRegistry = newRegistry /\
  CInterface.Stop 42 newRegistry = newRegistry /\
  CInterface.UnPause 42 newRegistry = newRegistry /\
  CInterface.SetCurrentTime 42 half newRegistry = newRegistry /\
  CInterface.OffsetTime 42 half newRegistry = newRegistry /\
  CInterface.ResetTime 42 newRegistry = newRegistry /\
  CInterface.RestartTime OK OK 42 newRegistry = newRegistry /\
  CInterface.SetClip no_files 42 "clip.wav" newRegistry = Some newRegistry /\
  CInterface.SetVolume 42 half newRegistry = newRegistry /\
  CInterface.SetLoop 42 true newRegistry = newRegistry /\
  CInterface.GetCurrentTime 42 newRegistry = zero /\
  CInterface.GetVolume 42 newRegistry = zero /\
  CInterface.GetLoop 42 newRegistry = false /\
  CInterface.IsPlaying 42 newRegistry = false /\
  CInterface.GetState 42 newRegistry = AUDIO_STATE_IDLE.
Proof.
  apply (unknown_handle_is_ignored newRegistry 42 no_files OK OK half true "clip.wav").
  reflexivity.
Defined.

Lemma registry_ok_on_player (f : UnityAudioPlayer -> UnityAudioPlayer) (h : Z)
  (r : Registry) : registry_ok r -> registry_ok (on_player f h r).
Proof.
  intros (Hn & Hd & Hf). unfold on_player.
  destruct (find h (g_audioPlayers r)) as [p|] eqn:E; [|repeat split; assumption].
  unfold registry_ok, handles. cbn [g_nextPlayerId g_audioPlayers].
  split; [exact Hn|]. split; [apply assign_NoDup; exact Hd|].
  apply Forall_forall. intros x Hx. apply assign_keys in Hx.
  rewrite Forall_forall in Hf. destruct Hx as [Hx|Hx]; [|apply Hf; exact Hx].
  subst x. apply Hf. unfold handles.
  destruct (in_dec Z.eq_dec h (map fst (g_audioPlayers r))) as [Hin|Hin]; [exact Hin|].
  apply find_none_not_in in Hin. congruence.
Qed.

Lemma registry_ok_on_world (f : World -> World) (h : Z) (r : Registry) :
  registry_ok r -> registry_ok (on_world f h r).
Proof.
  intros (Hn & Hd & Hf). unfold on_world.
  destruct (find h (g_audioPlayers r)) as [p|] eqn:E; [|repeat split; assumption].
  unfold registry_ok, handles. cbn [g_nextPlayerId g_audioPlayers].
  split; [exact Hn|]. split; [apply assign_NoDup; exact Hd|].
  apply Forall_forall. intros x Hx. apply assign_keys in Hx.
  rewrite Forall_forall in Hf. destruct Hx as [Hx|Hx]; [|apply Hf; exact Hx].
  subst x. apply Hf. unfold handles.
  destruct (in_dec Z.eq_dec h (map fst (g_audioPlayers r))) as [Hin|Hin]; [exact Hin|].
  apply find_none_not_in in Hin. congruence.
Qed.

Lemma creates_cons (c : InterfaceCall) (cs : list InterfaceCall) :
  creates (c :: cs) = (creates [c] + creates cs)%nat.
Proof. unfold creates. destruct c; reflexivity. Qed.

(** One call on a well-formed table whose counter the call does not
    overflow. *)
Lemma registry_ok_step (c : InterfaceCall) (r : Registry) :
  registry_ok r ->
  g_nextPlayerId r + Z.of_nat (creates [c]) <= INT_MAX ->
  registry_ok (snd (interface_step c r)) /\
  fst (interface_step c r) = handles_from (g_nextPlayerId r) (creates [c]) /\
  g_nextPlayerId (snd (interface_step c r))
  = g_nextPlayerId r + Z.of_nat (creates [c]).
Proof.
  intros Hok Hb.
  destruct c; cbn [interface_step CInterface.Create fst snd];
    change (creates [ICreate]) with 1%nat in *;
    try change (creates [_]) with 0%nat in *;
    unfold CInterface.Play, CInterface.Pause, CInterface.Stop, CInterface.UnPause,
      CInterface.SetCurrentTime, CInterface.OffsetTime, CInterface.ResetTime,
      CInterface.RestartTime, CInterface.SetVolume, CInterface.SetLoop;
    try (split; [first [apply registry_ok_on_player | apply registry_ok_on_world];
                 exact Hok
                | split; [reflexivity|];
                  unfold on_player, on_world;
                  destruct (find _ _); cbn [g_nextPlayerId]; lia]).
  - destruct Hok as (Hn & Hd & Hf). unfold INT_MAX in Hb.
    assert (Hw : wrap_int (g_nextPlayerId r + 1) = g_nextPlayerId r + 1)
      by (apply wrap_int_small; lia).
    split; [|split].
    + unfold registry_ok, handles. cbn [g_nextPlayerId g_audioPlayers].
      rewrite Hw.
      split; [lia|]. split; [apply assign_NoDup; exact Hd|].
      apply Forall_forall. intros x Hx. apply assign_keys in Hx.
      rewrite Forall_forall in Hf. destruct Hx as [Hx|Hx]; [lia|].
      specialize (Hf x Hx). lia.
    + unfold handles_from. cbn. f_equal. lia.
    + cbn [g_nextPlayerId]. rewrite Hw. lia.
  - unfold CInterface.Destroy.
    destruct (find handle (g_audioPlayers r)) as [p|] eqn:E;
      cbn [g_nextPlayerId]; (split; [|split; [reflexivity|lia]]); [|exact Hok].
    destruct Hok as (Hn & Hd & Hf).
    unfold registry_ok, handles. cbn [g_nextPlayerId g_audioPlayers].
    split; [exact Hn|]. split; [apply erase_NoDup; exact Hd|].
    apply Forall_forall. intros x Hx. apply erase_keys_subset in Hx.
    rewrite Forall_forall in Hf. apply Hf. tauto.
Qed.

Lemma map_seq_offset (first : Z) (k : nat) :
  forall (b s : nat),
    map (fun i => first + Z.of_nat k + Z.of_nat i) (seq s b)
    = map (fun i => first + Z.of_nat i) (seq (k + s) b).
Proof.
  induction b as [|b IH]; intros s; [reflexivity|].
  cbn [seq map]. f_equal; [lia|].
  rewrite IH. rewrite Nat.add_succ_r. reflexivity.
Qed.

Lemma handles_from_app (first : Z) (a b : nat) :
  handles_from first a ++ handles_from (first + Z.of_nat a) b
  = handles_from first (a + b).
Proof.
  unfold handles_from. rewrite seq_app, map_app. f_equal.
  rewrite map_seq_offset. rewrite Nat.add_0_r. reflexivity.
Qed.

Lemma run_interface_ok (cs : list InterfaceCall) :
  forall r, registry_ok r ->
    g_nextPlayerId r + Z.of_nat (creates cs) <= INT_MAX ->
    registry_ok (snd (run_interface cs r)) /\
    fst (run_interface cs r) = handles_from (g_nextPlayerId r) (creates cs) /\
    g_nextPlayerId (snd (run_interface cs r))
    = g_nextPlayerId r + Z.of_nat (creates cs).
Proof.
  induction cs as [|c cs IH]; intros r Hok Hb.
  - cbn [run_interface fst snd creates filter List.length handles_from seq map].
    split; [exact Hok|]. split; [reflexivity|]. cbn. lia.
  - rewrite creates_cons in *. cbn [run_interface].
    destruct (registry_ok_step c r Hok ltac:(lia)) as (Hok1 & Hh1 & Hn1).
    destruct (interface_step c r) as [hs r1]. cbn [fst snd] in *.
    destruct (IH r1 Hok1 ltac:(lia)) as (Hok2 & Hh2 & Hn2).
    destruct (run_interface cs r1) as [hs' r2]. cbn [fst snd] in *.
    split; [exact Hok2|]. split.
    + rewrite Hh1, Hh2, Hn1. apply handles_from_app.
    + rewrite Hn2, Hn1. lia.
Qed.

Lemma registry_ok_new : registry_ok newRegistry.
Proof. unfold registry_ok. cbn. repeat split; [lia|constructor|constructor]. Qed.

(** X21.  Through any sequence of interface calls on a new process that
    holds fewer than [INT_MAX] (2^31 - 1) calls of [Create], so that the
    [int] counter [g_nextPlayerId] does not overflow, the handles returned
    by [Create] are 1, 2, 3, ... in order: a handle is never issued twice,
    not even after it was destroyed; the table never holds a handle twice,
    and holds only handles that were issued. *)
Theorem handles_are_never_reused (cs : list InterfaceCall) :
  Z.of_nat (creates cs) < INT_MAX ->
  fst (run_interface cs newRegistry) = handles_from 1 (creates cs) /\
  NoDup (fst (run_interface cs newRegistry)) /\
  registry_ok (snd (run_interface cs newRegistry)) /\
  g_nextPlayerId (snd (run_interface cs newRegistry))
  = 1 + Z.of_nat (creates cs).
Proof.
  intros Hb.
  destruct (run_interface_ok cs newRegistry registry_ok_new) as (Hok & Hh & Hn).
  { cbn [g_nextPlayerId newRegistry]. lia. }
  cbn [g_nextPlayerId newRegistry] in *.
  split; [exact Hh|]. split; [|split; assumption].
  rewrite Hh. unfold handles_from.
  apply NoDup_map_inv with (f := fun z => Z.to_nat (z - 1)).
  rewrite map_map. erewrite map_ext; [rewrite map_id; apply seq_NoDup|].
  intros a. cbv beta. lia.
Qed.

Lemma handles_are_never_reused_witness :
  fst (run_interface [ICreate; ICreate; IDestroy 1; ICreate; IDestroy 3; ICreate]
         newRegistry) = [1; 2; 3; 4] /\
  NoDup (fst (run_interface [ICreate; ICreate; IDestroy 1; ICreate; IDestroy 3; ICreate]
                newRegistry)).
Proof.
  destruct (handles_are_never_reused
              [ICreate; ICreate; IDestroy 1; ICreate; IDestroy 3; ICreate])
    as (H1 & H2 & _).
  - vm_compute. reflexivity.
  - split; [exact H1 | exact H2].
Defined.

(** X22.  [Create] returns the next identifier as handle and stores under it
    a new player (Idle, position 0, volume 1, loop off, no clip, no stream);
    in a well-formed table the handle was not present before, every other
    handle keeps its player, and no call is made on the device. *)
Theorem Create_adds_new_player (r : Registry) :
  registry_ok r ->
  fst (CInterface.Create r) = g_nextPlayerId r /\
  find (g_nextPlayerId r) (g_audioPlayers r) = None /\
  find (g_nextPlayerId r) (g_audioPlayers (snd (CInterface.Create r))) = Some newPlayer /\
  (forall h, h <> g_nextPlayerId r ->
     find h (g_audioPlayers (snd (CInterface.Create r))) = find h (g_audioPlayers r)) /\
  g_device (snd (CInterface.Create r)) = g_device r /\
  CInterface.GetState (g_nextPlayerId r) (snd (CInterface.Create r)) = AUDIO_STATE_IDLE /\
  CInterface.GetVolume (g_nextPlayerId r) (snd (CInterface.Create r)) = one.
Proof.
  intros (Hn & Hd & Hf). unfold CInterface.Create, CInterface.GetState,
    CInterface.GetVolume. cbn [fst snd g_audioPlayers g_device].
  rewrite find_assign_same.
  split; [reflexivity|]. split.
  - apply find_none_not_in. intros Hin. rewrite Forall_forall in Hf.
    specialize (Hf _ Hin). lia.
  - split; [reflexivity|]. split.
    + intros h Hh. apply find_assign_other. congruence.
    + repeat split.
Qed.

Lemma Create_adds_new_player_witness :
  fst (CInterface.Create newRegistry) = g_nextPlayerId newRegistry /\
  find (g_nextPlayerId newRegistry) (g_audioPlayers newRegistry) = None /\
  find (g_nextPlayerId newRegistry)
       (g_audioPlayers (snd (CInterface.Create newRegistry))) = Some newPlayer /\
  (forall h, h <> g_nextPlayerId newRegistry ->
     find h (g_audioPlayers (snd (CInterface.Create newRegistry)))
     = find h (g_audioPlayers newRegistry)) /\
  g_device (snd (CInterface.Create newRegistry)) = g_device newRegistry /\
  CInterface.GetState (g_nextPlayerId newRegistry) (snd (CInterface.Create newRegistry))
  = AUDIO_STATE_IDLE /\
  CInterface.GetVolume (g_nextPlayerId newRegistry) (snd (CInterface.Create newRegistry))
  = one.
Proof.
  apply (Create_adds_new_player newRegistry).
  unfold registry_ok. cbn. repeat split; [lia|constructor|constructor].
Defined.

(** X23.  Players are independent: a call through the interface changes at
    most the player of the handle it names (for [Create], the handle it
    returns); the player stored under any other handle is the same after the
    call as before. *)
Theorem interface_calls_are_isolated (c : InterfaceCall) (r : Registry) (h : Z) :
  h <> target c r ->
  find h (g_audioPlayers (snd (interface_step c r))) = find h (g_audioPlayers r).
Proof.
  intros Hh.
  destruct c; cbn [interface_step CInterface.Create fst snd target] in *;
    unfold CInterface.Destroy, CInterface.Play, CInterface.Pause, CInterface.Stop,
      CInterface.UnPause, CInterface.SetCurrentTime, CInterface.OffsetTime,
      CInterface.ResetTime, CInterface.RestartTime, CInterface.SetVolume,
      CInterface.SetLoop, on_player, on_world;
    try (destruct (find _ (g_audioPlayers r)); cbn [g_audioPlayers];
         [|reflexivity]);
    cbn [g_audioPlayers];
    first [apply find_assign_other; congruence
          | apply find_erase_other; congruence].
Qed.

Lemma interface_calls_are_isolated_witness :
  find 1 (g_audioPlayers
            (snd (interface_step (ISetVolume 2 zero)
                    (snd (run_interface [ICreate; ICreate] newRegistry)))))
  = find 1 (g_audioPlayers (snd (run_interface [ICreate; ICreate] newRegistry))).
Proof.
  apply (interface_calls_are_isolated (ISetVolume 2 zero)
           (snd (run_interface [ICreate; ICreate] newRegistry)) 1).
  vm_compute. discriminate.
Defined.

(** X24.  [Destroy] of a handle that is in the table closes the stream its
    player holds (and closes nothing if it holds none), removes the handle,
    which is unknown from then on, and leaves every other handle's player as
    it was; destroying the same handle again changes nothing. *)
Theorem Destroy_removes_and_closes (r : Registry) (handle : Z) (p : UnityAudioPlayer) :
  find handle (g_audioPlayers r) = Some p ->
  find handle (g_audioPlayers (CInterface.Destroy handle r)) = None /\
  (forall h, h <> handle ->
     find h (g_audioPlayers (CInterface.Destroy handle r)) = find h (g_audioPlayers r)) /\
  closed_streams (g_device (CInterface.Destroy handle r))
  = closed_streams (g_device r) ++ held_list (m_audioStream p) /\
  g_nextPlayerId (CInterface.Destroy handle r) = g_nextPlayerId r /\
  CInterface.Destroy handle (CInterface.Destroy handle r) = CInterface.Destroy handle r.
Proof.
  intros H.
  assert (E : CInterface.Destroy handle r
              = mkRegistry (erase handle (g_audioPlayers r)) (g_nextPlayerId r)
                           (device (destructor (mkWorld p (g_device r))))).
  { unfold CInterface.Destroy. rewrite H. reflexivity. }
  rewrite E. cbn [g_audioPlayers g_nextPlayerId g_device].
  split; [apply find_erase_same|].
  split; [intros h Hh; apply find_erase_other; congruence|].
  split.
  - unfold destructor, destroy, update_player.
    cbn [m_delayThread world player device set_delayCancelled m_audioStream].
    destruct p. cbn [m_audioStream set_delayCancelled].
    destruct m_audioStream0 as [id|];
      cbn [world device held_list]; rewrite ?closed_streams_record, ?app_nil_r;
      reflexivity.
  - split; [reflexivity|].
    unfold CInterface.Destroy at 1. cbn [g_audioPlayers].
    rewrite find_erase_same. reflexivity.
Qed.

Lemma Destroy_removes_and_closes_witness :
  find 1 (g_audioPlayers
            (CInterface.Destroy 1
               (CInterface.Play OK OK 1 (snd (CInterface.Create newRegistry))))) = None /\
  closed_streams
    (g_device (CInterface.Destroy 1
                 (CInterface.Play OK OK 1 (snd (CInterface.Create newRegistry)))))
  = [0%nat].
Proof.
  destruct (Destroy_removes_and_closes
              (CInterface.Play OK OK 1 (snd (CInterface.Create newRegistry))) 1
              (player (play OK OK newWorld)) eq_refl) as (H1 & _ & H3 & _).
  split; [exact H1 | exact H3].
Defined.

Lemma add_nonneg_le (x y : float) :
  le zero x = true -> le zero y = true -> le zero (add x y) = true.
Proof.
  intros Hx Hy.
  destruct x as [sx|sx| |sx mx ex]; try discriminate;
    destruct y as [sy|sy| |sy my ey]; try discriminate;
    try (destruct sx; try discriminate); try (destruct sy; try discriminate);
    try reflexivity.
  unfold add, SFadd. cbn [cond_Zopp].
  destruct (shl_align mx ex (Z.min ex ey)) as [ax ex'].
  destruct (shl_align my ey (Z.min ex ey)) as [ay ey'].
  cbn [fst]. change (Z.pos ax + Z.pos ay) with (Z.pos (ax + ay)).
  cbn [binary_normalize]. unfold binary_round.
  destruct (shl_align (ax + ay) (Z.min ex ey) _) as [mz ez].
  pose proof (binary_round_aux_sign false (Z.pos mz) ez loc_Exact) as Hs.
  pose proof (binary_round_aux_not_nan false (Z.pos mz) ez loc_Exact ltac:(lia)) as Hn.
  destruct (binary_round_aux prec emax false (Z.pos mz) ez loc_Exact);
    simpl in Hs, Hn; subst; try discriminate; reflexivity.
Qed.

Lemma nativelib_onAudioReady_playing
  (p : NativeLib.UnityAudioPlayer) (audioStream : AudioStream) (numFrames : Z) :
  le zero (NativeLib.m_currentTime p) = true ->
  0 <= numFrames ->
  0 < getSampleRate audioStream < 2 ^ 31 ->
  NativeLib.onAudioReady p audioStream numFrames
  = if AudioState_eqb (NativeLib.m_state p) AUDIO_STATE_PLAYING
    then
      let t := add (NativeLib.m_currentTime p)
                   (div (of_int numFrames) (of_int (getSampleRate audioStream))) in
      if NativeLib.m_loop p
      then (NativeLib.set_currentTime zero p, Continue)
      else (NativeLib.set_state AUDIO_STATE_STOPPED (NativeLib.set_currentTime t p), Stop)
    else (p, Stop).
Proof.
  intros Ht Hn Hr. unfold NativeLib.onAudioReady.
  destruct (AudioState_eqb (NativeLib.m_state p) AUDIO_STATE_PLAYING);
    cbn [negb]; [|reflexivity].
  cbv zeta. unfold NativeLib.getMusicLength.
  cbn [NativeLib.m_currentTime NativeLib.set_currentTime NativeLib.m_loop].
  unfold ge. rewrite add_nonneg_le; [|exact Ht|apply div_of_int_nonneg; assumption].
  destruct (NativeLib.m_loop p); reflexivity.
Qed.

(** X25.  The player of [native-lib.cpp] never plays on: its clip length is
    always 0, so a callback made while it is Playing at a position that is
    not negative (and not a NaN), for a frame count that is not negative,
    stops it when loop is off (state Stopped, signal Stop) and puts the
    position back to 0 when loop is on (signal Continue); in any other state
    the callback changes nothing and signals Stop. *)
Theorem nativelib_onAudioReady_never_advances
  (p : NativeLib.UnityAudioPlayer) (audioStream : AudioStream) (numFrames : Z) :
  le zero (NativeLib.m_currentTime p) = true ->
  0 <= numFrames ->
  0 < getSampleRate audioStream < 2 ^ 31 ->
  NativeLib.onAudioReady p audioStream numFrames
  = if AudioState_eqb (NativeLib.m_state p) AUDIO_STATE_PLAYING
    then
      let t := add (NativeLib.m_currentTime p)
                   (div (of_int numFrames) (of_int (getSampleRate audioStream))) in
      if NativeLib.m_loop p
      then (NativeLib.set_currentTime zero p, Continue)
      else (NativeLib.set_state AUDIO_STATE_STOPPED (NativeLib.set_currentTime t p), Stop)
    else (p, Stop).
Proof. apply nativelib_onAudioReady_playing. Qed.

Lemma nativelib_onAudioReady_never_advances_witness :
  NativeLib.onAudioReady (nativelib_playing false) scenario_stream 512
  = (NativeLib.set_state AUDIO_STATE_STOPPED
       (NativeLib.set_currentTime
          (add zero (div (of_int 512) (of_int 48000))) (nativelib_playing false)),
     Stop).
Proof.
  apply (nativelib_onAudioReady_never_advances (nativelib_playing false)
           scenario_stream 512).
  - reflexivity.
  - lia.
  - cbn. lia.
Defined.

(** X26.  However many callbacks the stream of a [native-lib.cpp] player
    makes, a looping player that is Playing at position 0 is at position 0
    after each of them and every callback signals Continue; with loop off
    the first callback signals Stop and no further one is made. *)
Theorem nativelib_run_callbacks
  (n : nat) (p : NativeLib.UnityAudioPlayer) (audioStream : AudioStream) (numFrames : Z) :
  NativeLib.m_state p = AUDIO_STATE_PLAYING ->
  NativeLib.m_currentTime p = zero ->
  0 <= numFrames ->
  0 < getSampleRate audioStream < 2 ^ 31 ->
  (NativeLib.m_loop p = true ->
   NativeLib.run_callbacks n p audioStream numFrames = (p, repeat Continue n)) /\
  (NativeLib.m_loop p = false ->
   snd (NativeLib.run_callbacks (S n) p audioStream numFrames) = [Stop] /\
   NativeLib.m_state (fst (NativeLib.run_callbacks (S n) p audioStream numFrames))
   = AUDIO_STATE_STOPPED).
Proof.
  intros Hs Ht Hn Hr.
  assert (H1 := nativelib_onAudioReady_playing p audioStream numFrames).
  split; intros Hl.
  - induction n as [|n IH]; [reflexivity|].
    cbn [NativeLib.run_callbacks]. rewrite H1; try assumption;
      [|rewrite Ht; reflexivity].
    rewrite Hs, Hl. cbn [AudioState_eqb].
    replace (NativeLib.set_currentTime zero p) with p
      by (destruct p; cbn in Ht; subst; reflexivity).
    rewrite IH. reflexivity.
  - cbn [NativeLib.run_callbacks]. rewrite H1; try assumption;
      [|rewrite Ht; reflexivity].
    rewrite Hs, Hl. cbn [AudioState_eqb]. split; reflexivity.
Qed.

Lemma nativelib_run_callbacks_witness :
  NativeLib.run_callbacks 3 (nativelib_playing true) scenario_stream 512
  = (nativelib_playing true, [Continue; Continue; Continue]).
Proof.
  apply (proj1 (nativelib_run_callbacks 3 (nativelib_playing true) scenario_stream 512
                  eq_refl eq_refl ltac:(lia) ltac:(cbn; lia)) eq_refl).
Defined.
